(** * GlauCat vision simulator: the three assessment engines

    A shallow embedding of the three React components under
    [src/app/vision-simulator]:

    - [FieldTest.tsx]: the reaction-time peripheral-stimulus test,
    - [ContrastTest.tsx], first component: the adaptive contrast test,
    - [ContrastTest.tsx], second component ([IrisTracker]): the gaze tracker.

    Conventions of the embedding.

    - A JavaScript number is a rational ([Q]) or, where the code only ever
      produces integers (counters, indices, [Date.now()] differences), an
      integer ([Z]).  The scores and the gaze counters are computed on the
      exact values; every score is an integer obtained through
      [Math.round].  The arithmetic on [Math.random()] is modelled with its
      rounding to the nearest Number ([JS.toDouble]), which decides whether
      the bound of a range is reached.
    - A [useRef] cell and a [useState] cell are both fields of the
      component's state record; an event handler is a function from the
      state before the event to the state after it, paired with the calls
      it makes to the result callback.
    - [setTimeout] callbacks are events of their own; the state records which
      timers are pending, and an event whose timer is not pending is not
      enabled ([step] returns [None]). *)

From Stdlib Require Import String Ascii.
From Stdlib Require Import ZArith QArith Qround Qminmax Qpower Qabs List Bool Lia Lqa.
Import ListNotations.

Local Open Scope Z_scope.

(** ** JavaScript primitives used by the components *)

Module JS.

(** [Math.round]: the nearest integer, a tie going towards +infinity. *)
Definition Math_round (x : Q) : Z := Qfloor (x + (1 # 2)).

(** [xs.reduce((a, b) => a + b, 0)] on an array of integers. *)
Definition sum (xs : list Z) : Z := fold_left Z.add xs 0.

(** A string is its sequence of UTF-16 code units. *)
Definition jsstring := list N.

Definition str (s : string) : jsstring :=
  map N_of_ascii (list_ascii_of_string s).

(** The code units [String.prototype.trim] strips: ECMAScript's WhiteSpace
    and LineTerminator productions. *)
Definition isWhiteSpace (c : N) : bool :=
  ((9 <=? c) && (c <=? 13) || (c =? 32) || (c =? 160) || (c =? 5760)
   || (8192 <=? c) && (c <=? 8202) || (c =? 8232) || (c =? 8233)
   || (c =? 8239) || (c =? 8287) || (c =? 12288) || (c =? 65279))%N.

Fixpoint trimStart (s : jsstring) : jsstring :=
  match s with
  | [] => []
  | c :: s' => if isWhiteSpace c then trimStart s' else s
  end.

Definition trimEnd (s : jsstring) : jsstring := rev (trimStart (rev s)).

Definition trim (s : jsstring) : jsstring := trimEnd (trimStart s).

Definition eqb (a b : jsstring) : bool :=
  if list_eq_dec N.eq_dec a b then true else false.

(** [a < b] on numbers. *)
Definition ltb (a b : Q) : bool := negb (Qle_bool b a).

(** *** Numbers as IEEE 754 doubles

    A Number is a binary64 value: a whole multiple [m * 2^e] with
    [|m| <= 2^53] and [e >= -1074].  An arithmetic operation of the language
    returns the Number nearest to the exact result, a tie going to the even
    multiple.  (Overflow to Infinity is not modelled: no value below comes
    near 2^1024.) *)

Definition pow2 (k : Z) : Q := (2 ^ k)%Q.

(** The nearest integer, a tie going to the even one. *)
Definition roundHalfEven (q : Q) : Z :=
  let f := Qfloor q in
  match (q - inject_Z f ?= 1 # 2)%Q with
  | Lt => f
  | Gt => f + 1
  | Eq => if Z.even f then f else f + 1
  end.

(** For a positive [q], the exponent of the power of two at or below it. *)
Definition ilog2 (q : Q) : Z :=
  let k := Z.log2 (Qnum q) - Z.log2 (Zpos (Qden q)) in
  if Qle_bool (pow2 k) q then k else k - 1.

(** The exponent of the last place of the Numbers around a positive [q]:
    53 significant bits, and no exponent below -1074. *)
Definition ulpExp (q : Q) : Z := Z.max (ilog2 q - 52) (-1074).

(** The Number nearest to [q]. *)
Definition toDouble (q : Q) : Q :=
  if Qeq_bool q 0 then 0%Q
  else
    let a := Qabs q in
    let e := ulpExp a in
    let r := (inject_Z (roundHalfEven (a / pow2 e)) * pow2 e)%Q in
    if Qle_bool 0 q then r else (- r)%Q.

Definition isNumber (q : Q) : Prop := (toDouble q == q)%Q.

(** The largest Number below 1, the largest value [Math.random()] can
    return. *)
Definition maxRandom : Q := (1 - pow2 (-53))%Q.

End JS.

(** ** FieldTest.tsx: the stimulus trial engine *)

Module FieldTest.

Import JS.

(** [type FieldResult = { score; misses; avg; rts }] *)
Record FieldResult := mkFieldResult {
  score : Z;
  misses : Z;
  avg : Q;
  rts : list Z
}.

(** What the timer id held in [timerRef.current] stands for: the miss timer
    set by [showDot], or the 800 ms pause set by [handleClick]. *)
Inductive TimerKind := MissTimer | PauseTimer.

(** The refs and the state cells the handlers read.  The render-only
    mirrors ([reactionTimes], [misses], [trial], [dotVisible], [dotPos])
    are written in lock-step with the refs and read by no handler; they are
    left out.  [showMissFeedback] is kept, because a timer of its own clears
    it.  The trial count and the response window are numbers, not
    necessarily whole: the inputs clamp what is typed and do not round it. *)
Record State := mkState {
  started : bool;
  done : bool;
  totalTrials : Q;
  maxReaction : Q;
  reactionTimesRef : list Z;
  missesRef : Z;
  trialRef : Z;
  totalTrialsRef : Q;
  maxReactionRef : Q;
  startTimeRef : option Z;
  dotVisibleRef : bool;
  (** the pending timer whose id [timerRef.current] holds, if any *)
  timerRef : option TimerKind;
  (** pending reveal timers: [showDot]'s second [setTimeout], whose id is
      not kept and which [clearTimer] therefore never cancels *)
  pendingReveals : nat;
  showMissFeedback : bool;
  (** pending feedback timers: the 700 ms [setTimeout] of the miss-timer
      callback, whose id is not kept either *)
  pendingFeedback : nat
}.

(** The component as mounted, with the configuration chosen through the
    two number inputs (defaults 6 and 2000). *)
Definition mount (trials : Q) (maxMs : Q) : State :=
  {| started := false; done := false;
     totalTrials := trials; maxReaction := maxMs;
     reactionTimesRef := []; missesRef := 0; trialRef := 0;
     totalTrialsRef := 6 # 1; maxReactionRef := 2000 # 1;
     startTimeRef := None; dotVisibleRef := false;
     timerRef := None; pendingReveals := 0;
     showMissFeedback := false; pendingFeedback := 0 |}.

(** Assignments to one cell. *)
Definition set_started (v : bool) (s : State) : State :=
  mkState v (done s) (totalTrials s) (maxReaction s) (reactionTimesRef s)
    (missesRef s) (trialRef s) (totalTrialsRef s) (maxReactionRef s)
    (startTimeRef s) (dotVisibleRef s) (timerRef s) (pendingReveals s)
    (showMissFeedback s) (pendingFeedback s).
Definition set_done (v : bool) (s : State) : State :=
  mkState (started s) v (totalTrials s) (maxReaction s) (reactionTimesRef s)
    (missesRef s) (trialRef s) (totalTrialsRef s) (maxReactionRef s)
    (startTimeRef s) (dotVisibleRef s) (timerRef s) (pendingReveals s)
    (showMissFeedback s) (pendingFeedback s).
Definition set_reactionTimesRef (v : list Z) (s : State) : State :=
  mkState (started s) (done s) (totalTrials s) (maxReaction s) v
    (missesRef s) (trialRef s) (totalTrialsRef s) (maxReactionRef s)
    (startTimeRef s) (dotVisibleRef s) (timerRef s) (pendingReveals s)
    (showMissFeedback s) (pendingFeedback s).
Definition set_missesRef (v : Z) (s : State) : State :=
  mkState (started s) (done s) (totalTrials s) (maxReaction s) (reactionTimesRef s)
    v (trialRef s) (totalTrialsRef s) (maxReactionRef s)
    (startTimeRef s) (dotVisibleRef s) (timerRef s) (pendingReveals s)
    (showMissFeedback s) (pendingFeedback s).
Definition set_trialRef (v : Z) (s : State) : State :=
  mkState (started s) (done s) (totalTrials s) (maxReaction s) (reactionTimesRef s)
    (missesRef s) v (totalTrialsRef s) (maxReactionRef s)
    (startTimeRef s) (dotVisibleRef s) (timerRef s) (pendingReveals s)
    (showMissFeedback s) (pendingFeedback s).
Definition set_totalTrialsRef (v : Q) (s : State) : State :=
  mkState (started s) (done s) (totalTrials s) (maxReaction s) (reactionTimesRef s)
    (missesRef s) (trialRef s) v (maxReactionRef s)
    (startTimeRef s) (dotVisibleRef s) (timerRef s) (pendingReveals s)
    (showMissFeedback s) (pendingFeedback s).
Definition set_maxReactionRef (v : Q) (s : State) : State :=
  mkState (started s) (done s) (totalTrials s) (maxReaction s) (reactionTimesRef s)
    (missesRef s) (trialRef s) (totalTrialsRef s) v
    (startTimeRef s) (dotVisibleRef s) (timerRef s) (pendingReveals s)
    (showMissFeedback s) (pendingFeedback s).
Definition set_startTimeRef (v : option Z) (s : State) : State :=
  mkState (started s) (done s) (totalTrials s) (maxReaction s) (reactionTimesRef s)
    (missesRef s) (trialRef s) (totalTrialsRef s) (maxReactionRef s)
    v (dotVisibleRef s) (timerRef s) (pendingReveals s)
    (showMissFeedback s) (pendingFeedback s).
Definition set_dotVisibleRef (v : bool) (s : State) : State :=
  mkState (started s) (done s) (totalTrials s) (maxReaction s) (reactionTimesRef s)
    (missesRef s) (trialRef s) (totalTrialsRef s) (maxReactionRef s)
    (startTimeRef s) v (timerRef s) (pendingReveals s)
    (showMissFeedback s) (pendingFeedback s).
Definition set_timerRef (v : option TimerKind) (s : State) : State :=
  mkState (started s) (done s) (totalTrials s) (maxReaction s) (reactionTimesRef s)
    (missesRef s) (trialRef s) (totalTrialsRef s) (maxReactionRef s)
    (startTimeRef s) (dotVisibleRef s) v (pendingReveals s)
    (showMissFeedback s) (pendingFeedback s).
Definition set_pendingReveals (v : nat) (s : State) : State :=
  mkState (started s) (done s) (totalTrials s) (maxReaction s) (reactionTimesRef s)
    (missesRef s) (trialRef s) (totalTrialsRef s) (maxReactionRef s)
    (startTimeRef s) (dotVisibleRef s) (timerRef s) v
    (showMissFeedback s) (pendingFeedback s).
Definition set_showMissFeedback (v : bool) (s : State) : State :=
  mkState (started s) (done s) (totalTrials s) (maxReaction s) (reactionTimesRef s)
    (missesRef s) (trialRef s) (totalTrialsRef s) (maxReactionRef s)
    (startTimeRef s) (dotVisibleRef s) (timerRef s) (pendingReveals s)
    v (pendingFeedback s).
Definition set_pendingFeedback (v : nat) (s : State) : State :=
  mkState (started s) (done s) (totalTrials s) (maxReaction s) (reactionTimesRef s)
    (missesRef s) (trialRef s) (totalTrialsRef s) (maxReactionRef s)
    (startTimeRef s) (dotVisibleRef s) (timerRef s) (pendingReveals s)
    (showMissFeedback s) v.

(** [clearTimer]: a pending timer whose id is in [timerRef] is cancelled. *)
Definition clearTimer (s : State) : State := set_timerRef None s.

(** [showDot] (lines 50-83): cancel the tracked timer, hide the dot, arm
    the miss timer (its id kept in [timerRef]) and the reveal timer (its id
    dropped).  The two callbacks are [missTimer] and [revealDot] below. *)
Definition showDot (s : State) : State :=
  let s := clearTimer s in
  let s := set_dotVisibleRef false s in
  let s := set_timerRef (Some MissTimer) s in
  set_pendingReveals (S (pendingReveals s)) s.

(** The reveal callback (lines 77-82): the dot becomes visible at [now]. *)
Definition revealDot (now : Z) (s : State) : State :=
  let s := set_pendingReveals (Nat.pred (pendingReveals s)) s in
  let s := set_dotVisibleRef true s in
  set_startTimeRef (Some now) s.

(** [startTest] (lines 85-100). *)
Definition startTest (s : State) : State :=
  let s := clearTimer s in
  let s := set_reactionTimesRef [] s in
  let s := set_missesRef 0 s in
  let s := set_trialRef 0 s in
  let s := set_totalTrialsRef (totalTrials s) s in
  let s := set_maxReactionRef (maxReaction s) s in
  let s := set_done false s in
  let s := set_started true s in
  showDot s.

(** Line 129: [rts.length ? rts.reduce(...) / rts.length : maxReaction]. *)
Definition average (rts : list Z) (maxReaction : Q) : Q :=
  if (0 <? length rts)%nat
  then inject_Z (sum rts) / inject_Z (Z.of_nat (length rts))
  else maxReaction.

(** Lines 130-131: the raw score, then [Math.max(1, Math.min(10, score))]. *)
Definition computeScore (misses : Z) (avg : Q) : Z :=
  let score := 10 - misses - Math_round ((avg - (200 # 1)) / (200 # 1)) in
  Z.max 1 (Z.min 10 score).

(** [finishTest] (lines 124-135); it reads the [maxReaction] state cell. *)
Definition finishTest (s : State) : State * list FieldResult :=
  let s := clearTimer s in
  let s := set_done true s in
  let rts := reactionTimesRef s in
  let avg := average rts (maxReaction s) in
  let score := computeScore (missesRef s) avg in
  (s, [ {| score := score; misses := missesRef s; avg := avg; rts := rts |} ]).

(** The miss-timer callback of [showDot] (lines 56-76).  Once it runs its
    timer is spent, so nothing tracked by [timerRef] is pending.  A counted
    miss starts the flash and arms the 700 ms timer that ends it. *)
Definition missTimer (s : State) : State * list FieldResult :=
  let s := set_timerRef None s in
  let s :=
    if dotVisibleRef s
    then
      let s := set_missesRef (missesRef s + 1) s in
      let s := set_showMissFeedback true s in
      set_pendingFeedback (S (pendingFeedback s)) s
    else s in
  let s := set_dotVisibleRef false s in
  if ltb (inject_Z (trialRef s + 1)) (totalTrialsRef s)
  then
    let s := set_trialRef (trialRef s + 1) s in
    (showDot s, [])
  else finishTest s.

(** The callback of the 700 ms timer armed by the miss-timer callback
    (lines 61-63): the flash ends. *)
Definition endMissFeedback (s : State) : State :=
  let s := set_pendingFeedback (Nat.pred (pendingFeedback s)) s in
  set_showMissFeedback false s.

(** [!startTimeRef.current]: [null] and [0] are both falsy. *)
Definition startTimeFalsy (s : State) : bool :=
  match startTimeRef s with
  | None => true
  | Some t => t =? 0
  end.

(** [handleClick] (lines 102-122), called at time [now = Date.now()]. *)
Definition handleClick (now : Z) (s : State) : State * list FieldResult :=
  if negb (dotVisibleRef s) || startTimeFalsy s then (s, [])
  else
    let reaction := now - match startTimeRef s with Some t => t | None => 0 end in
    let s := set_reactionTimesRef (reactionTimesRef s ++ [reaction]) s in
    let s := clearTimer s in
    let s := set_dotVisibleRef false s in
    if ltb (inject_Z (trialRef s + 1)) (totalTrialsRef s)
    then
      let s := set_trialRef (trialRef s + 1) s in
      (set_timerRef (Some PauseTimer) s, [])
    else finishTest s.

(** What can happen to a mounted component. *)
Inductive Event :=
| ClickStart                 (* the Start button, rendered while [!started] *)
| RevealFires (now : Z)      (* a reveal timer of [showDot] comes due *)
| MissFires                  (* the miss timer comes due *)
| PauseFires                 (* the 800 ms pause ends: [showDot] *)
| Click (now : Z)            (* the user clicks the dot: [handleClick] *)
| FeedbackFires.             (* a 700 ms feedback timer comes due *)

Definition step (s : State) (e : Event) : option (State * list FieldResult) :=
  match e with
  | ClickStart => if started s then None else Some (startTest s, [])
  | RevealFires now =>
      match pendingReveals s with
      | O => None
      | S _ => Some (revealDot now s, [])
      end
  | MissFires =>
      match timerRef s with
      | Some MissTimer => Some (missTimer s)
      | _ => None
      end
  | PauseFires =>
      match timerRef s with
      | Some PauseTimer => Some (showDot s, [])
      | _ => None
      end
  | Click now => Some (handleClick now s)
  | FeedbackFires =>
      match pendingFeedback s with
      | O => None
      | S _ => Some (endMissFeedback s, [])
      end
  end.

(** A run: the events in order, the results handed to [onResult] collected. *)
Fixpoint run (s : State) (evs : list Event) : option (State * list FieldResult) :=
  match evs with
  | [] => Some (s, [])
  | e :: evs' =>
      match step s e with
      | None => None
      | Some (s', out) =>
          match run s' evs' with
          | None => None
          | Some (s'', outs) => Some (s'', out ++ outs)
          end
      end
  end.

(** *** The score as the specification words it *)

Definition spec_clamp (x lo hi : Z) : Z :=
  if x <? lo then lo else if hi <? x then hi else x.

Definition spec_mean (xs : list Z) : Q :=
  inject_Z (fold_right Z.add 0 xs) / inject_Z (Z.of_nat (length xs)).

Definition spec_avg (reactionTimes : list Z) (maxReactionMs : Q) : Q :=
  match reactionTimes with
  | [] => maxReactionMs
  | _ => spec_mean reactionTimes
  end.

Definition spec_score (misses : Z) (reactionTimes : list Z) (maxReactionMs : Q) : Z :=
  spec_clamp
    (10 - misses
     - Math_round ((spec_avg reactionTimes maxReactionMs - (200 # 1)) / (200 # 1)))
    1 10.

(** *** Sessions used as examples *)

(** Six trials: responses after 300 and 400 ms, a miss, a response after
    500 ms, a miss, and the dot of the sixth trial on screen. *)
Definition scenarioA_events : list Event :=
  [ ClickStart;
    RevealFires 1000; Click 1300; PauseFires;
    RevealFires 3000; Click 3400; PauseFires;
    RevealFires 5000; MissFires;
    RevealFires 9000; Click 9500; PauseFires;
    RevealFires 11000; MissFires;
    RevealFires 15000 ].

Definition stateAfter (s : State) (evs : list Event) : State :=
  match run s evs with
  | Some (s', _) => s'
  | None => s
  end.

Definition resultsOf (s : State) (evs : list Event) : list FieldResult :=
  match run s evs with
  | Some (_, out) => out
  | None => []
  end.

Definition scenarioA_state : State :=
  Eval vm_compute in stateAfter (mount (6 # 1) (2000 # 1)) scenarioA_events.


Definition scenarioA_result : FieldResult :=
  Eval vm_compute in hd (mkFieldResult 0 0 0 []) (resultsOf scenarioA_state [Click 15600]).

(** Three trials, every one of them missed. *)
Definition scenarioB_events : list Event :=
  [ ClickStart;
    RevealFires 1000; MissFires;
    RevealFires 5000; MissFires;
    RevealFires 9000; MissFires ].

(** A trial awaiting its response: the dot is on screen and the miss timer
    is pending. *)
Definition awaitingResponse : State :=
  Eval vm_compute in stateAfter (mount (6 # 1) (2000 # 1)) [ClickStart; RevealFires 1000].

Definition afterMiss : State :=
  Eval vm_compute in stateAfter awaitingResponse [MissFires].

End FieldTest.


(** ** ContrastTest.tsx, first component: the adaptive plate engine *)

Module ContrastTest.

Import JS.

Local Open Scope Q_scope.

Definition TOTAL_TRIALS : Z := 9.
Definition MIN_CONTRAST : Q := 0.08.
Definition MAX_CONTRAST : Q := 0.98.

Inductive Orientation := vertical | horizontal | diagonal.

(** The string a grating's [orientation] field holds. *)
Definition orientationLabel (o : Orientation) : jsstring :=
  match o with
  | vertical => str "vertical"
  | horizontal => str "horizontal"
  | diagonal => str "diagonal"
  end.

(** [type Plate]: the variant tagged by [type]. *)
Inductive Plate :=
| grating (orientation : Orientation) (baseContrast : Q) (freq : Z)
| noise (answer : jsstring) (baseDifficulty : Q)
| number (answer : jsstring) (baseContrast : Q).

Definition basePlates : list Plate :=
  [ grating vertical 0.85 8;
    grating horizontal 0.7 12;
    grating diagonal 0.55 10;
    noise (str "12") 1;
    noise (str "8") 2;
    noise (str "29") 3;
    number (str "5") 0.32;
    number (str "3") 0.22;
    number (str "7") 0.14 ].

(** [hash] (lines 86-88); [%] is the remainder that takes the dividend's
    sign. *)
Definition hash (x : Z) : Z := Z.rem (x * 9301 + 49297) 233280.

(** [Number(c.toFixed(3))]: the nearest multiple of 1/1000, a tie going up. *)
Definition toFixed3 (c : Q) : Q :=
  inject_Z (Qfloor (c * 1000 + (1 # 2))) / 1000.

(** [levelToContrast] (lines 92-98). *)
Definition levelToContrast (level : Z) (baseContrast : Q) : Q :=
  let factor := 0.2 + (inject_Z level / 8) * 0.8 in
  let c := Qmax MIN_CONTRAST (Qmin MAX_CONTRAST (baseContrast * factor)) in
  toFixed3 c.

(** [levelToDifficulty] (lines 101-106). *)
Definition levelToDifficulty (level : Z) (baseDifficulty : Q) : Q :=
  let factor := 0.2 + (inject_Z level / 8) * 0.8 in
  Qmax 0.05 (Qmin 1 (1 - (baseDifficulty - 1) * 0.15) * factor).

(** [basePlates[idx]]: [undefined] outside the array. *)
Definition plateAt (idx : Z) : option Plate :=
  if (idx <? 0)%Z then None else nth_error basePlates (Z.to_nat idx).

(** [currentPlate]: the chosen plate spread into a new object together with
    its effective [contrast] or [difficultyFactor]. *)
Record CurrentPlate := mkCurrentPlate {
  plate : Plate;
  contrast : option Q;
  difficultyFactor : option Q
}.

(** One entry of [history]. *)
Record HistoryRecord := mkRecord {
  recPlate : CurrentPlate;
  recContrast : Q;
  correct : bool;
  user : jsstring
}.

Inductive Phase := calibration | testing | done.

Record State := mkState {
  phase : Phase;
  scale : Q;
  trialIndex : Z;
  staircaseLevel : Z;
  answers : list jsstring;
  currentAnswer : jsstring;
  history : list HistoryRecord;
  showResult : bool;
  (** [rngSeed.current], drawn once when the component mounts *)
  rngSeed : Z;
  (** the record lists of the [setTimeout(() => finishTest(...), 120)]
      callbacks that have not run yet, oldest first *)
  pendingFinish : list (list HistoryRecord)
}.

Definition mount (seed : Z) : State :=
  {| phase := calibration; scale := 1; trialIndex := 0; staircaseLevel := 4;
     answers := []; currentAnswer := []; history := []; showResult := false;
     rngSeed := seed; pendingFinish := [] |}.

Definition set_phase (v : Phase) (s : State) : State :=
  mkState v (scale s) (trialIndex s) (staircaseLevel s) (answers s)
    (currentAnswer s) (history s) (showResult s) (rngSeed s) (pendingFinish s).
Definition set_scale (v : Q) (s : State) : State :=
  mkState (phase s) v (trialIndex s) (staircaseLevel s) (answers s)
    (currentAnswer s) (history s) (showResult s) (rngSeed s) (pendingFinish s).
Definition set_trialIndex (v : Z) (s : State) : State :=
  mkState (phase s) (scale s) v (staircaseLevel s) (answers s)
    (currentAnswer s) (history s) (showResult s) (rngSeed s) (pendingFinish s).
Definition set_staircaseLevel (v : Z) (s : State) : State :=
  mkState (phase s) (scale s) (trialIndex s) v (answers s)
    (currentAnswer s) (history s) (showResult s) (rngSeed s) (pendingFinish s).
Definition set_answers (v : list jsstring) (s : State) : State :=
  mkState (phase s) (scale s) (trialIndex s) (staircaseLevel s) v
    (currentAnswer s) (history s) (showResult s) (rngSeed s) (pendingFinish s).
Definition set_currentAnswer (v : jsstring) (s : State) : State :=
  mkState (phase s) (scale s) (trialIndex s) (staircaseLevel s) (answers s)
    v (history s) (showResult s) (rngSeed s) (pendingFinish s).
Definition set_history (v : list HistoryRecord) (s : State) : State :=
  mkState (phase s) (scale s) (trialIndex s) (staircaseLevel s) (answers s)
    (currentAnswer s) v (showResult s) (rngSeed s) (pendingFinish s).
Definition set_showResult (v : bool) (s : State) : State :=
  mkState (phase s) (scale s) (trialIndex s) (staircaseLevel s) (answers s)
    (currentAnswer s) (history s) v (rngSeed s) (pendingFinish s).
Definition set_pendingFinish (v : list (list HistoryRecord)) (s : State) : State :=
  mkState (phase s) (scale s) (trialIndex s) (staircaseLevel s) (answers s)
    (currentAnswer s) (history s) (showResult s) (rngSeed s) v.

(** [choosePlateForLevel] (lines 109-113); it reads [trialIndex] and the
    seed from the component. *)
Definition choosePlateForLevel (s : State) (level : Z) : option Plate :=
  let idx :=
    Z.rem (trialIndex s + level + Z.abs (hash (rngSeed s)))
          (Z.of_nat (length basePlates)) in
  plateAt idx.

(** [currentPlate] (lines 116-133); [None] is [null]. *)
Definition currentPlate (s : State) : option CurrentPlate :=
  match choosePlateForLevel s (staircaseLevel s) with
  | None => None
  | Some p =>
      match p with
      | grating _ baseContrast _ =>
          Some (mkCurrentPlate p (Some (levelToContrast (staircaseLevel s) baseContrast)) None)
      | number _ baseContrast =>
          Some (mkCurrentPlate p (Some (levelToContrast (staircaseLevel s) baseContrast)) None)
      | noise _ baseDifficulty =>
          Some (mkCurrentPlate p None (Some (levelToDifficulty (staircaseLevel s) baseDifficulty)))
      end
  end.

(** [finishTest] (lines 291-298): the score handed to [onResult]. *)
Definition correctCount (allRecords : list HistoryRecord) : Z :=
  Z.of_nat (length (filter correct allRecords)).

Definition finalScore (allRecords : list HistoryRecord) : Z :=
  Z.max 1 (Math_round ((inject_Z (correctCount allRecords) / inject_Z TOTAL_TRIALS) * 9) + 1).

Definition finishTest (allRecords : list HistoryRecord) (s : State) : State * list Z :=
  let s := set_showResult true s in
  let s := set_phase done s in
  (s, [finalScore allRecords]).

(** Which of the three returns of the render function is on screen. *)
Inductive View := CalibrationView | ResultsView | TestingView.

Definition view (s : State) : View :=
  match phase s with
  | calibration => CalibrationView
  | done => if showResult s then ResultsView else TestingView
  | testing => TestingView
  end.

Inductive Event :=
| ChangeScale (v : Q)          (* the calibration slider *)
| ClickStartTest               (* the Start Test button *)
| ChangeAnswer (v : jsstring)  (* typing into the answer input *)
| Submit                       (* the form's submit / Enter: [handleSubmit] *)
| FinishTimerFires             (* the oldest pending 120 ms timer comes due *)
| ClickRetry.                  (* the Retry button of the results view *)

Section WithCaseMapping.

(** [String.prototype.toLowerCase]: its Unicode case tables are the
    platform's, not the repository's, so the mapping is a parameter. *)
Variable toLowerCase : jsstring -> jsstring.

(** Lines 252-258 of [handleSubmit]. *)
Definition evaluate (cp : CurrentPlate) (ans : jsstring) : bool :=
  match plate cp with
  | grating orientation _ _ =>
      eqb (toLowerCase ans) (toLowerCase (orientationLabel orientation))
  | noise answer _ => eqb (toLowerCase ans) (toLowerCase answer)
  | number answer _ => eqb (toLowerCase ans) (toLowerCase answer)
  end.

(** [contrast ?? difficultyFactor ?? 0] (line 263). *)
Definition recordContrast (cp : CurrentPlate) : Q :=
  match contrast cp with
  | Some c => c
  | None => match difficultyFactor cp with Some d => d | None => 0 end
  end.

(** [handleSubmit] (lines 240-289).  The values read from the closure
    ([currentAnswer], [currentPlate], [trialIndex], [history]) are those of
    the state the handler was rendered with; the setters are applied to it.
    With [currentPlate] null the read of its [contrast] throws before any
    setter runs, which leaves the state as it was. *)
Definition handleSubmit (s : State) : State :=
  let ans := trim (currentAnswer s) in
  if (length ans =? 0)%nat then s
  else
    match currentPlate s with
    | None => s
    | Some cp =>
        let correct := evaluate cp ans in
        let record := mkRecord cp (recordContrast cp) correct ans in
        let s' := set_history (history s ++ [record]) s in
        let s' :=
          if correct
          then set_staircaseLevel (Z.min 8 (staircaseLevel s' + 1)) s'
          else set_staircaseLevel (Z.max 0 (staircaseLevel s' - 1)) s' in
        let s' := set_answers (answers s' ++ [ans]) s' in
        let s' := set_currentAnswer [] s' in
        let s' := set_trialIndex (trialIndex s' + 1) s' in
        if (trialIndex s + 1 >=? TOTAL_TRIALS)%Z
        then set_pendingFinish (pendingFinish s' ++ [history s ++ [record]]) s'
        else s'
    end.

(** The Start Test button (lines 335-341). *)
Definition startTest (s : State) : State :=
  let s := set_phase testing s in
  let s := set_trialIndex 0 s in
  let s := set_history [] s in
  let s := set_answers [] s in
  set_staircaseLevel 4 s.

(** The Retry button (lines 381-389). *)
Definition retry (s : State) : State :=
  let s := set_phase calibration s in
  let s := set_showResult false s in
  let s := set_trialIndex 0 s in
  let s := set_history [] s in
  let s := set_answers [] s in
  set_currentAnswer [] s.

(** One event; [None] when the control is not on screen or no timer is
    pending.  The second component lists the scores handed to [onResult]. *)
Definition step (s : State) (e : Event) : option (State * list Z) :=
  match e, view s with
  | ChangeScale v, CalibrationView => Some (set_scale v s, [])
  | ClickStartTest, CalibrationView => Some (startTest s, [])
  | ChangeAnswer v, TestingView => Some (set_currentAnswer v s, [])
  | Submit, TestingView => Some (handleSubmit s, [])
  | ClickRetry, ResultsView => Some (retry s, [])
  | FinishTimerFires, _ =>
      match pendingFinish s with
      | [] => None
      | allRecords :: rest => Some (finishTest allRecords (set_pendingFinish rest s))
      end
  | _, _ => None
  end.

Fixpoint run (s : State) (evs : list Event) : option (State * list Z) :=
  match evs with
  | [] => Some (s, [])
  | e :: evs' =>
      match step s e with
      | None => None
      | Some (s', out) =>
          match run s' evs' with
          | None => None
          | Some (s'', outs) => Some (s'', out ++ outs)
          end
      end
  end.

End WithCaseMapping.

(** A case mapping to run the model with: Basic Latin capitals to small
    letters, every other code unit kept. *)
Definition asciiLowerCase (s : jsstring) : jsstring :=
  map (fun c => if ((65 <=? c) && (c <=? 90))%N then (c + 32)%N else c) s.

(** What every reachable state satisfies: the trial index is not negative,
    the level is one of 0..8, and while a session is on screen with no
    finish callback pending, [history] has one record per completed trial
    and fewer than nine trials are complete. *)
Definition Inv (s : State) : Prop :=
  (0 <= trialIndex s)%Z
  /\ (0 <= staircaseLevel s <= 8)%Z
  /\ (pendingFinish s = [] -> view s = TestingView ->
      Z.of_nat (length (history s)) = trialIndex s /\ (trialIndex s <= 8)%Z).

(** *** The score as the specification words it *)

Definition spec_score (correctCount : Z) : Z :=
  Z.max 1 (Math_round ((inject_Z correctCount / 9) * 9) + 1).

(** *** Sessions used as examples *)

(** A session: Start Test, then each answer typed and submitted. *)
Definition session (typed : list string) : list Event :=
  ClickStartTest :: flat_map (fun a => [ChangeAnswer (str a); Submit]) typed.

Definition stateAfter (s : State) (evs : list Event) : State :=
  match run asciiLowerCase s evs with
  | Some (s', _) => s'
  | None => s
  end.

(** With seed 0 the plates shown are 7, horizontal, 12, 29, 3, 7 and then
    the vertical grating three times: six right answers, three wrong. *)
Definition scenarioC_first8 : list string :=
  [ "7"; "Horizontal"; "12"; "29"; "3"; " 7 "; "x"; "diagonal" ]%string.

Definition scenarioC_typed : State :=
  Eval vm_compute in
    stateAfter (mount 0) (session scenarioC_first8 ++ [ChangeAnswer (str "horizontal")]).

Definition scenarioC_submitted : State :=
  Eval vm_compute in stateAfter scenarioC_typed [Submit].

Definition scenarioC_records : list HistoryRecord :=
  Eval vm_compute in history scenarioC_submitted.

(** With seed 0 and right answers only, the plates shown are 7,
    horizontal, 12, 29, 3, 7, vertical, horizontal, diagonal and then 12. *)
Definition nineRight : list string :=
  [ "7"; "Horizontal"; "12"; "29"; "3"; "7"; "vertical"; "horizontal";
    "diagonal" ]%string.

(** The ninth right answer has been submitted; its 120 ms timer is pending. *)
Definition ninthSubmitted : State :=
  Eval vm_compute in stateAfter (mount 0) (session nineRight).

(** A tenth right answer typed and submitted before that timer comes due,
    then the two timers. *)
Definition tenthAnswer_events : list Event :=
  [ChangeAnswer (str "12"); Submit; FinishTimerFires; FinishTimerFires].

(** Five right answers from level 4: the level is 8 and a sixth right
    answer is in the input. *)
Definition level8Typed : State :=
  Eval vm_compute in
    stateAfter (mount 0)
      (session [ "7"; "Horizontal"; "12"; "29"; "3" ]%string
       ++ [ChangeAnswer (str " 7 ")]).

(** Wrong answers only, seven of them. *)
Definition scenarioE_events : list Event :=
  session [ "x"; "x"; "x"; "x"; "x"; "x"; "x" ]%string.

(** The level after each prefix of a list of events. *)
Fixpoint levelsAlong (s : State) (evs : list Event) : list Z :=
  match evs with
  | [] => []
  | e :: evs' =>
      match step asciiLowerCase s e with
      | None => []
      | Some (s', _) =>
          match e with
          | Submit => staircaseLevel s' :: levelsAlong s' evs'
          | _ => levelsAlong s' evs'
          end
      end
  end.

(** A blank answer in the input: two spaces and a tab. *)
Definition blankTyped : State :=
  Eval vm_compute in
    stateAfter (mount 0) [ClickStartTest; ChangeAnswer [32; 32; 9]%N].

(** Two components with the same seed, trial index and level that differ in
    what was typed and in the scale. *)
Definition sameTrialA : State :=
  Eval vm_compute in
    stateAfter (mount 12345) [ClickStartTest; ChangeAnswer (str "12")].

Definition sameTrialB : State :=
  Eval vm_compute in
    stateAfter (mount 12345) [ChangeScale 1.25; ClickStartTest].

End ContrastTest.


(** ** ContrastTest.tsx, second component: IrisTracker, the gaze tracker *)

Module IrisTracker.

Local Open Scope Q_scope.

Definition DX_THRESHOLD : Q := 0.035.
Definition DY_THRESHOLD : Q := 0.03.
Definition MIN_DETECTIONS : Z := 8.
Definition CALIB_DURATION_FRAMES : Z := 40.

(** A landmark, in normalized image coordinates. *)
Record Point := mkPoint { x : Q; y : Q }.

(** What FaceMesh hands to [onResults]: [multiFaceLandmarks] is absent, or
    an array with one landmark array per face. *)
Record Results := mkResults { multiFaceLandmarks : option (list (list Point)) }.

(** [detections.current] *)
Record Detections := mkDetections { left : Z; right : Z; up : Z; down : Z }.

(** [baseline.current], when it is not [null] *)
Record Baseline := mkBaseline { lx : Q; ly : Q; rx : Q; ry : Q }.

Inductive Verdict := normal | abnormal.

(** [type ResultSummary]; the four flags are its keys [left], [right],
    [up] and [down]. *)
Record ResultSummary := mkResult {
  leftSeen : bool;
  rightSeen : bool;
  upSeen : bool;
  downSeen : bool;
  verdict : Verdict
}.

Record State := mkState {
  running : bool;
  detections : Detections;
  baseline : option Baseline;
  calibFrames : Z;
  frameCount : Z;
  (** a FaceMesh instance has been created and [onResults] registered *)
  faceMesh : bool;
  (** [isMounted] of the effect run that registered [onResults] *)
  isMounted : bool;
  (** [stopTimer] is pending *)
  stopTimer : bool
}.

Definition noDetections : Detections := mkDetections 0 0 0 0.

Definition mount : State :=
  {| running := false; detections := noDetections; baseline := None;
     calibFrames := 0; frameCount := 0;
     faceMesh := false; isMounted := true; stopTimer := false |}.

Definition set_running (v : bool) (s : State) : State :=
  mkState v (detections s) (baseline s) (calibFrames s) (frameCount s)
    (faceMesh s) (isMounted s) (stopTimer s).
Definition set_detections (v : Detections) (s : State) : State :=
  mkState (running s) v (baseline s) (calibFrames s) (frameCount s)
    (faceMesh s) (isMounted s) (stopTimer s).
Definition set_baseline (v : option Baseline) (s : State) : State :=
  mkState (running s) (detections s) v (calibFrames s) (frameCount s)
    (faceMesh s) (isMounted s) (stopTimer s).
Definition set_calibFrames (v : Z) (s : State) : State :=
  mkState (running s) (detections s) (baseline s) v (frameCount s)
    (faceMesh s) (isMounted s) (stopTimer s).
Definition set_frameCount (v : Z) (s : State) : State :=
  mkState (running s) (detections s) (baseline s) (calibFrames s) v
    (faceMesh s) (isMounted s) (stopTimer s).
Definition set_faceMesh (v : bool) (s : State) : State :=
  mkState (running s) (detections s) (baseline s) (calibFrames s) (frameCount s)
    v (isMounted s) (stopTimer s).
Definition set_isMounted (v : bool) (s : State) : State :=
  mkState (running s) (detections s) (baseline s) (calibFrames s) (frameCount s)
    (faceMesh s) v (stopTimer s).
Definition set_stopTimer (v : bool) (s : State) : State :=
  mkState (running s) (detections s) (baseline s) (calibFrames s) (frameCount s)
    (faceMesh s) (isMounted s) v.

Definition leftEyeIdx : list nat := [33; 133; 159; 158; 157; 173; 246]%nat.
Definition rightEyeIdx : list nat := [362; 263; 386; 385; 384; 398; 466]%nat.

(** The loop of [eyeCentroid]: [None] when [lm[i]] is [undefined], where
    the read of its [x] throws. *)
Fixpoint sumLandmarks (lm : list Point) (indices : list nat) (sx sy : Q)
  : option (Q * Q) :=
  match indices with
  | [] => Some (sx, sy)
  | i :: rest =>
      match nth_error lm i with
      | None => None
      | Some p => sumLandmarks lm rest (sx + x p) (sy + y p)
      end
  end.

(** [eyeCentroid] (lines 692-700).  The sums and the quotients are the
    exact ones; the code's are their roundings to Numbers, so its centroid
    can differ from this one in the last place. *)
Definition eyeCentroid (lm : list Point) (indices : list nat) : option Point :=
  match sumLandmarks lm indices 0 0 with
  | None => None
  | Some (sx, sy) =>
      Some (mkPoint (sx / inject_Z (Z.of_nat (length indices)))
                    (sy / inject_Z (Z.of_nat (length indices))))
  end.

(** The calibration branch (lines 745-759), entered with the two centroids. *)
Definition calibrate (leftC rightC : Point) (s : State) : State :=
  let b :=
    match baseline s with
    | None => mkBaseline (x leftC) (y leftC) (x rightC) (y rightC)
    | Some b => b
    end in
  let n := inject_Z (calibFrames s) in
  let b := mkBaseline ((lx b * n + x leftC) / (n + 1)) (ly b) (rx b) (ry b) in
  let b := mkBaseline (lx b) ((ly b * n + y leftC) / (n + 1)) (rx b) (ry b) in
  let b := mkBaseline (lx b) (ly b) ((rx b * n + x rightC) / (n + 1)) (ry b) in
  let b := mkBaseline (lx b) (ly b) (rx b) ((ry b * n + y rightC) / (n + 1)) in
  let s := set_baseline (Some b) s in
  set_calibFrames (calibFrames s + 1)%Z s.

(** The tracking part (lines 761-781). *)
Definition track (leftC rightC : Point) (s : State) : State :=
  let b :=
    match baseline s with
    | None => mkBaseline (x leftC) (y leftC) (x rightC) (y rightC)
    | Some b => b
    end in
  let s := set_baseline (Some b) s in
  let ldx := x leftC - lx b in
  let ldy := y leftC - ly b in
  let rdx := x rightC - rx b in
  let rdy := y rightC - ry b in
  let dx := (ldx + rdx) / 2 in
  let dy := (ldy + rdy) / 2 in
  let d := detections s in
  let d := if Qle_bool dx (- DX_THRESHOLD)
           then mkDetections (left d + 1) (right d) (up d) (down d) else d in
  let d := if Qle_bool DX_THRESHOLD dx
           then mkDetections (left d) (right d + 1) (up d) (down d) else d in
  let d := if Qle_bool dy (- DY_THRESHOLD)
           then mkDetections (left d) (right d) (up d + 1) (down d) else d in
  let d := if Qle_bool DY_THRESHOLD dy
           then mkDetections (left d) (right d) (up d) (down d + 1) else d in
  set_detections d s.

(** [onResults] (lines 659-789).  The video and canvas elements exist while
    the component is mounted; drawing on the canvas changes no cell of the
    state.  A missing landmark makes [eyeCentroid] throw: the handler stops
    there, after the frame was counted. *)
Definition onResults (results : Results) (s : State) : State :=
  if negb (isMounted s) then s
  else
    let s := set_frameCount (frameCount s + 1)%Z s in
    match multiFaceLandmarks results with
    | None => s
    | Some [] => s
    | Some (lm :: _) =>
        match eyeCentroid lm leftEyeIdx with
        | None => s
        | Some leftC =>
            match eyeCentroid lm rightEyeIdx with
            | None => s
            | Some rightC =>
                if match baseline s with None => true | Some _ => false end
                   && (calibFrames s <? CALIB_DURATION_FRAMES)%Z
                then calibrate leftC rightC s
                else track leftC rightC s
            end
        end
    end.

(** How the asynchronous [start] of the effect ends (lines 562-635). *)
Inductive StartOutcome :=
| Started        (* camera and model ready: the frame loop and timer are set *)
| NoFaceMeshLib  (* [window.FaceMesh] is missing after the script load *)
| StartError.    (* an awaited step rejected: the [catch] branch *)

(** The cleanup of the effect (lines 813-827), run when [running] changes. *)
Definition cleanup (s : State) : State :=
  let s := set_isMounted false s in
  set_stopTimer false s.

(** The Start button (lines 844-850), the cleanup of the idle effect, and
    the new effect's call of [start] with its outcome. *)
Definition clickStart (o : StartOutcome) (s : State) : State :=
  let s := set_detections noDetections s in
  let s := set_baseline None s in
  let s := set_frameCount 0 s in
  let s := set_running true s in
  let s := cleanup s in
  let s := set_faceMesh false (set_isMounted true s) in
  match o with
  | Started =>
      let s := set_faceMesh true s in
      let s := set_baseline None s in
      let s := set_calibFrames 0 s in
      let s := set_frameCount 0 s in
      let s := set_detections noDetections s in
      let s := set_stopTimer true s in
      set_running true s
  | NoFaceMeshLib => s
  | StartError => cleanup (set_running false s)
  end.

(** [finishAndCleanup] (lines 637-656), the callback of [stopTimer]. *)
Definition finishAndCleanup (s : State) : State * list ResultSummary :=
  let s := set_running false s in
  let d := detections s in
  let leftOK := (left d >=? MIN_DETECTIONS)%Z in
  let rightOK := (right d >=? MIN_DETECTIONS)%Z in
  let upOK := (up d >=? MIN_DETECTIONS)%Z in
  let downOK := (down d >=? MIN_DETECTIONS)%Z in
  let allOK := leftOK && rightOK && upOK && downOK in
  (s, [ mkResult leftOK rightOK upOK downOK (if allOK then normal else abnormal) ]).

(** The handler of the Stop button (lines 866-883). *)
Definition stopClick (s : State) : State * list ResultSummary :=
  let s := set_running false s in
  let d := detections s in
  let leftOK := (left d >=? MIN_DETECTIONS)%Z in
  let rightOK := (right d >=? MIN_DETECTIONS)%Z in
  let upOK := (up d >=? MIN_DETECTIONS)%Z in
  let downOK := (down d >=? MIN_DETECTIONS)%Z in
  let allOK := leftOK && rightOK && upOK && downOK in
  (s, [ mkResult leftOK rightOK upOK downOK (if allOK then normal else abnormal) ]).

Inductive Event :=
| ClickStart (o : StartOutcome)  (* Start Eye Test, [disabled={running}] *)
| ClickStop                      (* Stop, [disabled={!running}] *)
| StopTimerFires                 (* [durationSec] seconds have passed *)
| Frame (results : Results).     (* FaceMesh delivers a frame's results *)

(** One event, under fixed props ([durationSec], [onComplete]).  A click on
    a disabled button runs no handler.  A handler that sets [running] to
    false is followed by the effect's cleanup.  The awaits inside [start]
    are one step here: no other event is interleaved with them. *)
Definition step (s : State) (e : Event) : option (State * list ResultSummary) :=
  match e with
  | ClickStart o =>
      if running s then Some (s, []) else Some (clickStart o s, [])
  | ClickStop =>
      if running s
      then let (s', out) := stopClick s in Some (cleanup s', out)
      else Some (s, [])
  | StopTimerFires =>
      if stopTimer s
      then let (s', out) := finishAndCleanup s in Some (cleanup s', out)
      else None
  | Frame results =>
      if faceMesh s then Some (onResults results s, []) else None
  end.

Fixpoint run (s : State) (evs : list Event) : option (State * list ResultSummary) :=
  match evs with
  | [] => Some (s, [])
  | e :: evs' =>
      match step s e with
      | None => None
      | Some (s', out) =>
          match run s' evs' with
          | None => None
          | Some (s'', outs) => Some (s'', out ++ outs)
          end
      end
  end.

(** The timer is pending only while the component is running. *)
Definition TimerInv (s : State) : Prop :=
  stopTimer s = true -> running s = true.

(** Where the calibration of a session stands. *)
Definition CalibInv (s : State) : Prop :=
  (baseline s = None /\ calibFrames s = 0%Z)
  \/ (exists b, baseline s = Some b /\ calibFrames s = 1%Z).

(** Sessions begun along a run: the clicks on an enabled Start button whose
    [start] did not end in the [catch] branch. *)
Fixpoint sessionsBegun (s : State) (evs : list Event) : nat :=
  match evs with
  | [] => 0
  | e :: evs' =>
      match step s e with
      | None => 0
      | Some (s', _) =>
          (match e with
           | ClickStart Started | ClickStart NoFaceMeshLib =>
               if running s then 0 else 1
           | _ => 0
           end + sessionsBegun s' evs')%nat
      end
  end.

(** *** Sessions used as examples *)

(** A frame with a face whose 468 landmarks all sit at one point. *)
Definition faceAt (px py : Q) : Results :=
  mkResults (Some [repeat (mkPoint px py) 468]).

Definition noFace : Results := mkResults (Some []).

Definition stateAfter (s : State) (evs : list Event) : State :=
  match run s evs with
  | Some (s', _) => s'
  | None => s
  end.

(** Scenario D: a frame at the centre, then 9 frames up-left, 1 down-left,
    3 down-right and 4 straight down leave the counters at
    left 10, right 3, up 9, down 8. *)
Definition scenarioD_events : list Event :=
  [ClickStart Started; Frame (faceAt 0.5 0.5)]
  ++ repeat (Frame (faceAt 0.4 0.4)) 9
  ++ [Frame (faceAt 0.4 0.6)]
  ++ repeat (Frame (faceAt 0.6 0.6)) 3
  ++ repeat (Frame (faceAt 0.5 0.6)) 4.

Definition scenarioD_state : State :=
  Eval vm_compute in stateAfter mount scenarioD_events.

Definition scenarioD_stopped : State :=
  Eval vm_compute in stateAfter scenarioD_state [ClickStop].

Definition scenarioD_result : ResultSummary :=
  mkResult true false true true abnormal.

(** The result as the specification words it, for the counters [d] at the
    end of the session: a direction is seen exactly when its counter is at
    least 8, and the verdict is normal exactly when all four are seen. *)
Definition spec_result (d : Detections) (r : ResultSummary) : Prop :=
  (leftSeen r = true <-> (8 <= left d)%Z)
  /\ (rightSeen r = true <-> (8 <= right d)%Z)
  /\ (upSeen r = true <-> (8 <= up d)%Z)
  /\ (downSeen r = true <-> (8 <= down d)%Z)
  /\ (verdict r = normal <->
      leftSeen r = true /\ rightSeen r = true
      /\ upSeen r = true /\ downSeen r = true)
  /\ (verdict r = abnormal <->
      ~ (leftSeen r = true /\ rightSeen r = true
         /\ upSeen r = true /\ downSeen r = true)).

(** The two ways a session ends: Stop while it is running, and its timer
    coming due. *)
Definition endsSession (s : State) (e : Event) : Prop :=
  (e = ClickStop /\ running s = true)
  \/ (e = StopTimerFires /\ stopTimer s = true).

Definition scenarioD_timedOut : State :=
  Eval vm_compute in stateAfter scenarioD_state [StopTimerFires].

(** A session that ended through its timer. *)
Definition finishedSession : State :=
  Eval vm_compute in stateAfter mount [ClickStart Started; StopTimerFires].

(** Two frames of a new session: the face first at x = 0.4, then at 0.6. *)
Definition twoFrames : list Event :=
  [ClickStart Started; Frame (faceAt 0.4 0.5); Frame (faceAt 0.6 0.5)].

End IrisTracker.


(** ** FieldTest.tsx: the configuration inputs and the order of the timers *)

Module FieldTestSession.

Import JS FieldTest.

(** [randomDotPos] (lines 27-37), with [u] the value [Math.random()]
    returns; [None] is [undefined].  The product is a Number. *)
Definition positions : list (Z * Z) :=
  [ (10, 10); (170, 10); (10, 70); (170, 70); (10, 40); (170, 40) ].

Definition randomDotPos (u : Q) : option (Z * Z) :=
  let idx := Qfloor (toDouble (u * inject_Z (Z.of_nat (length positions)))) in
  if idx <? 0 then None else nth_error positions (Z.to_nat idx).

(** [getRandomDelay] (line 39), [1000 + Math.random() * 1000]: the product
    and the sum are each rounded to a Number.  Then the two delays of
    [showDot] (lines 54-55, 76, 82). *)
Definition getRandomDelay (u : Q) : Q := toDouble (1000 + toDouble (u * 1000)).

Definition revealDelay (u : Q) : Q := getRandomDelay u.

Definition missDelay (u : Q) (maxReactionRef : Q) : Q :=
  toDouble (getRandomDelay u + maxReactionRef).

(** The test area (line 167) is 200 by 100, the dot (lines 176-177) 20 by
    20, and the fixation point (line 168) 10 by 10 around the centre. *)
Definition areaWidth : Z := 200.
Definition areaHeight : Z := 100.
Definition dotSize : Z := 20.
Definition fixationFrom : Z := 95.
Definition fixationTo : Z := 105.

(** [Number(e.target.value) || d]: [None] is [NaN]; [NaN] and [0] are
    falsy and give the default.  (An infinite value is not modelled.) *)
Definition orDefault (v : option Q) (d : Q) : Q :=
  match v with
  | None => d
  | Some q => if Qeq_bool q 0 then d else q
  end.

(** The [onChange] of the Trials input (line 142). *)
Definition onChangeTrials (v : option Q) : Q :=
  Qmax 3 (Qmin 12 (orDefault v 6)).

(** The [onChange] of the Max reaction input (line 144). *)
Definition onChangeMaxReaction (v : option Q) : Q :=
  Qmax 800 (Qmin 5000 (orDefault v 2000)).

(** [showDot] arms its two timers in one call, the reveal after [delay] and
    the miss timer after [delay + maxReactionRef.current]: with a positive
    response window the reveal comes due first.  [timedStep] is [step] with
    that order: the miss timer does not fire while a reveal is pending. *)
Definition timedStep (s : State) (e : Event) : option (State * list FieldResult) :=
  match e with
  | MissFires => if (pendingReveals s =? 0)%nat then step s e else None
  | _ => step s e
  end.

Fixpoint timedRun (s : State) (evs : list Event) : option (State * list FieldResult) :=
  match evs with
  | [] => Some (s, [])
  | e :: evs' =>
      match timedStep s e with
      | None => None
      | Some (s', out) =>
          match timedRun s' evs' with
          | None => None
          | Some (s'', outs) => Some (s'', out ++ outs)
          end
      end
  end.

(** Where a session stands, in terms of the cells: before Start; between
    [showDot] and the reveal; with the dot on screen; in the pause after a
    response; finished. *)
Inductive Stage := Idle | AwaitingReveal | AwaitingResponse | InterTrialPause | Finished.

Definition stageOf (s : State) : option Stage :=
  match started s, done s, timerRef s, pendingReveals s, dotVisibleRef s with
  | false, false, None, O, false => Some Idle
  | true, false, Some MissTimer, 1%nat, false => Some AwaitingReveal
  | true, false, Some MissTimer, O, true => Some AwaitingResponse
  | true, false, Some PauseTimer, O, false => Some InterTrialPause
  | true, true, None, O, false => Some Finished
  | _, _, _, _, _ => None
  end.

(** The trials a session runs when its trial count is [trials].  The loop
    test [trialRef.current + 1 < totalTrialsRef.current] (lines 68, 115) is
    made after each trial against a count that need not be whole: the first
    trial always runs, and trials go on until their number reaches the count. *)
Definition trialsRun (trials : Q) : Z := Z.max 1 (Qceiling trials).

(** What every state of a run in timer order satisfies, for a session whose
    trial count is [trials]: the cells describe one of the five stages, every
    completed trial is either a miss or a reaction time, and the trial index
    stays below the number of trials run. *)
Definition SessionInv (trials : Q) (s : State) : Prop :=
  totalTrials s = trials
  /\ match stageOf s with
     | None => False
     | Some Idle => True
     | Some Finished =>
         totalTrialsRef s = trials
         /\ 0 <= missesRef s
         /\ missesRef s + Z.of_nat (length (reactionTimesRef s)) = trialsRun trials
     | Some _ =>
         totalTrialsRef s = trials
         /\ 0 <= missesRef s
         /\ 0 <= trialRef s < trialsRun trials
         /\ missesRef s + Z.of_nat (length (reactionTimesRef s)) = trialRef s
     end.

(** The cells of the test proper: the state with the miss flash and its
    timers set aside. *)
Definition sessionCells (s : State) : State :=
  set_showMissFeedback false (set_pendingFeedback 0 s).

(** How many of the events are feedback timers coming due. *)
Definition feedbackEvents (evs : list Event) : nat :=
  length (filter (fun e => match e with FeedbackFires => true | _ => false end) evs).

(** A session with the trial count 3.5, which the Trials input keeps as
    typed: three trials are missed and one is answered after 300 ms; each
    flash ends before the next dot is revealed. *)
Definition scenarioF_events : list Event :=
  [ ClickStart;
    RevealFires 1000; MissFires; FeedbackFires;
    RevealFires 5000; MissFires; FeedbackFires;
    RevealFires 9000; Click 9300; PauseFires;
    RevealFires 12000; MissFires ].

Definition scenarioF_final : State :=
  Eval vm_compute in stateAfter (mount (7 # 2) (2000 # 1)) scenarioF_events.

(** The same trial count with every trial missed. *)
Definition scenarioG_events : list Event :=
  [ ClickStart;
    RevealFires 1000; MissFires; FeedbackFires;
    RevealFires 5000; MissFires; FeedbackFires;
    RevealFires 9000; MissFires; FeedbackFires;
    RevealFires 13000; MissFires ].

Definition scenarioG_final : State :=
  Eval vm_compute in stateAfter (mount (7 # 2) (2000 # 1)) scenarioG_events.

End FieldTestSession.


(** ** ContrastTest.tsx: what the views draw and show *)

Module ContrastView.

Import JS ContrastTest.

Local Open Scope Q_scope.

(** [GratingSVG] (lines 144-159): the number of stripes, the amplitude
    around mid-grey 128, and the grey of stripe [i]. *)
Definition stripeCount (freq : Z) (scale : Q) : Z :=
  Z.max 4 (Math_round (inject_Z freq * scale)).

Definition gratingAmp (contrast : Q) : Z := Math_round (contrast * 120).

Definition stripeGrey (amp i : Z) : Z :=
  (128 + (if Z.rem i 2 =? 0 then amp else - amp))%Z.

(** [LowContrastNumberSVG] (lines 222-227): the background grey and the
    grey of the digit. *)
Definition numberBackground : Z := 210.

Definition numberGrey (contrast : Q) : Z :=
  Math_round (inject_Z numberBackground * (1 - contrast)).

(** [NoisePlateSVG] (lines 198-204): the colour of one background cell,
    from three draws of [Math.random()], and the colour of the number. *)
Definition noiseCell (u1 u2 u3 difficultyFactor : Q) : Z * Z * Z :=
  (Math_round (140 + u1 * (80 * difficultyFactor)),
   Math_round (120 + u2 * (60 * difficultyFactor)),
   Math_round (120 + u3 * (80 * difficultyFactor))).

Definition noiseNumber (difficultyFactor : Q) : Z * Z * Z :=
  ((80 + Math_round (60 * difficultyFactor))%Z,
   (70 + Math_round (60 * difficultyFactor))%Z,
   (70 + Math_round (60 * difficultyFactor))%Z).

(** The results view (lines 360-361): the count and the score it shows,
    computed from the [history] cell. *)
Definition displayCorrect (s : State) : Z :=
  Z.of_nat (length (filter correct (history s))).

Definition displayScore (s : State) : Z :=
  Z.max 1 (Math_round ((inject_Z (displayCorrect s) / inject_Z TOTAL_TRIALS) * 9) + 1).

Section WithCaseMapping.

Variable toLowerCase : jsstring -> jsstring.

(** What the entries of [history] and [answers] of every reachable state
    satisfy: the two lists hold the same answers in the same order, every
    answer is stored trimmed and is not empty, and every record's flag is
    the comparison of its answer with its plate. *)
Definition HistoryInv (s : State) : Prop :=
  map user (history s) = answers s
  /\ Forall (fun r => user r <> [] /\ trim (user r) = user r
                      /\ correct r = evaluate toLowerCase (recPlate r) (user r)
                      /\ In (plate (recPlate r)) basePlates)
            (history s).

End WithCaseMapping.

(** Scenario C once its finish callback has run. *)
Definition scenarioC_done : State :=
  Eval vm_compute in stateAfter scenarioC_submitted [FinishTimerFires].

End ContrastView.


(** ** page.tsx: what the simulator page does with a tracker result *)

Module Page.

Import IrisTracker.

(** [glaucomaSeverity] and [cataractSeverity] (lines 54-70): the label
    beside a score of the shared context; [None] is [null], [NotSet] the
    empty string. *)
Inductive Severity := NotSet | High | Moderate | Low.

Definition severity (score : option Z) : Severity :=
  match score with
  | None => NotSet
  | Some v => if v <=? 3 then High else if v <=? 6 then Moderate else Low
  end.

(** The [onResult] handed to [FieldTest] (lines 205-209) stores the
    result's score as the glaucoma score. *)
Definition glaucomaScoreAfter (r : FieldTest.FieldResult) : option Z :=
  Some (FieldTest.score r).

(** The [onComplete] handed to [IrisTracker] (lines 284-294): the page
    recomputes the outcome from the four flags and ignores [verdict]. *)
Definition isNormal (r : ResultSummary) : bool :=
  leftSeen r && rightSeen r && upSeen r && downSeen r.

Inductive EyeAssessmentResult := AppearsNormal | AbnormalDetected.

Definition onComplete (r : ResultSummary) : EyeAssessmentResult :=
  if isNormal r then AppearsNormal else AbnormalDetected.

End Page.

(** ** IrisTracker: invariants of the frame handler *)

Module IrisTrackerFrames.

Import IrisTracker.

(** The counters against the frames handled: none is negative, all are 0
    until a baseline exists, and on each axis the detections, plus one once
    a baseline exists, are at most the frames counted. *)
Definition FrameInv (s : State) : Prop :=
  let d := detections s in
  let calibrated := match baseline s with Some _ => 1 | None => 0 end in
  0 <= left d /\ 0 <= right d /\ 0 <= up d /\ 0 <= down d
  /\ left d + right d + calibrated <= frameCount s
  /\ up d + down d + calibrated <= frameCount s
  /\ (baseline s = None -> d = noDetections).

(** Frames with the face at the given positions. *)
Definition framesOf (positions : list (Q * Q)) : list Event :=
  map (fun p => Frame (faceAt (fst p) (snd p))) positions.

(** A look at the centre, then one to the left. *)
Definition centreThenLeft : list Event :=
  framesOf [(0.5, 0.5); (0.4, 0.5)]%Q.

End IrisTrackerFrames.


(** * Properties of the stimulus trial engine *)

Module FieldTestProofs.

Import JS FieldTest.

(** Unfolds the handlers of [FieldTest] down to record constructors. *)
Ltac field_unfold :=
  cbv [step startTest showDot revealDot missTimer handleClick finishTest
       clearTimer set_started set_done set_reactionTimesRef set_missesRef
       set_trialRef set_totalTrialsRef set_maxReactionRef set_startTimeRef
       set_dotVisibleRef set_timerRef set_pendingReveals startTimeFalsy
       set_showMissFeedback set_pendingFeedback endMissFeedback
       started done totalTrials maxReaction reactionTimesRef missesRef trialRef
       totalTrialsRef maxReactionRef startTimeRef dotVisibleRef timerRef
       pendingReveals showMissFeedback pendingFeedback] in *.

(** Splits on every test a handler makes, innermost test first. *)
Ltac field_split c :=
  lazymatch c with
  | context [match _ with _ => _ end] => fail
  | _ => destruct c eqn:?
  end.

Ltac field_cases :=
  repeat (match goal with
          | H : context [match ?c with _ => _ end] |- _ => field_split c
          | |- context [match ?c with _ => _ end] => field_split c
          end; cbv beta iota zeta in *).




Lemma Math_round_mono (p q : Q) : (p <= q)%Q -> Math_round p <= Math_round q.
Proof.
  intros H. unfold Math_round. apply Qfloor_resp_le.
  apply Qplus_le_compat; [exact H | apply Qle_refl].
Qed.

(** No event changes the configured response window. *)
Lemma step_maxReaction (s s' : State) (e : Event) (out : list FieldResult) :
  step s e = Some (s', out) -> maxReaction s' = maxReaction s.
Proof.
  destruct s, e; field_unfold; intros H; field_cases;
    inversion H; subst; reflexivity.
Qed.





(** Scenario A: 2 misses and reaction times 300, 400, 500, 600 give 7. *)
Example scenarioA_score :
  misses scenarioA_result = 2
  /\ rts scenarioA_result = [300; 400; 500; 600]
  /\ (avg scenarioA_result == 450 # 1)%Q
  /\ score scenarioA_result = 7.
Proof.
  split; [reflexivity|]. split; [reflexivity|]. split; [|reflexivity].
  vm_compute. reflexivity.
Qed.

(** Scenario B: three misses and no reaction time give the floor, 1. *)
Example scenarioB_score :
  resultsOf (mount (3 # 1) (2000 # 1)) scenarioB_events
  = [ mkFieldResult 1 3 (2000 # 1) [] ].
Proof. vm_compute. reflexivity. Qed.

(** The miss timer leaves the dot hidden. *)
Lemma missTimer_hides_dot (s s1 : State) (out : list FieldResult) :
  step s MissFires = Some (s1, out) -> dotVisibleRef s1 = false.
Proof.
  destruct s; field_unfold; intros H; field_cases;
    inversion H; subst; reflexivity.
Qed.

Lemma handleClick_hidden (now : Z) (s : State) :
  dotVisibleRef s = false -> handleClick now s = (s, []).
Proof. intros H. unfold handleClick. rewrite H. reflexivity. Qed.

(** C6. While a trial awaits its response (the miss timer is pending), the
    first of the two events wins.  If the miss timer fires first, a click
    that follows is a no-op: the state is unchanged (no reaction time is
    recorded, misses and the trial index stay), nothing is handed to
    [onResult], and every continuation of the session runs as if the click
    had not happened.  If the click comes first while the dot is visible,
    the reaction time is recorded, no miss is counted and the miss timer is
    no longer pending. *)
Theorem late_click_is_noop
  (s s1 : State) (out : list FieldResult) (now : Z) :
  step s MissFires = Some (s1, out) ->
  step s1 (Click now) = Some (s1, [])
  /\ (forall evs, run s1 (Click now :: evs) = run s1 evs)
  /\ (dotVisibleRef s = true -> startTimeFalsy s = false ->
      exists s2 out2 t0,
        startTimeRef s = Some t0
        /\ step s (Click now) = Some (s2, out2)
        /\ reactionTimesRef s2 = reactionTimesRef s ++ [now - t0]
        /\ missesRef s2 = missesRef s
        /\ step s2 MissFires = None).
Proof.
  intros Hmiss.
  assert (Hclick : step s1 (Click now) = Some (s1, [])).
  { simpl. rewrite handleClick_hidden; [reflexivity|].
    eapply missTimer_hides_dot; eauto. }
  split; [exact Hclick|]. split.
  - intros evs. cbn [run]. rewrite Hclick.
    destruct (run s1 evs) as [[s'' outs]|]; reflexivity.
  - intros Hvis Hstart. clear Hclick Hmiss s1 out.
    destruct s as [st dn tt mr rtr mi tr ttr mrr [t0|] dv tm pr sf pf];
      cbn in Hvis, Hstart; subst; [|discriminate].
    field_unfold. rewrite Hstart. cbn.
    destruct (ltb (inject_Z (tr + 1)) ttr); eexists _, _, t0; repeat split.
Qed.

Lemma late_click_is_noop_witness :
  step awaitingResponse MissFires = Some (afterMiss, [])
  /\ (step afterMiss (Click 4000) = Some (afterMiss, [])
      /\ (forall evs, run afterMiss (Click 4000 :: evs) = run afterMiss evs)
      /\ (dotVisibleRef awaitingResponse = true ->
          startTimeFalsy awaitingResponse = false ->
          exists s2 out2 t0,
            startTimeRef awaitingResponse = Some t0
            /\ step awaitingResponse (Click 4000) = Some (s2, out2)
            /\ reactionTimesRef s2 = reactionTimesRef awaitingResponse ++ [4000 - t0]
            /\ missesRef s2 = missesRef awaitingResponse
            /\ step s2 MissFires = None)).
Proof.
  assert (H : step awaitingResponse MissFires = Some (afterMiss, []))
    by (vm_compute; reflexivity).
  split; [exact H|].
  exact (late_click_is_noop awaitingResponse afterMiss [] 4000 H).
Defined.

(** C7. The score lies in 1..10, does not increase when misses grow with
    avg fixed, and does not increase when avg grows with misses fixed. *)
Theorem score_bounds_and_monotone (m m' : Z) (a a' : Q) :
  m <= m' -> (a <= a')%Q ->
  1 <= computeScore m a <= 10
  /\ computeScore m' a <= computeScore m a
  /\ computeScore m a' <= computeScore m a.
Proof.
  intros Hm Ha.
  assert (Hr : Math_round ((a - (200 # 1)) / (200 # 1))
               <= Math_round ((a' - (200 # 1)) / (200 # 1))).
  { apply Math_round_mono. unfold Qdiv.
    apply Qmult_le_compat_r; [|discriminate].
    apply Qplus_le_compat; [exact Ha | apply Qle_refl]. }
  unfold computeScore. cbv zeta. lia.
Qed.

Lemma score_bounds_and_monotone_witness :
  2 <= 3 /\ (450 # 1 <= 900 # 1)%Q
  /\ (1 <= computeScore 2 (450 # 1) <= 10
      /\ computeScore 3 (450 # 1) <= computeScore 2 (450 # 1)
      /\ computeScore 2 (900 # 1) <= computeScore 2 (450 # 1)).
Proof.
  assert (H1 : 2 <= 3) by lia.
  assert (H2 : (450 # 1 <= 900 # 1)%Q) by (unfold Qle; simpl; lia).
  split; [exact H1|]. split; [exact H2|].
  exact (score_bounds_and_monotone 2 3 (450 # 1) (900 # 1) H1 H2).
Defined.

End FieldTestProofs.


(** * Properties of the adaptive plate engine *)

Module ContrastTestProofs.

Import JS ContrastTest.

Ltac plate_unfold :=
  cbv [startTest retry finishTest set_phase set_scale set_trialIndex
       set_staircaseLevel set_answers set_currentAnswer set_history
       set_showResult set_pendingFinish view phase scale trialIndex
       staircaseLevel answers currentAnswer history showResult rngSeed
       pendingFinish] in *.

Ltac plate_split c :=
  lazymatch c with
  | context [match _ with _ => _ end] => fail
  | _ => destruct c eqn:?
  end.

Ltac plate_cases :=
  repeat (match goal with
          | H : context [match ?c with _ => _ end] |- _ => plate_split c
          | |- context [match ?c with _ => _ end] => plate_split c
          end; cbv beta iota zeta in *).

(** [Math.round((c / 9) * 9)] is [c]. *)
Lemma round_count (c : Z) :
  Math_round ((inject_Z c / inject_Z TOTAL_TRIALS) * 9) = c.
Proof.
  unfold Math_round, TOTAL_TRIALS.
  assert (E : (inject_Z c / inject_Z 9 * 9 + (1 # 2) == inject_Z c + (1 # 2))%Q)
    by (field; discriminate).
  rewrite (Qfloor_comp _ _ E).
  unfold Qfloor, Qplus, inject_Z. cbn [Qnum Qden Pos.mul].
  symmetry. apply (Z.div_unique_pos _ _ c 1); lia.
Qed.

Lemma finalScore_closed (allRecords : list HistoryRecord) :
  finalScore allRecords = correctCount allRecords + 1.
Proof.
  unfold finalScore. rewrite round_count.
  unfold correctCount. lia.
Qed.

Lemma correctCount_le_length (allRecords : list HistoryRecord) :
  0 <= correctCount allRecords <= Z.of_nat (length allRecords).
Proof.
  unfold correctCount. pose proof (filter_length_le correct allRecords). lia.
Qed.

Lemma plateAt_defined (idx : Z) :
  0 <= idx < 9 -> exists p, plateAt idx = Some p /\ In p basePlates.
Proof.
  intros H. unfold plateAt.
  destruct (Z.ltb_spec idx 0); [lia|].
  destruct (nth_error basePlates (Z.to_nat idx)) as [p|] eqn:E.
  - exists p. split; [reflexivity|]. eapply nth_error_In; eauto.
  - apply nth_error_None in E. simpl in E. lia.
Qed.

(** With a non-negative trial index and level the index is inside the pool,
    whatever the seed. *)
Lemma currentPlate_defined (s : State) :
  0 <= trialIndex s -> 0 <= staircaseLevel s ->
  exists cp, currentPlate s = Some cp /\ In (plate cp) basePlates.
Proof.
  intros Ht Hl. unfold currentPlate, choosePlateForLevel.
  set (n := trialIndex s + staircaseLevel s + Z.abs (hash (rngSeed s))).
  assert (Hn : 0 <= n) by (unfold n; lia).
  destruct (plateAt_defined (Z.rem n (Z.of_nat (length basePlates)))) as (p & Hp & Hin).
  { simpl. pose proof (Z.rem_bound_pos n 9). lia. }
  rewrite Hp. destruct p; eexists; split; try reflexivity; exact Hin.
Qed.

Section WithCaseMapping.

Variable toLowerCase : jsstring -> jsstring.

Lemma Inv_mount (seed : Z) : Inv (mount seed).
Proof. unfold Inv; simpl. repeat split; try lia; discriminate. Qed.

Lemma handleSubmit_cases (s : State) :
  (handleSubmit toLowerCase s = s
   /\ (trim (currentAnswer s) = [] \/ currentPlate s = None))
  \/ exists cp,
      trim (currentAnswer s) <> []
      /\ currentPlate s = Some cp
      /\ let ans := trim (currentAnswer s) in
         let ok := evaluate toLowerCase cp ans in
         let record := mkRecord cp (recordContrast cp) ok ans in
         handleSubmit toLowerCase s
         = mkState (phase s) (scale s) (trialIndex s + 1)
             (if ok then Z.min 8 (staircaseLevel s + 1)
              else Z.max 0 (staircaseLevel s - 1))
             (answers s ++ [ans]) [] (history s ++ [record]) (showResult s)
             (rngSeed s)
             (if trialIndex s + 1 >=? TOTAL_TRIALS
              then pendingFinish s ++ [history s ++ [record]]
              else pendingFinish s).
Proof.
  unfold handleSubmit.
  destruct (trim (currentAnswer s)) as [|c ans] eqn:Ea; simpl.
  - left. auto.
  - destruct (currentPlate s) as [cp|] eqn:Ec.
    + right. exists cp. split; [discriminate|]. split; [reflexivity|].
      cbv zeta.
      destruct s; plate_unfold.
      destruct (evaluate toLowerCase cp (c :: ans));
        destruct (trialIndex0 + 1 >=? TOTAL_TRIALS); reflexivity.
    + left. auto.
Qed.

Lemma step_Inv (s s' : State) (e : Event) (out : list Z) :
  Inv s -> step toLowerCase s e = Some (s', out) -> Inv s'.
Proof.
  intros (Ht & Hl & Hh) H.
  destruct e; unfold step in H.
  - (* ChangeScale *)
    destruct (view s) eqn:V; inversion H; subst.
    unfold Inv. destruct s; plate_unfold.
    split; [lia|]. split; [lia|].
    intros _ V'. rewrite V in V'. discriminate.
  - (* ClickStartTest *)
    destruct (view s) eqn:V; inversion H; subst.
    unfold Inv. destruct s; plate_unfold. simpl.
    split; [lia|]. split; [lia|]. intros _ _. lia.
  - (* ChangeAnswer *)
    destruct (view s) eqn:V; inversion H; subst.
    unfold Inv. destruct s; plate_unfold.
    split; [lia|]. split; [lia|].
    intros P V'. apply (Hh P eq_refl).
  - (* Submit *)
    destruct (view s) eqn:V; inversion H; subst. clear H.
    destruct (handleSubmit_cases s) as [[E _]|(cp & Hne & Hcp & E)].
    + rewrite E. unfold Inv; auto.
    + cbv zeta in E. rewrite E. clear E.
      unfold Inv. destruct s; plate_unfold.
      split; [lia|]. split.
      { destruct (evaluate toLowerCase cp _); lia. }
      intros P V'.
      destruct (Z.geb_spec (trialIndex0 + 1) TOTAL_TRIALS) as [G|G].
      * destruct pendingFinish0; discriminate.
      * specialize (Hh P eq_refl). rewrite length_app. simpl.
        unfold TOTAL_TRIALS in G. lia.
  - (* FinishTimerFires *)
    assert (E : match pendingFinish s with
                | [] => None
                | allRecords :: rest =>
                    Some (finishTest allRecords (set_pendingFinish rest s))
                end = Some (s', out))
      by (destruct (view s); exact H).
    clear H. destruct (pendingFinish s) as [|recs rest]; [discriminate|].
    inversion E; subst. unfold Inv. destruct s; plate_unfold.
    split; [lia|]. split; [lia|].
    intros _ V'. discriminate.
  - (* ClickRetry *)
    destruct (view s) eqn:V; inversion H; subst.
    unfold Inv. destruct s; plate_unfold.
    split; [lia|]. split; [lia|].
    intros _ V'. discriminate.
Qed.

Lemma run_Inv (evs : list Event) :
  forall s s' outs, Inv s -> run toLowerCase s evs = Some (s', outs) -> Inv s'.
Proof.
  induction evs as [|e evs IH]; intros s s' outs I H; simpl in H.
  - inversion H; subst; exact I.
  - destruct (step toLowerCase s e) as [[s1 o1]|] eqn:E; [|discriminate].
    destruct (run toLowerCase s1 evs) as [[s2 o2]|] eqn:R; [|discriminate].
    inversion H; subst. eapply IH; [|exact R]. eapply step_Inv; eauto.
Qed.

Lemma reachable_Inv (seed : Z) (evs : list Event) (s : State) (outs : list Z) :
  run toLowerCase (mount seed) evs = Some (s, outs) -> Inv s.
Proof. apply run_Inv, Inv_mount. Qed.

(** When a submission schedules the finish callback while none is pending,
    the callback carries the records of exactly nine trials, and when it
    runs it hands [onResult] the score
    max(1, round((correctCount / 9) * 9) + 1), which is correctCount + 1,
    lies in 1..10, and does not decrease when correctCount grows. *)
Lemma nine_trial_score
  (seed : Z) (evs : list Event) (s s1 : State) (outs o1 : list Z)
  (recs : list HistoryRecord) (rest : list (list HistoryRecord)) :
  run toLowerCase (mount seed) evs = Some (s, outs) ->
  pendingFinish s = [] ->
  step toLowerCase s Submit = Some (s1, o1) ->
  pendingFinish s1 = recs :: rest ->
  rest = []
  /\ length recs = 9%nat
  /\ history s1 = recs
  /\ (exists s2,
        step toLowerCase s1 FinishTimerFires = Some (s2, [finalScore recs])
        /\ phase s2 = done)
  /\ finalScore recs = spec_score (correctCount recs)
  /\ finalScore recs = correctCount recs + 1
  /\ 1 <= finalScore recs <= 10
  /\ (forall recs',
        correctCount recs <= correctCount recs' ->
        finalScore recs <= finalScore recs').
Proof.
  intros Hrun Hp Hstep Hp1.
  destruct (reachable_Inv _ _ _ _ Hrun) as (Ht & Hl & Hh).
  unfold step in Hstep.
  destruct (view s) eqn:V; try discriminate.
  inversion Hstep; subst s1 o1; clear Hstep.
  destruct (Hh Hp eq_refl) as [Hlen Hle].
  destruct (handleSubmit_cases s) as [[E _]|(cp & Hne & Hcp & E)].
  { rewrite E, Hp in Hp1. discriminate. }
  cbv zeta in E.
  assert (Hrecs : rest = [] /\ length recs = 9%nat
                  /\ history (handleSubmit toLowerCase s) = recs).
  { rewrite E in Hp1 |- *. cbn [pendingFinish history] in Hp1 |- *.
    rewrite Hp in Hp1.
    destruct (Z.geb_spec (trialIndex s + 1) TOTAL_TRIALS) as [G|G];
      [|discriminate].
    cbn [app] in Hp1. inversion Hp1; subst.
    split; [reflexivity|]. split; [|reflexivity].
    rewrite length_app. simpl. unfold TOTAL_TRIALS in G. lia. }
  destruct Hrecs as (Hrest & Hlen9 & Hhist).
  pose proof (correctCount_le_length recs) as Hc.
  pose proof (finalScore_closed recs) as Hf.
  split; [exact Hrest|]. split; [exact Hlen9|]. split; [exact Hhist|].
  split.
  { unfold step. rewrite Hp1.
    eexists. split; [destruct (view _); reflexivity|]. reflexivity. }
  split; [reflexivity|]. split; [exact Hf|]. split; [lia|].
  intros recs' Hle'. rewrite Hf, (finalScore_closed recs'). lia.
Qed.

(** C5. In every reachable state the staircase level is an integer of
    0..8; a submitted answer that is not blank moves it to min(8, level+1)
    when the answer is right and to max(0, level-1) when it is wrong, so a
    right answer at level 8 keeps 8 and a wrong answer at level 0 keeps 0. *)
Theorem staircase_level_update
  (seed : Z) (evs : list Event) (s : State) (outs : list Z) :
  run toLowerCase (mount seed) evs = Some (s, outs) ->
  0 <= staircaseLevel s <= 8
  /\ (trim (currentAnswer s) <> [] ->
      exists cp,
        currentPlate s = Some cp
        /\ staircaseLevel (handleSubmit toLowerCase s)
           = (if evaluate toLowerCase cp (trim (currentAnswer s))
              then Z.min 8 (staircaseLevel s + 1)
              else Z.max 0 (staircaseLevel s - 1))
        /\ (staircaseLevel s = 8 ->
            evaluate toLowerCase cp (trim (currentAnswer s)) = true ->
            staircaseLevel (handleSubmit toLowerCase s) = 8)
        /\ (staircaseLevel s = 0 ->
            evaluate toLowerCase cp (trim (currentAnswer s)) = false ->
            staircaseLevel (handleSubmit toLowerCase s) = 0)).
Proof.
  intros Hrun.
  destruct (reachable_Inv _ _ _ _ Hrun) as (Ht & Hl & _).
  split; [exact Hl|]. intros Hne.
  destruct (handleSubmit_cases s) as [[_ [E|E]]|(cp & _ & Hcp & E)].
  - contradiction.
  - destruct (currentPlate_defined s) as (cp & Hcp & _); [lia|lia|congruence].
  - exists cp. cbv zeta in E. rewrite E. cbn [staircaseLevel].
    split; [exact Hcp|]. split; [reflexivity|].
    split; intros H8 Hev; rewrite Hev, H8; reflexivity.
Qed.

(** C8. A submission whose answer is empty once trimmed changes nothing:
    the handler returns the state it was given (trial index, level, history
    and answers included, no finish callback scheduled), nothing is handed
    to [onResult], and the session continues as if it had not happened. *)
Theorem empty_submission_rejected (s : State) :
  trim (currentAnswer s) = [] ->
  handleSubmit toLowerCase s = s
  /\ (view s = TestingView -> step toLowerCase s Submit = Some (s, []))
  /\ (forall evs,
        view s = TestingView ->
        run toLowerCase s (Submit :: evs) = run toLowerCase s evs).
Proof.
  intros Hblank.
  assert (E : handleSubmit toLowerCase s = s).
  { unfold handleSubmit. rewrite Hblank. reflexivity. }
  split; [exact E|]. split.
  - intros V. unfold step. rewrite V, E. reflexivity.
  - intros evs V. cbn [run]. unfold step. rewrite V, E.
    destruct (run toLowerCase s evs) as [[s' o]|]; reflexivity.
Qed.

End WithCaseMapping.

(** C10. The plate on screen is a function of the trial index, the
    staircase level and the session seed alone: two components that agree on
    these three show the same plate, which is the pool entry at index
    (trialIndex + level + |hash(seed)|) % 9. *)
Theorem plate_selection_deterministic (s1 s2 : State) :
  rngSeed s1 = rngSeed s2 ->
  trialIndex s1 = trialIndex s2 ->
  staircaseLevel s1 = staircaseLevel s2 ->
  currentPlate s1 = currentPlate s2
  /\ option_map plate (currentPlate s1)
     = plateAt (Z.rem (trialIndex s1 + staircaseLevel s1
                       + Z.abs (hash (rngSeed s1))) 9).
Proof.
  intros Hseed Ht Hl. split.
  - unfold currentPlate, choosePlateForLevel. rewrite Hseed, Ht, Hl. reflexivity.
  - unfold currentPlate, choosePlateForLevel. cbn [length basePlates Z.of_nat].
    change (Z.pos (Pos.of_succ_nat 8)) with 9.
    destruct (plateAt _) as [[o c f|a d|a c]|]; reflexivity.
Qed.

(** Scenario C is such a session. *)
Lemma nine_trial_score_scenarioC :
  run asciiLowerCase (mount 0)
      (session scenarioC_first8 ++ [ChangeAnswer (str "horizontal")])
  = Some (scenarioC_typed, [])
  /\ pendingFinish scenarioC_typed = []
  /\ step asciiLowerCase scenarioC_typed Submit = Some (scenarioC_submitted, [])
  /\ pendingFinish scenarioC_submitted = scenarioC_records :: []
  /\ ([] = @nil (list HistoryRecord)
      /\ length scenarioC_records = 9%nat
      /\ history scenarioC_submitted = scenarioC_records
      /\ (exists s2,
            step asciiLowerCase scenarioC_submitted FinishTimerFires
            = Some (s2, [finalScore scenarioC_records])
            /\ phase s2 = done)
      /\ finalScore scenarioC_records = spec_score (correctCount scenarioC_records)
      /\ finalScore scenarioC_records = correctCount scenarioC_records + 1
      /\ 1 <= finalScore scenarioC_records <= 10
      /\ (forall recs',
            correctCount scenarioC_records <= correctCount recs' ->
            finalScore scenarioC_records <= finalScore recs')).
Proof.
  assert (H1 : run asciiLowerCase (mount 0)
                 (session scenarioC_first8 ++ [ChangeAnswer (str "horizontal")])
               = Some (scenarioC_typed, [])) by (vm_compute; reflexivity).
  assert (H2 : pendingFinish scenarioC_typed = []) by reflexivity.
  assert (H3 : step asciiLowerCase scenarioC_typed Submit
               = Some (scenarioC_submitted, [])) by (vm_compute; reflexivity).
  assert (H4 : pendingFinish scenarioC_submitted = scenarioC_records :: [])
    by reflexivity.
  split; [exact H1|]. split; [exact H2|]. split; [exact H3|]. split; [exact H4|].
  exact (nine_trial_score asciiLowerCase 0 _ _ _ _ _ _ _ H1 H2 H3 H4).
Qed.

(** Scenario C: six of the nine answers are right, the score is 7. *)
Example scenarioC_score :
  correctCount scenarioC_records = 6 /\ finalScore scenarioC_records = 7.
Proof. split; vm_compute; reflexivity. Qed.

(** C2, the code at a session in which a tenth answer is submitted within
    the 120 ms between the ninth submission and its finish callback.  After
    nine right answers the test view is still on screen with one callback
    pending, over nine records.  The form takes the tenth answer; two
    callbacks then run, and [onResult] is called twice, with 10 and then
    with 11: the second score is that of ten records, all right, and lies
    outside 1..10, against the comment of [finishTest],
    "map 0..TOTAL_TRIALS -> 1..10". *)
Theorem tenth_answer_scores_eleven :
  run asciiLowerCase (mount 0) (session nineRight) = Some (ninthSubmitted, [])
  /\ view ninthSubmitted = TestingView
  /\ pendingFinish ninthSubmitted = [history ninthSubmitted]
  /\ length (history ninthSubmitted) = Z.to_nat TOTAL_TRIALS
  /\ exists s outs,
       run asciiLowerCase ninthSubmitted tenthAnswer_events = Some (s, outs)
       /\ outs = [10; 11]
       /\ ~ Forall (fun score => 1 <= score <= 10) outs
       /\ length (history s) = S (Z.to_nat TOTAL_TRIALS)
       /\ forallb correct (history s) = true
       /\ map user (history s) = map str (nineRight ++ ["12"%string])
       /\ correctCount (history s) = 10
       /\ spec_score (correctCount (history s)) = 11.
Proof.
  split; [vm_compute; reflexivity|].
  split; [reflexivity|]. split; [reflexivity|]. split; [reflexivity|].
  eexists _, _. split; [vm_compute; reflexivity|].
  split; [reflexivity|].
  split.
  { intros F. inversion F as [|? ? _ F1]; subst.
    inversion F1 as [|? ? B _]; subst. lia. }
  repeat split; vm_compute; reflexivity.
Qed.

Lemma staircase_level_update_witness :
  run asciiLowerCase (mount 0)
      (session [ "7"; "Horizontal"; "12"; "29"; "3" ]%string
       ++ [ChangeAnswer (str " 7 ")])
  = Some (level8Typed, [])
  /\ (0 <= staircaseLevel level8Typed <= 8
      /\ (trim (currentAnswer level8Typed) <> [] ->
          exists cp,
            currentPlate level8Typed = Some cp
            /\ staircaseLevel (handleSubmit asciiLowerCase level8Typed)
               = (if evaluate asciiLowerCase cp (trim (currentAnswer level8Typed))
                  then Z.min 8 (staircaseLevel level8Typed + 1)
                  else Z.max 0 (staircaseLevel level8Typed - 1))
            /\ (staircaseLevel level8Typed = 8 ->
                evaluate asciiLowerCase cp (trim (currentAnswer level8Typed)) = true ->
                staircaseLevel (handleSubmit asciiLowerCase level8Typed) = 8)
            /\ (staircaseLevel level8Typed = 0 ->
                evaluate asciiLowerCase cp (trim (currentAnswer level8Typed)) = false ->
                staircaseLevel (handleSubmit asciiLowerCase level8Typed) = 0))).
Proof.
  assert (H : run asciiLowerCase (mount 0)
                (session [ "7"; "Horizontal"; "12"; "29"; "3" ]%string
                 ++ [ChangeAnswer (str " 7 ")])
              = Some (level8Typed, [])) by (vm_compute; reflexivity).
  split; [exact H|].
  exact (staircase_level_update asciiLowerCase 0 _ _ _ H).
Defined.

(** At level 8 the right answer, typed with spaces around it, keeps 8. *)
Example level8_right_answer :
  staircaseLevel level8Typed = 8
  /\ staircaseLevel (handleSubmit asciiLowerCase level8Typed) = 8
  /\ map correct (history (handleSubmit asciiLowerCase level8Typed))
     = [true; true; true; true; true; true].
Proof. split; [reflexivity|]. split; vm_compute; reflexivity. Qed.

(** Scenario E: wrong answers take the level from 4 down to 0, where three
    more wrong answers leave it. *)
Example scenarioE_levels :
  levelsAlong (mount 0) scenarioE_events = [3; 2; 1; 0; 0; 0; 0].
Proof. vm_compute. reflexivity. Qed.

Lemma empty_submission_rejected_witness :
  trim (currentAnswer blankTyped) = []
  /\ (handleSubmit asciiLowerCase blankTyped = blankTyped
      /\ (view blankTyped = TestingView ->
          step asciiLowerCase blankTyped Submit = Some (blankTyped, []))
      /\ (forall evs,
            view blankTyped = TestingView ->
            run asciiLowerCase blankTyped (Submit :: evs)
            = run asciiLowerCase blankTyped evs)).
Proof.
  assert (H : trim (currentAnswer blankTyped) = []) by reflexivity.
  split; [exact H|].
  exact (empty_submission_rejected asciiLowerCase blankTyped H).
Defined.

Lemma plate_selection_deterministic_witness :
  rngSeed sameTrialA = rngSeed sameTrialB
  /\ trialIndex sameTrialA = trialIndex sameTrialB
  /\ staircaseLevel sameTrialA = staircaseLevel sameTrialB
  /\ (currentPlate sameTrialA = currentPlate sameTrialB
      /\ option_map plate (currentPlate sameTrialA)
         = plateAt (Z.rem (trialIndex sameTrialA + staircaseLevel sameTrialA
                           + Z.abs (hash (rngSeed sameTrialA))) 9)).
Proof.
  assert (H1 : rngSeed sameTrialA = rngSeed sameTrialB) by reflexivity.
  assert (H2 : trialIndex sameTrialA = trialIndex sameTrialB) by reflexivity.
  assert (H3 : staircaseLevel sameTrialA = staircaseLevel sameTrialB) by reflexivity.
  split; [exact H1|]. split; [exact H2|]. split; [exact H3|].
  exact (plate_selection_deterministic sameTrialA sameTrialB H1 H2 H3).
Defined.

(** The two components of the example do differ, in the typed answer. *)
Example sameTrial_states_differ :
  currentAnswer sameTrialA = str "12" /\ currentAnswer sameTrialB = [].
Proof. split; reflexivity. Qed.

End ContrastTestProofs.


(** * Properties of the gaze tracker *)

Module IrisTrackerProofs.

Import IrisTracker.

Ltac iris_unfold :=
  cbv [step clickStart stopClick finishAndCleanup cleanup set_running
       set_detections set_baseline set_calibFrames set_frameCount
       set_faceMesh set_isMounted set_stopTimer running detections baseline
       calibFrames frameCount faceMesh isMounted stopTimer] in *.

(** A frame changes neither [running] nor the pending timer. *)
Lemma onResults_control (results : Results) (s : State) :
  running (onResults results s) = running s
  /\ stopTimer (onResults results s) = stopTimer s.
Proof.
  unfold onResults, calibrate, track.
  destruct (isMounted s); [|auto]. cbn [negb].
  destruct (multiFaceLandmarks results) as [[|lm faces]|]; auto.
  destruct (eyeCentroid lm leftEyeIdx); auto.
  destruct (eyeCentroid lm rightEyeIdx); auto.
  match goal with |- context [if ?c then _ else _] => destruct c end; auto.
Qed.

Lemma step_TimerInv (s s' : State) (e : Event) (out : list ResultSummary) :
  TimerInv s -> step s e = Some (s', out) -> TimerInv s'.
Proof.
  unfold TimerInv. intros I H. destruct e as [o| | |results].
  - destruct s; iris_unfold. destruct running0; [inversion H; subst; auto|].
    destruct o; inversion H; subst; cbn; auto.
  - destruct s; iris_unfold.
    destruct running0; inversion H; subst; cbn; auto; discriminate.
  - destruct s; iris_unfold.
    destruct stopTimer0; inversion H; subst; cbn; discriminate.
  - unfold step in H. destruct (faceMesh s); inversion H; subst.
    destruct (onResults_control results s) as [-> ->]. exact I.
Qed.

Lemma run_TimerInv (evs : list Event) :
  forall s s' outs, TimerInv s -> run s evs = Some (s', outs) -> TimerInv s'.
Proof.
  induction evs as [|e evs IH]; intros s s' outs I H; simpl in H.
  - inversion H; subst; exact I.
  - destruct (step s e) as [[s1 o1]|] eqn:E; [|discriminate].
    destruct (run s1 evs) as [[s2 o2]|] eqn:R; [|discriminate].
    inversion H; subst. eapply IH; [|exact R]. eapply step_TimerInv; eauto.
Qed.

Lemma TimerInv_mount : TimerInv mount.
Proof. unfold TimerInv. simpl. discriminate. Qed.

(** What one step adds to the results and to the sessions begun. *)
Lemma step_balance (s s' : State) (e : Event) (out : list ResultSummary) :
  TimerInv s -> step s e = Some (s', out) ->
  (length out + Nat.b2n (running s')
   = Nat.b2n (running s) + sessionsBegun s [e])%nat.
Proof.
  unfold TimerInv. intros I H. cbn [sessionsBegun]. rewrite H.
  destruct e as [o| | |results].
  - destruct s; iris_unfold. destruct running0.
    + inversion H; subst. destruct o; reflexivity.
    + destruct o; inversion H; subst; reflexivity.
  - destruct s; iris_unfold. destruct running0; inversion H; subst; reflexivity.
  - destruct s; iris_unfold. destruct stopTimer0; inversion H; subst.
    rewrite I by reflexivity. reflexivity.
  - unfold step in H. destruct (faceMesh s); inversion H; subst.
    destruct (onResults_control results s) as [-> _]. simpl. lia.
Qed.

Lemma run_balance (evs : list Event) :
  forall s s' outs,
    TimerInv s -> run s evs = Some (s', outs) ->
    (length outs + Nat.b2n (running s')
     = Nat.b2n (running s) + sessionsBegun s evs)%nat.
Proof.
  induction evs as [|e evs IH]; intros s s' outs I H.
  - simpl in H. inversion H; subst. simpl. lia.
  - cbn [run] in H. cbn [sessionsBegun].
    destruct (step s e) as [[s1 o1]|] eqn:E; [|discriminate].
    destruct (run s1 evs) as [[s2 o2]|] eqn:R; [|discriminate].
    inversion H; subst.
    pose proof (step_balance _ _ _ _ I E) as B1. cbn [sessionsBegun] in B1.
    rewrite E in B1.
    pose proof (IH _ _ _ (step_TimerInv _ _ _ _ I E) R) as B2.
    rewrite length_app.
    destruct e as [[| |]| | |]; simpl in B1 |- *; lia.
Qed.

Lemma stops_after_finish (s : State) (n : nat) :
  running s = false -> run s (repeat ClickStop n) = Some (s, []).
Proof.
  intros Hr. induction n as [|n IH]; [reflexivity|].
  cbn [repeat run step]. rewrite Hr, IH. reflexivity.
Qed.

Lemma spec_result_of (d : Detections) :
  spec_result d
    (mkResult (left d >=? MIN_DETECTIONS) (right d >=? MIN_DETECTIONS)
       (up d >=? MIN_DETECTIONS) (down d >=? MIN_DETECTIONS)
       (if (left d >=? MIN_DETECTIONS) && (right d >=? MIN_DETECTIONS)
           && (up d >=? MIN_DETECTIONS) && (down d >=? MIN_DETECTIONS)
        then normal else abnormal)).
Proof.
  assert (Hgeb : forall n, (n >=? MIN_DETECTIONS) = true <-> 8 <= n).
  { intros n. unfold MIN_DETECTIONS. destruct (Z.geb_spec n 8); split;
      intros; try reflexivity; try discriminate; lia. }
  assert (Hv : forall a b c d : bool,
             ((if a && b && c && d then normal else abnormal) = normal <->
              a = true /\ b = true /\ c = true /\ d = true)
             /\ ((if a && b && c && d then normal else abnormal) = abnormal <->
                 ~ (a = true /\ b = true /\ c = true /\ d = true))).
  { intros [|] [|] [|] [|]; cbn; split; split; intros; intuition discriminate. }
  unfold spec_result. cbn [leftSeen rightSeen upSeen downSeen verdict].
  repeat (split; [apply Hgeb|]). apply Hv.
Qed.

(** C3. A session ends by the Stop button while it is running or by its
    timer coming due.  Either way exactly one result is handed to
    [onComplete], the session is no longer running and the counters are as
    they were; in the result each direction's flag is true exactly when that
    direction's counter is at least 8 at that moment, and the verdict is
    normal exactly when all four flags are true, abnormal otherwise.  No
    other step hands over a result. *)
Theorem verdict_from_counters (s : State) (e : Event) :
  (endsSession s e ->
   exists s' r,
     step s e = Some (s', [r])
     /\ running s' = false
     /\ stopTimer s' = false
     /\ detections s' = detections s
     /\ spec_result (detections s) r)
  /\ (forall s' out r,
        step s e = Some (s', out) -> In r out ->
        endsSession s e
        /\ out = [r]
        /\ detections s' = detections s
        /\ spec_result (detections s) r).
Proof.
  split.
  - intros He.
    destruct He as [[-> Hr]|[-> Ht]];
      destruct s as [rn d b cf fc fm im st]; cbn in *; subst;
      iris_unfold; eexists _, _;
      (split; [reflexivity|]);
      (split; [reflexivity|]); (split; [reflexivity|]);
      (split; [reflexivity|]); apply spec_result_of.
  - intros s' out r H Hin. unfold endsSession.
    destruct e as [o| | |results].
    + unfold step in H. destruct (running s); inversion H; subst; destruct Hin.
    + destruct s as [rn d b cf fc fm im st]; iris_unfold.
      destruct rn; inversion H; subst; [|destruct Hin].
      destruct Hin as [<-|[]].
      split; [auto|]. split; [reflexivity|]. split; [reflexivity|].
      apply spec_result_of.
    + destruct s as [rn d b cf fc fm im st]; iris_unfold.
      destruct st; inversion H; subst.
      destruct Hin as [<-|[]].
      split; [auto|]. split; [reflexivity|]. split; [reflexivity|].
      apply spec_result_of.
    + unfold step in H. destruct (faceMesh s); inversion H; subst; destruct Hin.
Qed.

Lemma verdict_from_counters_witness :
  endsSession scenarioD_state StopTimerFires
  /\ endsSession scenarioD_state ClickStop
  /\ detections scenarioD_state = mkDetections 10 3 9 8
  /\ (exists s' r,
        step scenarioD_state StopTimerFires = Some (s', [r])
        /\ running s' = false
        /\ stopTimer s' = false
        /\ detections s' = detections scenarioD_state
        /\ spec_result (detections scenarioD_state) r)
  /\ (exists s' r,
        step scenarioD_state ClickStop = Some (s', [r])
        /\ running s' = false
        /\ stopTimer s' = false
        /\ detections s' = detections scenarioD_state
        /\ spec_result (detections scenarioD_state) r)
  /\ (forall s' out r,
        step scenarioD_state (Frame noFace) = Some (s', out) -> In r out ->
        endsSession scenarioD_state (Frame noFace)
        /\ out = [r]
        /\ detections s' = detections scenarioD_state
        /\ spec_result (detections scenarioD_state) r).
Proof.
  assert (H1 : endsSession scenarioD_state StopTimerFires)
    by (right; split; reflexivity).
  assert (H2 : endsSession scenarioD_state ClickStop)
    by (left; split; reflexivity).
  split; [exact H1|]. split; [exact H2|]. split; [reflexivity|].
  split; [exact (proj1 (verdict_from_counters scenarioD_state StopTimerFires) H1)|].
  split; [exact (proj1 (verdict_from_counters scenarioD_state ClickStop) H2)|].
  exact (proj2 (verdict_from_counters scenarioD_state (Frame noFace))).
Defined.

(** Scenario D ended by its timer and by Stop: the same result. *)
Example scenarioD_both_ways :
  step scenarioD_state StopTimerFires = Some (scenarioD_timedOut, [scenarioD_result])
  /\ step scenarioD_state ClickStop = Some (scenarioD_stopped, [scenarioD_result])
  /\ spec_result (mkDetections 10 3 9 8) scenarioD_result
  /\ ~ spec_result (mkDetections 10 3 9 8) (mkResult true true true true normal).
Proof.
  split; [vm_compute; reflexivity|]. split; [vm_compute; reflexivity|].
  split.
  - exact (spec_result_of (mkDetections 10 3 9 8)).
  - intros (_ & R & _). cbn in R. destruct R as [R _].
    specialize (R eq_refl). lia.
Qed.

(** Scenario D: the frames of the example leave the counters at 10, 3, 9
    and 8; Stop reports left, up and down seen, right not, abnormal. *)
Example scenarioD_counters :
  run mount scenarioD_events = Some (scenarioD_state, [])
  /\ detections scenarioD_state = mkDetections 10 3 9 8
  /\ scenarioD_result = mkResult true false true true abnormal.
Proof. split; [vm_compute; reflexivity|]. split; reflexivity. Qed.

(** The session's timer reports the same as the Stop button. *)
Example scenarioD_by_timer :
  option_map snd (step scenarioD_state StopTimerFires) = Some [scenarioD_result].
Proof. vm_compute. reflexivity. Qed.

(** C9. Along every run the results handed to [onComplete], plus one for a
    session still running, are as many as the sessions begun: a session
    that has ended has reported once.  Once a session has ended, by its
    timer or by Stop, a further Stop (any number of them) changes nothing
    and hands nothing to [onComplete], and the session's timer is no longer
    pending. *)
Theorem stop_is_idempotent
  (evs : list Event) (s : State) (outs : list ResultSummary) :
  run mount evs = Some (s, outs) ->
  (length outs + Nat.b2n (running s) = sessionsBegun mount evs)%nat
  /\ (running s = false ->
      step s ClickStop = Some (s, [])
      /\ step s StopTimerFires = None
      /\ forall n, run s (repeat ClickStop n) = Some (s, []))
  /\ (forall e s1 out,
        e = ClickStop \/ e = StopTimerFires ->
        running s = true ->
        step s e = Some (s1, out) ->
        length out = 1%nat
        /\ running s1 = false
        /\ step s1 StopTimerFires = None
        /\ forall n, run s1 (repeat ClickStop n) = Some (s1, [])).
Proof.
  intros Hrun.
  pose proof (run_TimerInv _ _ _ _ TimerInv_mount Hrun) as I.
  split; [|split].
  - pose proof (run_balance _ _ _ _ TimerInv_mount Hrun) as B.
    simpl in B. exact B.
  - intros Hr. split; [|split].
    + unfold step. rewrite Hr. reflexivity.
    + unfold step. destruct (stopTimer s) eqn:T; [|reflexivity].
      rewrite (I T) in Hr. discriminate.
    + intros n. apply stops_after_finish, Hr.
  - intros e s1 out He Hr Hstep.
    assert (Hs1 : length out = 1%nat /\ running s1 = false /\ stopTimer s1 = false).
    { destruct s as [rn d b cf fc fm im st]; iris_unfold. subst rn.
      destruct He as [-> | ->]; cbn in Hstep.
      - inversion Hstep; subst. auto.
      - destruct st; inversion Hstep; subst. auto. }
    destruct Hs1 as (Hlen & Hr1 & Ht1).
    split; [exact Hlen|]. split; [exact Hr1|]. split.
    + unfold step. rewrite Ht1. reflexivity.
    + intros n. apply stops_after_finish, Hr1.
Qed.

Lemma stop_is_idempotent_witness :
  run mount [ClickStart Started; StopTimerFires]
  = Some (finishedSession, [mkResult false false false false abnormal])
  /\ ((length [mkResult false false false false abnormal]
       + Nat.b2n (running finishedSession)
       = sessionsBegun mount [ClickStart Started; StopTimerFires])%nat
      /\ (running finishedSession = false ->
          step finishedSession ClickStop = Some (finishedSession, [])
          /\ step finishedSession StopTimerFires = None
          /\ forall n, run finishedSession (repeat ClickStop n)
                       = Some (finishedSession, []))
      /\ (forall e s1 out,
            e = ClickStop \/ e = StopTimerFires ->
            running finishedSession = true ->
            step finishedSession e = Some (s1, out) ->
            length out = 1%nat
            /\ running s1 = false
            /\ step s1 StopTimerFires = None
            /\ forall n, run s1 (repeat ClickStop n) = Some (s1, []))).
Proof.
  assert (H : run mount [ClickStart Started; StopTimerFires]
              = Some (finishedSession, [mkResult false false false false abnormal]))
    by (vm_compute; reflexivity).
  split; [exact H|].
  exact (stop_is_idempotent _ _ _ H).
Defined.

(** Stop pressed twice, then the timer's turn: one result in all. *)
Example stop_twice :
  option_map (fun p => length (snd p))
             (run mount [ClickStart Started; ClickStop; ClickStop; ClickStop])
  = Some 1%nat
  /\ run mount [ClickStart Started; ClickStop; StopTimerFires] = None.
Proof. split; vm_compute; reflexivity. Qed.

(** Once a baseline exists no frame changes it, and no frame is a
    calibration frame any more. *)
Lemma baseline_frozen (results : Results) (s : State) (b : Baseline) :
  baseline s = Some b ->
  baseline (onResults results s) = Some b
  /\ calibFrames (onResults results s) = calibFrames s.
Proof.
  intros Hb. unfold onResults.
  destruct (isMounted s); cbn [negb]; [|auto].
  destruct (multiFaceLandmarks results) as [[|lm faces]|];
    cbn [set_frameCount baseline calibFrames]; auto.
  destruct (eyeCentroid lm leftEyeIdx) as [leftC|];
    cbn [set_frameCount baseline calibFrames]; auto.
  destruct (eyeCentroid lm rightEyeIdx) as [rightC|];
    cbn [set_frameCount baseline calibFrames]; auto.
  rewrite Hb. cbn [andb].
  unfold track. cbn [set_frameCount set_baseline set_detections baseline calibFrames].
  rewrite Hb. auto.
Qed.

(** The calibration counter of a session: 0 until a baseline exists, 1 from
    then on. *)
Lemma onResults_calibration (results : Results) (s : State) :
  CalibInv s -> CalibInv (onResults results s).
Proof.
  intros [[Hb Hc]|(b & Hb & Hc)].
  - unfold onResults.
    destruct (isMounted s); cbn [negb]; [|left; auto].
    destruct (multiFaceLandmarks results) as [[|lm faces]|];
      try (left; split; assumption).
    destruct (eyeCentroid lm leftEyeIdx) as [leftC|];
      try (left; split; assumption).
    destruct (eyeCentroid lm rightEyeIdx) as [rightC|];
      try (left; split; assumption).
    cbn [set_frameCount baseline calibFrames]. rewrite Hb, Hc.
    cbn [andb Z.ltb Z.compare CALIB_DURATION_FRAMES].
    right. unfold calibrate.
    cbn [set_frameCount set_baseline set_calibFrames baseline calibFrames].
    rewrite Hc. eexists. split; reflexivity.
  - destruct (baseline_frozen results s b Hb) as [Hb' Hc'].
    right. exists b. split; [exact Hb'|]. rewrite Hc'. exact Hc.
Qed.

(** However many frames a new session receives, at most one of them is a
    calibration frame. *)
Lemma calibration_window_is_one_frame (frames : list Results) (s : State) :
  baseline s = None -> calibFrames s = 0 ->
  calibFrames (fold_left (fun s r => onResults r s) frames s) <= 1.
Proof.
  intros Hb Hc.
  assert (I : CalibInv (fold_left (fun s r => onResults r s) frames s)).
  { assert (I0 : CalibInv s) by (left; auto).
    clear Hb Hc. revert s I0.
    induction frames as [|r frames IH]; intros s I0; simpl; [exact I0|].
    apply IH, onResults_calibration, I0. }
  destruct I as [[_ ->]|(b & _ & ->)]; lia.
Qed.

(** C4, the code at a session of two frames.  The first frame, with both
    eyes at x = 0.4, is the only calibration frame: after the second frame,
    with both eyes at x = 0.6, the baseline is still 0.4 and not the mean
    0.5 of the two, one calibration frame is counted instead of two, and the
    second frame has already been classified as a look to the right. *)
Theorem calibration_stops_after_first_frame :
  exists b,
    baseline (stateAfter mount twoFrames) = Some b
    /\ (lx b == 0.4)%Q /\ (rx b == 0.4)%Q
    /\ ~ (lx b == 0.5)%Q
    /\ calibFrames (stateAfter mount twoFrames) = 1
    /\ 1 < CALIB_DURATION_FRAMES
    /\ detections (stateAfter mount twoFrames) = mkDetections 0 1 0 0.
Proof.
  eexists. split; [vm_compute; reflexivity|].
  repeat split; try (vm_compute; reflexivity); try discriminate.
Qed.

End IrisTrackerProofs.


(** * Properties of the rounding to Numbers *)

Module JSNumberProofs.

Import JS.

Local Open Scope Q_scope.

Lemma roundHalfEven_bounds (q : Q) :
  (Qfloor q <= roundHalfEven q <= Qfloor q + 1)%Z.
Proof.
  unfold roundHalfEven. cbv zeta.
  destruct (q - inject_Z (Qfloor q) ?= 1 # 2); [destruct (Z.even _)| |]; lia.
Qed.

Lemma roundHalfEven_mono (p q : Q) : p <= q -> (roundHalfEven p <= roundHalfEven q)%Z.
Proof.
  intros H. pose proof (Qfloor_resp_le _ _ H) as F.
  pose proof (roundHalfEven_bounds p) as Bp. pose proof (roundHalfEven_bounds q) as Bq.
  destruct (Z.eq_dec (Qfloor p) (Qfloor q)) as [E|E]; [|lia].
  unfold roundHalfEven in *. cbv zeta in *. rewrite <- E in *.
  destruct (Qcompare_spec (p - inject_Z (Qfloor p)) (1 # 2)) as [P|P|P];
    destruct (Qcompare_spec (q - inject_Z (Qfloor p)) (1 # 2)) as [Q0|Q0|Q0];
    try lia; try (exfalso; lra);
    destruct (Z.even (Qfloor p)); lia.
Qed.

Lemma roundHalfEven_Z (n : Z) : roundHalfEven (inject_Z n) = n.
Proof.
  unfold roundHalfEven. cbv zeta. rewrite Qfloor_Z.
  destruct (Qcompare_spec (inject_Z n - inject_Z n) (1 # 2)) as [P|P|P];
    [exfalso; lra | reflexivity | exfalso; lra].
Qed.

Lemma roundHalfEven_comp (p q : Q) : p == q -> roundHalfEven p = roundHalfEven q.
Proof.
  intros H. apply Z.le_antisymm; apply roundHalfEven_mono; rewrite H; apply Qle_refl.
Qed.

Lemma pow2_pos (k : Z) : 0 < pow2 k.
Proof. apply Qpower_0_lt. reflexivity. Qed.

Lemma pow2_plus (a b : Z) : pow2 (a + b) == pow2 a * pow2 b.
Proof. apply Qpower_plus. discriminate. Qed.

Lemma pow2_le (a b : Z) : (a <= b)%Z -> pow2 a <= pow2 b.
Proof. intros H. apply Qpower_le_compat_l; [exact H | discriminate]. Qed.

Lemma pow2_lt (a b : Z) : (a < b)%Z -> pow2 a < pow2 b.
Proof. intros H. apply Qpower_lt_compat_l; [exact H | reflexivity]. Qed.

Lemma pow2_lt_inv (a b : Z) : pow2 a < pow2 b -> (a < b)%Z.
Proof. intros H. eapply Qpower_lt_compat_l_inv; [exact H | reflexivity]. Qed.

Lemma pow2_Z (k : Z) : (0 <= k)%Z -> pow2 k == inject_Z (2 ^ k).
Proof. intros H. unfold pow2. rewrite Zpower_Qpower by exact H. reflexivity. Qed.

Lemma pow2_cancel (e : Z) : pow2 e * pow2 (- e) == 1.
Proof. rewrite <- pow2_plus. rewrite Z.add_opp_diag_r. reflexivity. Qed.

Lemma div_pow2 (q : Q) (e : Z) : q / pow2 e == q * pow2 (- e).
Proof.
  unfold Qdiv. apply Qmult_comp; [reflexivity|].
  unfold pow2. rewrite Qpower_opp. reflexivity.
Qed.

(** [ilog2 q] is the exponent of the power of two at or below [q]. *)
Lemma ilog2_spec (q : Q) :
  0 < q -> pow2 (ilog2 q) <= q < pow2 (ilog2 q + 1).
Proof.
  intros Hq. destruct q as [n d]. 
  assert (Hn : (0 < n)%Z) by (unfold Qlt in Hq; cbn in Hq; lia).
  unfold ilog2. cbn [Qnum Qden].
  set (a := Z.log2 n). set (b := Z.log2 (Z.pos d)).
  destruct (Z.log2_spec n Hn) as [A0 A1]. fold a in A0, A1.
  destruct (Z.log2_spec (Z.pos d) (Pos2Z.is_pos d)) as [B0 B1]. fold b in B0, B1.
  assert (Ha : (0 <= a)%Z) by apply Z.log2_nonneg.
  assert (Hb : (0 <= b)%Z) by apply Z.log2_nonneg.
  assert (Q1 : n # d == inject_Z n / inject_Z (Z.pos d)) by apply Qmake_Qdiv.
  assert (Dpos : 0 < inject_Z (Z.pos d)) by reflexivity.
  assert (E : (n # d) * inject_Z (Z.pos d) == inject_Z n).
  { rewrite Q1. field. intros X. rewrite X in Dpos. discriminate. }
  (* bounds on numerator and denominator as powers of two *)
  assert (NA0 : pow2 a <= inject_Z n) by (rewrite pow2_Z by lia; rewrite <- Zle_Qle; exact A0).
  assert (NA1 : inject_Z n < pow2 (a + 1)).
  { rewrite pow2_Z by lia. rewrite <- Zlt_Qlt. rewrite <- Z.add_1_r in A1. exact A1. }
  assert (DB0 : pow2 b <= inject_Z (Z.pos d)) by (rewrite pow2_Z by lia; rewrite <- Zle_Qle; exact B0).
  assert (DB1 : inject_Z (Z.pos d) < pow2 (b + 1)).
  { rewrite pow2_Z by lia. rewrite <- Zlt_Qlt. rewrite <- Z.add_1_r in B1. exact B1. }
  assert (Up : (n # d) < pow2 (a - b + 1)).
  { destruct (Qlt_le_dec (n # d) (pow2 (a - b + 1))) as [L|L]; [exact L|exfalso].
    assert (X : pow2 (a - b + 1) * pow2 b <= (n # d) * inject_Z (Z.pos d)).
    { apply Qmult_le_compat_nonneg; split; auto;
        apply Qlt_le_weak, pow2_pos. }
    rewrite <- pow2_plus, E in X. replace (a - b + 1 + b)%Z with (a + 1)%Z in X by lia.
    lra. }
  assert (Lo : pow2 (a - b - 1) < (n # d)).
  { destruct (Qlt_le_dec (pow2 (a - b - 1)) (n # d)) as [L|L]; [exact L|exfalso].
    assert (X1 : (n # d) * inject_Z (Z.pos d) <= pow2 (a - b - 1) * inject_Z (Z.pos d)).
    { apply Qmult_le_compat_r; [exact L | apply Qlt_le_weak, Dpos]. }
    assert (X2 : pow2 (a - b - 1) * inject_Z (Z.pos d) < pow2 (a - b - 1) * pow2 (b + 1)).
    { apply Qmult_lt_l; [apply pow2_pos | exact DB1]. }
    rewrite <- pow2_plus in X2. replace (a - b - 1 + (b + 1))%Z with a in X2 by lia.
    rewrite E in X1. lra. }
  destruct (Qle_bool (pow2 (a - b)) (n # d)) eqn:C.
  - apply Qle_bool_iff in C. split; [exact C | exact Up].
  - assert (C' : n # d < pow2 (a - b)).
    { destruct (Qlt_le_dec (n # d) (pow2 (a - b))) as [L|L]; [exact L|].
      apply Qle_bool_iff in L. congruence. }
    replace (a - b - 1 + 1)%Z with (a - b)%Z by lia.
    split; [apply Qlt_le_weak, Lo | exact C'].
Qed.

Lemma ilog2_unique (q : Q) (k : Z) :
  pow2 k <= q -> q < pow2 (k + 1) -> ilog2 q = k.
Proof.
  intros L U.
  assert (Hq : 0 < q) by (eapply Qlt_le_trans; [apply pow2_pos | exact L]).
  destruct (ilog2_spec q Hq) as [L' U'].
  assert (A : (k < ilog2 q + 1)%Z) by (apply pow2_lt_inv; lra).
  assert (B : (ilog2 q < k + 1)%Z) by (apply pow2_lt_inv; lra).
  lia.
Qed.

Lemma ilog2_mono (p q : Q) : 0 < p -> p <= q -> (ilog2 p <= ilog2 q)%Z.
Proof.
  intros Hp H.
  destruct (ilog2_spec p Hp) as [L U].
  destruct (ilog2_spec q ltac:(lra)) as [L' U'].
  assert (A : (ilog2 p < ilog2 q + 1)%Z) by (apply pow2_lt_inv; lra).
  lia.
Qed.

Lemma toDouble_pos (q : Q) :
  0 < q -> toDouble q = inject_Z (roundHalfEven (q / pow2 (ulpExp q))) * pow2 (ulpExp q).
Proof.
  intros H. unfold toDouble.
  destruct (Qeq_bool q 0) eqn:E.
  { apply Qeq_bool_iff in E. lra. }
  assert (A : Qabs q = q).
  { destruct q as [[|n|n] d]; try reflexivity; unfold Qlt in H; cbn in H; lia. }
  rewrite A.
  destruct (Qle_bool 0 q) eqn:P; [reflexivity|].
  assert (0 <= q) by lra. apply Qle_bool_iff in H0. congruence.
Qed.

Lemma toDouble_0 (q : Q) : q == 0 -> toDouble q = 0.
Proof.
  intros H. unfold toDouble. apply Qeq_bool_iff in H. rewrite H. reflexivity.
Qed.

Lemma scaled_mono (p q : Q) (e : Z) :
  p <= q ->
  inject_Z (roundHalfEven (p / pow2 e)) * pow2 e
  <= inject_Z (roundHalfEven (q / pow2 e)) * pow2 e.
Proof.
  intros H. apply Qmult_le_compat_r; [|apply Qlt_le_weak, pow2_pos].
  rewrite <- Zle_Qle. apply roundHalfEven_mono.
  unfold Qdiv. apply Qmult_le_compat_r; [exact H|].
  apply Qlt_le_weak, Qinv_lt_0_compat, pow2_pos.
Qed.

(** Rounding to the nearest Number keeps the order. *)
Lemma toDouble_mono_pos (p q : Q) : 0 < p -> p <= q -> toDouble p <= toDouble q.
Proof.
  intros Hp H. assert (Hq : 0 < q) by lra.
  rewrite (toDouble_pos p Hp), (toDouble_pos q Hq).
  pose proof (ilog2_mono p q Hp H) as M.
  destruct (Z.eq_dec (ulpExp p) (ulpExp q)) as [E|E].
  - rewrite E. apply scaled_mono, H.
  - assert (Lt : (ulpExp p < ulpExp q)%Z) by (unfold ulpExp in *; lia).
    assert (Eq : ulpExp q = (ilog2 q - 52)%Z) by (unfold ulpExp in *; lia).
    assert (Ep : (ilog2 p - 52 <= ulpExp p)%Z) by (unfold ulpExp; lia).
    destruct (ilog2_spec p Hp) as [_ Up]. destruct (ilog2_spec q Hq) as [Lq _].
    apply (Qle_trans _ (pow2 (ulpExp p + 53))).
    + (* the rounded significand of p is at most 2^53 *)
      rewrite (pow2_plus (ulpExp p) 53), (Qmult_comm (pow2 (ulpExp p)) (pow2 53)).
      apply Qmult_le_compat_r; [|apply Qlt_le_weak, pow2_pos].
      assert (P : pow2 53 == inject_Z (2 ^ 53)) by (apply pow2_Z; lia).
      rewrite P. rewrite <- Zle_Qle.
      rewrite <- (roundHalfEven_Z (2 ^ 53)). apply roundHalfEven_mono.
      rewrite <- P.
      apply Qle_shift_div_r; [apply pow2_pos|].
      rewrite <- pow2_plus. apply Qlt_le_weak.
      eapply Qlt_le_trans; [exact Up|]. apply pow2_le. lia.
    + apply (Qle_trans _ (pow2 (ulpExp q + 52))); [apply pow2_le; lia|].
      rewrite (pow2_plus (ulpExp q) 52), (Qmult_comm (pow2 (ulpExp q)) (pow2 52)).
      apply Qmult_le_compat_r; [|apply Qlt_le_weak, pow2_pos].
      assert (P : pow2 52 == inject_Z (2 ^ 52)) by (apply pow2_Z; lia).
      rewrite P. rewrite <- Zle_Qle.
      rewrite <- (roundHalfEven_Z (2 ^ 52)). apply roundHalfEven_mono.
      rewrite <- P.
      apply Qle_shift_div_l; [apply pow2_pos|].
      rewrite <- pow2_plus. rewrite Eq.
      replace (52 + (ilog2 q - 52))%Z with (ilog2 q) by lia. exact Lq.
Qed.

Lemma toDouble_nonneg (q : Q) : 0 <= q -> 0 <= toDouble q.
Proof.
  intros H. destruct (Qeq_dec q 0) as [E|E].
  - rewrite (toDouble_0 q E). apply Qle_refl.
  - assert (Hq : 0 < q) by (apply Qle_lteq in H; destruct H as [H|H]; [exact H | symmetry in H; contradiction]).
    rewrite (toDouble_pos q Hq).
    apply Qmult_le_0_compat; [|apply Qlt_le_weak, pow2_pos].
    change 0 with (inject_Z 0). rewrite <- Zle_Qle.
    rewrite <- (roundHalfEven_Z 0). apply roundHalfEven_mono.
    apply Qle_shift_div_l; [apply pow2_pos|].
    change (inject_Z 0) with 0. rewrite Qmult_0_l. lra.
Qed.

Lemma toDouble_mono (p q : Q) : 0 <= p -> p <= q -> toDouble p <= toDouble q.
Proof.
  intros Hp H. destruct (Qeq_dec p 0) as [E|E].
  - rewrite (toDouble_0 p E). apply toDouble_nonneg. lra.
  - apply toDouble_mono_pos; [|exact H].
    apply Qle_lteq in Hp; destruct Hp as [Hp|Hp]; [exact Hp | symmetry in Hp; contradiction].
Qed.

(** Whole numbers up to 2^53 are Numbers. *)
Lemma toDouble_Z (n : Z) : (0 <= n < 2 ^ 53)%Z -> toDouble (inject_Z n) == inject_Z n.
Proof.
  intros [H0 H1]. destruct (Z.eq_dec n 0) as [->|N]; [reflexivity|].
  assert (Hq : 0 < inject_Z n) by (change 0 with (inject_Z 0); rewrite <- Zlt_Qlt; lia).
  rewrite (toDouble_pos _ Hq).
  set (e := ulpExp (inject_Z n)).
  assert (He : (e <= 0)%Z).
  { destruct (ilog2_spec _ Hq) as [L _].
    assert (A : (ilog2 (inject_Z n) < 53)%Z).
    { apply pow2_lt_inv. eapply Qle_lt_trans; [exact L|].
      rewrite pow2_Z by lia. rewrite <- Zlt_Qlt. lia. }
    unfold e, ulpExp. lia. }
  assert (S : inject_Z n / pow2 e == inject_Z (n * 2 ^ (- e))).
  { rewrite div_pow2, inject_Z_mult, pow2_Z by lia. reflexivity. }
  rewrite (roundHalfEven_comp _ _ S), roundHalfEven_Z.
  rewrite inject_Z_mult, <- pow2_Z by lia.
  rewrite <- Qmult_assoc, (Qmult_comm (pow2 (- e))), pow2_cancel. ring.
Qed.

(** A Number below 1 is at most [maxRandom]. *)
Lemma number_below_one (u : Q) : isNumber u -> u < 1 -> u <= maxRandom.
Proof.
  intros N U. unfold maxRandom.
  destruct (Qlt_le_dec (1 - pow2 (-53)) u) as [L|L]; [exfalso | exact L].
  change (pow2 (-53)) with (1 # 9007199254740992) in L.
  assert (Hu : 0 < u) by lra.
  assert (I : ilog2 u = (-1)%Z).
  { apply ilog2_unique.
    - change (pow2 (-1)) with (1 # 2). lra.
    - change (pow2 (-1 + 1)) with 1. exact U. }
  unfold isNumber in N. rewrite (toDouble_pos u Hu) in N.
  unfold ulpExp in N. rewrite I in N.
  change (Z.max (-1 - 52) (-1074)) with (-53)%Z in N.
  set (m := roundHalfEven (u / pow2 (-53))) in N.
  change (pow2 (-53)) with (1 # 9007199254740992) in N.
  assert (A : inject_Z 9007199254740991 < inject_Z m).
  { change (inject_Z 9007199254740991) with (9007199254740991 # 1). lra. }
  assert (B : inject_Z m < inject_Z 9007199254740992).
  { change (inject_Z 9007199254740992) with (9007199254740992 # 1). lra. }
  rewrite <- Zlt_Qlt in A, B. lia.
Qed.

(** The rounding on known values: 0.1, 0.1 + 0.2 (which is
    0.30000000000000004), a value that needs no rounding, a tie at 2^53 + 1,
    and the largest Number below 1. *)
Example toDouble_examples :
  toDouble (1 # 10) == 3602879701896397 # 36028797018963968
  /\ toDouble (toDouble (1 # 10) + toDouble (2 # 10)) == 1351079888211149 # 4503599627370496
  /\ toDouble (1 # 2) == 1 # 2
  /\ toDouble 9007199254740993 == 9007199254740992
  /\ isNumber maxRandom.
Proof. repeat split. Qed.

Lemma toDouble_between (lo hi q : Q) :
  0 <= lo -> toDouble lo == lo -> toDouble hi == hi ->
  lo <= q <= hi -> lo <= toDouble q <= hi.
Proof.
  intros L0 El Eh [L H]. split.
  - rewrite <- El. apply toDouble_mono; assumption.
  - rewrite <- Eh. apply toDouble_mono; lra.
Qed.

End JSNumberProofs.


(** * Further properties of the stimulus trial engine *)

Module FieldTestSessionProofs.

Import JS FieldTest FieldTestSession FieldTestProofs JSNumberProofs.

Lemma Qfloor_unique (q : Q) (k : Z) :
  (inject_Z k <= q)%Q -> (q < inject_Z (k + 1))%Q -> Qfloor q = k.
Proof.
  intros Hlo Hhi.
  pose proof (Qfloor_le q) as F1. pose proof (Qlt_floor q) as F2.
  assert (A : Qfloor q < k + 1).
  { rewrite Zlt_Qlt. eapply Qle_lt_trans; eauto. }
  assert (B : k < Qfloor q + 1).
  { rewrite Zlt_Qlt. eapply Qle_lt_trans; eauto. }
  lia.
Qed.

(** [Math.round] on a value within half a unit below or less than half a
    unit above an integer. *)
Lemma Math_round_band (q : Q) (k : Z) :
  (inject_Z k - (1 # 2) <= q)%Q -> (q < inject_Z k + (1 # 2))%Q ->
  Math_round q = k.
Proof.
  intros Hlo Hhi. unfold Math_round. apply Qfloor_unique.
  - lra.
  - rewrite inject_Z_plus. change (inject_Z 1) with 1%Q. lra.
Qed.

(** X1. The score in closed form: a mean reaction time in the band
    [200k + 100, 200k + 300) costs k points and every miss one point,
    between the floor 1 and the ceiling 10. *)
Theorem score_by_band (m k : Z) (a : Q) :
  (inject_Z (200 * k + 100) <= a)%Q ->
  (a < inject_Z (200 * k + 300))%Q ->
  computeScore m a = Z.max 1 (Z.min 10 (10 - m - k)).
Proof.
  intros Hlo Hhi. unfold computeScore. cbv zeta.
  rewrite (Math_round_band _ k); [reflexivity| |].
  - rewrite inject_Z_plus, inject_Z_mult in Hlo.
    change (inject_Z 200) with (200 # 1)%Q in Hlo.
    change (inject_Z 100) with (100 # 1)%Q in Hlo.
    apply Qle_shift_div_l; [reflexivity|]. lra.
  - rewrite inject_Z_plus, inject_Z_mult in Hhi.
    change (inject_Z 200) with (200 # 1)%Q in Hhi.
    change (inject_Z 300) with (300 # 1)%Q in Hhi.
    apply Qlt_shift_div_r; [reflexivity|]. lra.
Qed.

Lemma score_by_band_witness :
  (inject_Z (200 * 1 + 100) <= 450 # 1)%Q
  /\ (450 # 1 < inject_Z (200 * 1 + 300))%Q
  /\ computeScore 2 (450 # 1) = Z.max 1 (Z.min 10 (10 - 2 - 1)).
Proof.
  assert (H1 : (inject_Z (200 * 1 + 100) <= 450 # 1)%Q)
    by (unfold Qle; simpl; lia).
  assert (H2 : (450 # 1 < inject_Z (200 * 1 + 300))%Q)
    by (unfold Qlt; simpl; lia).
  split; [exact H1|]. split; [exact H2|].
  exact (score_by_band 2 1 (450 # 1) H1 H2).
Defined.

#[local] Arguments trialsRun : simpl never.

Lemma ltb_lt (a b : Q) : ltb a b = true -> (a < b)%Q.
Proof.
  unfold ltb. intros H. apply Bool.negb_true_iff in H.
  destruct (Qlt_le_dec a b) as [L|L]; [exact L|].
  apply Qle_bool_iff in L. congruence.
Qed.

Lemma ltb_ge (a b : Q) : ltb a b = false -> (b <= a)%Q.
Proof.
  unfold ltb. intros H. apply Bool.negb_false_iff in H.
  apply Qle_bool_iff, H.
Qed.

(** The loop test passes only below the number of trials run ... *)
Lemma trialsRun_advance (T : Q) (t : Z) :
  ltb (inject_Z (t + 1)) T = true -> t + 1 < trialsRun T.
Proof.
  intros H. apply ltb_lt in H. unfold trialsRun.
  assert (A : t + 1 < Qceiling T).
  { rewrite Zlt_Qlt. eapply Qlt_le_trans; [exact H | apply Qle_ceiling]. }
  lia.
Qed.

(** ... and fails only once that number is reached. *)
Lemma trialsRun_finish (T : Q) (t : Z) :
  ltb (inject_Z (t + 1)) T = false -> 0 <= t -> trialsRun T <= t + 1.
Proof.
  intros H Ht. apply ltb_ge in H. unfold trialsRun.
  assert (A : Qceiling T <= t + 1).
  { rewrite <- (Qceiling_Z (t + 1)). apply Qceiling_resp_le, H. }
  lia.
Qed.

(** The number of trials run is the trial count rounded up to a whole
    number, and at least 1. *)
Lemma trialsRun_ceiling (T : Q) :
  (0 < T)%Q -> (inject_Z (trialsRun T) - 1 < T <= inject_Z (trialsRun T))%Q.
Proof.
  intros H. unfold trialsRun.
  pose proof (Qle_ceiling T) as U. pose proof (Qceiling_lt T) as L.
  assert (P : 1 <= Qceiling T).
  { assert (0 < Qceiling T); [|lia].
    rewrite Zlt_Qlt. eapply Qlt_le_trans; [exact H | exact U]. }
  rewrite Z.max_r by exact P.
  unfold Z.sub in L. rewrite inject_Z_plus in L.
  change (inject_Z (- (1))) with (- (1))%Q in L.
  split; [lra | exact U].
Qed.

Lemma trialsRun_pos (T : Q) : 0 < trialsRun T.
Proof. unfold trialsRun. lia. Qed.

Lemma trialsRun_whole (T : Q) (n : Z) :
  1 <= n -> (T == inject_Z n)%Q -> trialsRun T = n.
Proof.
  intros H E. unfold trialsRun. rewrite (Qceiling_comp _ _ E), Qceiling_Z. lia.
Qed.

Lemma trialsRun_mono (T T' : Q) : (T <= T')%Q -> trialsRun T <= trialsRun T'.
Proof.
  intros H. unfold trialsRun. pose proof (Qceiling_resp_le _ _ H). lia.
Qed.

Lemma SessionInv_mount (trials maxMs : Q) : SessionInv trials (mount trials maxMs).
Proof. unfold SessionInv. simpl. auto. Qed.

(** One step in timer order keeps the stage invariant; after the session is
    finished no step changes a cell of the test or emits anything, and a
    result is emitted exactly by the step that finishes the session. *)
Lemma timedStep_stage (trials : Q) (s s' : State) (e : Event) (out : list FieldResult) :
  SessionInv trials s -> timedStep s e = Some (s', out) ->
  SessionInv trials s'
  /\ (if done s then done s' = true /\ sessionCells s' = sessionCells s /\ out = []
      else if done s'
           then exists r, out = [r] /\ misses r = missesRef s'
                          /\ rts r = reactionTimesRef s'
                          /\ score r = computeScore (misses r)
                                         (average (rts r) (maxReaction s'))
           else out = []).
Proof.
  intros [Htot Hst] H.
  destruct s as [st dn tt mr rtr mi tr ttr mrr stt dv tm pr sf pf].
  unfold SessionInv, stageOf, sessionCells in *. cbn in Htot, Hst. subst tt.
  destruct st, dn, tm as [[|]|], pr as [|[|pr]], dv;
    try contradiction;
    destruct e; cbn [timedStep Nat.eqb] in H; field_unfold;
    try discriminate;
    field_cases; inversion H; subst; clear H;
    cbn; rewrite ?length_app; cbn [length];
    repeat match goal with
      | H : _ /\ _ |- _ => destruct H
      end;
    subst;
    repeat match goal with
      | H : ltb (inject_Z (_ + 1)) _ = true |- _ => apply trialsRun_advance in H
      | H : ltb (inject_Z (_ + 1)) _ = false |- _ =>
          apply trialsRun_finish in H; [|lia]
      end;
    repeat split; eauto;
    try match goal with
      | |- context [trialsRun ?T] => pose proof (trialsRun_pos T)
      end;
    try lia.
Qed.

Lemma timedRun_stage (trials : Q) (evs : list Event) :
  forall s s' outs,
    SessionInv trials s -> timedRun s evs = Some (s', outs) ->
    SessionInv trials s'
    /\ (if done s then done s' = true /\ sessionCells s' = sessionCells s /\ outs = []
        else if done s'
             then exists r, outs = [r] /\ misses r = missesRef s'
                            /\ rts r = reactionTimesRef s'
                            /\ score r = computeScore (misses r)
                                           (average (rts r) (maxReaction s'))
             else outs = []).
Proof.
  induction evs as [|e evs IH]; intros s s' outs I H.
  - cbn in H. inversion H; subst. split; [exact I|].
    destruct (done s') eqn:D; auto.
  - cbn [timedRun] in H.
    destruct (timedStep s e) as [[s1 o1]|] eqn:E; [|discriminate].
    destruct (timedRun s1 evs) as [[s2 o2]|] eqn:R; [|discriminate].
    inversion H; subst; clear H.
    destruct (timedStep_stage _ _ _ _ _ I E) as [I1 S1].
    destruct (IH _ _ _ I1 R) as [I2 S2].
    split; [exact I2|].
    destruct (done s) eqn:D.
    + destruct S1 as (D1 & K1 & ->). rewrite D1 in S2.
      destruct S2 as (D2 & K2 & ->). repeat split; [exact D2 | congruence].
    + destruct (done s1) eqn:D1.
      * destruct S2 as (D2 & K2 & ->). rewrite D2, app_nil_r.
        destruct S1 as (r & -> & Hm & Hr & Hs). exists r.
        split; [reflexivity|].
        assert (M1 : missesRef s' = missesRef s1) by exact (f_equal missesRef K2).
        assert (M2 : reactionTimesRef s' = reactionTimesRef s1)
          by exact (f_equal reactionTimesRef K2).
        assert (M3 : maxReaction s' = maxReaction s1) by exact (f_equal maxReaction K2).
        rewrite M1, M2, M3. auto.
      * rewrite S1. exact S2.
Qed.

(** X2. In every run in timer order, whatever the trial count, a session
    hands [onResult] nothing until it is finished and exactly one result
    once it is; in that result every trial run is accounted for, as a miss
    or as a reaction time: misses + number of reaction times = number of
    trials run.  That number is the trial count rounded up to a whole number
    (and 1 for a count below 1): the count itself when it is whole and at
    least 1, within 3..12 for the counts the Trials input hands over, and 4
    for the count 3.5, which that input keeps. *)
Theorem session_accounts_for_every_trial
  (trials maxMs : Q) (evs : list Event) (s : State) (outs : list FieldResult) :
  timedRun (mount trials maxMs) evs = Some (s, outs) ->
  (done s = false -> outs = [])
  /\ (done s = true ->
      exists r,
        outs = [r]
        /\ misses r + Z.of_nat (length (rts r)) = trialsRun trials
        /\ 0 <= misses r <= trialsRun trials)
  /\ ((0 < trials)%Q ->
      (inject_Z (trialsRun trials) - 1 < trials <= inject_Z (trialsRun trials))%Q)
  /\ (forall n, 1 <= n -> (trials == inject_Z n)%Q -> trialsRun trials = n)
  /\ ((3 <= trials <= 12)%Q -> 3 <= trialsRun trials <= 12).
Proof.
  intros H.
  destruct (timedRun_stage _ _ _ _ _ (SessionInv_mount trials maxMs) H) as [[_ I] S].
  cbn [mount done] in S.
  split; [|split; [|split; [|split]]].
  - intros D; rewrite D in S. exact S.
  - intros D; rewrite D in S.
    destruct S as (r & -> & Hm & Hr & _). exists r. split; [reflexivity|].
    destruct s as [st dn tt mr rtr mi tr ttr mrr stt dv tm pr sf pf].
    cbn in D. subst dn. unfold stageOf in I. cbn in I, Hm, Hr.
    destruct st, tm as [[|]|], pr as [|[|pr]], dv; try contradiction.
    destruct I as (_ & I1 & I2). rewrite Hm, Hr.
    assert (mi + Z.of_nat (length rtr) = trialsRun trials) by exact I2.
    split; [assumption|]. lia.
  - apply trialsRun_ceiling.
  - intros n. apply trialsRun_whole.
  - intros [L U].
    pose proof (trialsRun_mono _ _ L) as A. pose proof (trialsRun_mono _ _ U) as B.
    change (trialsRun 3) with 3 in A. change (trialsRun 12) with 12 in B. lia.
Qed.

Lemma session_accounts_for_every_trial_witness :
  timedRun (mount (7 # 2) (2000 # 1)) scenarioF_events
  = Some (scenarioF_final, [mkFieldResult 6 3 (300 # 1) [300]])
  /\ done scenarioF_final = true
  /\ trialsRun (7 # 2) = 4
  /\ ((done scenarioF_final = false -> [mkFieldResult 6 3 (300 # 1) [300]] = [])
      /\ (done scenarioF_final = true ->
          exists r,
            [mkFieldResult 6 3 (300 # 1) [300]] = [r]
            /\ misses r + Z.of_nat (length (rts r)) = trialsRun (7 # 2)
            /\ 0 <= misses r <= trialsRun (7 # 2))
      /\ ((0 < 7 # 2)%Q ->
          (inject_Z (trialsRun (7 # 2)) - 1 < 7 # 2 <= inject_Z (trialsRun (7 # 2)))%Q)
      /\ (forall n, 1 <= n -> (7 # 2 == inject_Z n)%Q -> trialsRun (7 # 2) = n)
      /\ ((3 <= 7 # 2 <= 12)%Q -> 3 <= trialsRun (7 # 2) <= 12)).
Proof.
  assert (H : timedRun (mount (7 # 2) (2000 # 1)) scenarioF_events
              = Some (scenarioF_final, [mkFieldResult 6 3 (300 # 1) [300]]))
    by (vm_compute; reflexivity).
  split; [exact H|]. split; [reflexivity|]. split; [reflexivity|].
  exact (session_accounts_for_every_trial (7 # 2) (2000 # 1) scenarioF_events
           scenarioF_final [mkFieldResult 6 3 (300 # 1) [300]] H).
Defined.

(** Without the order of the timers the accounting fails: were the miss
    timer to fire before the reveal, the trial would count as neither. *)
Example miss_before_reveal_counts_nothing :
  resultsOf (mount (1 # 1) (2000 # 1)) [ClickStart; MissFires]
  = [ mkFieldResult 1 0 (2000 # 1) [] ]
  /\ timedRun (mount (1 # 1) (2000 # 1)) [ClickStart; MissFires] = None.
Proof. split; vm_compute; reflexivity. Qed.

Lemma getRandomDelay_bounds (u : Q) :
  (0 <= u)%Q -> (u < 1)%Q -> (1000 <= getRandomDelay u <= 2000)%Q.
Proof.
  intros U0 U1. unfold getRandomDelay.
  assert (A : (0 <= toDouble (u * 1000) <= 1000)%Q).
  { apply toDouble_between; [lra | reflexivity | reflexivity | lra]. }
  apply toDouble_between; [lra | reflexivity | reflexivity | lra].
Qed.

(** Between the delay and the delay plus a window of at least 1 ms lies a
    whole number, which is a Number: the sum cannot round down to the
    delay. *)
Lemma reveal_before_miss (u m : Q) :
  (0 <= u)%Q -> (u < 1)%Q -> (1 <= m)%Q -> (revealDelay u < missDelay u m)%Q.
Proof.
  intros U0 U1 M. unfold revealDelay, missDelay.
  destruct (getRandomDelay_bounds u U0 U1) as [L H].
  set (d := getRandomDelay u) in *.
  set (n := Qfloor d + 1).
  assert (F0 : (inject_Z (Qfloor d) <= d)%Q) by apply Qfloor_le.
  assert (F1 : (d < inject_Z n)%Q) by apply Qlt_floor.
  assert (F2 : (inject_Z n <= d + 1)%Q).
  { unfold n. rewrite inject_Z_plus. change (inject_Z 1) with 1%Q. lra. }
  assert (Nn : 0 <= n < 2 ^ 53).
  { assert (X : Qfloor d <= 2000).
    { change 2000 with (Qfloor 2000). apply Qfloor_resp_le, H. }
    assert (Y : 1000 <= Qfloor d).
    { change 1000 with (Qfloor 1000). apply Qfloor_resp_le, L. }
    unfold n. split; [lia|]. apply (Z.le_lt_trans _ 2001); [lia | reflexivity]. }
  eapply Qlt_le_trans; [exact F1|].
  rewrite <- (toDouble_Z n Nn). apply toDouble_mono.
  - change 0%Q with (inject_Z 0). rewrite <- Zle_Qle. lia.
  - lra.
Qed.

(** X3. Whatever Number [Math.random()] returns, 0 <= u < 1: the dot is
    placed at one of the six positions, wholly inside the test area and
    clear of the fixation point; the reveal delay lies in
    1000 <= delay <= 2000 ms, and both ends are reached, 2000 by the
    rounding of the sum at the largest Number below 1; and with a response
    window of at least 1 ms (the input keeps it within 800..5000) the reveal
    timer is due strictly before the miss timer armed beside it. *)
Theorem stimulus_is_well_placed_and_timed (u u' maxMs : Q) :
  isNumber u -> (0 <= u < 1)%Q -> (0 <= u' < 1)%Q -> (1 <= maxMs)%Q ->
  (exists l t,
     randomDotPos u = Some (l, t)
     /\ In (l, t) positions
     /\ 0 <= l /\ l + dotSize <= areaWidth
     /\ 0 <= t /\ t + dotSize <= areaHeight
     /\ (l + dotSize <= fixationFrom \/ fixationTo <= l))
  /\ (1000 <= revealDelay u' <= 2000)%Q
  /\ (revealDelay u' < missDelay u' maxMs)%Q
  /\ (revealDelay 0 == 1000)%Q
  /\ (isNumber maxRandom /\ maxRandom < 1 /\ revealDelay maxRandom == 2000)%Q.
Proof.
  intros N [U0 U1] [V0 V1] Hm. split; [|split; [|split; [|split]]].
  - unfold randomDotPos. cbv zeta.
    change (inject_Z (Z.of_nat (length positions))) with 6%Q.
    pose proof (number_below_one u N U1) as Um.
    assert (T : (toDouble (maxRandom * 6) < 6)%Q) by (vm_compute; reflexivity).
    assert (D : (0 <= toDouble (u * 6) < 6)%Q).
    { split; [apply toDouble_nonneg; lra|].
      eapply Qle_lt_trans; [|exact T]. apply toDouble_mono; lra. }
    destruct D as [D0 D1].
    assert (B : 0 <= Qfloor (toDouble (u * 6)) < 6).
    { split.
      - change 0 with (Qfloor 0). apply Qfloor_resp_le, D0.
      - rewrite Zlt_Qlt. eapply Qle_lt_trans; [apply Qfloor_le|].
        change (inject_Z 6) with 6%Q. exact D1. }
    set (k := Qfloor (toDouble (u * 6))) in *.
    destruct (Z.ltb_spec k 0) as [K|_]; [lia|].
    assert (C : k = 0 \/ k = 1 \/ k = 2 \/ k = 3 \/ k = 4 \/ k = 5) by lia.
    unfold dotSize, areaWidth, areaHeight, fixationFrom, fixationTo.
    destruct C as [C|[C|[C|[C|[C|C]]]]]; rewrite C; cbn;
      eexists _, _; (split; [reflexivity|]); (split; [auto 10|]); lia.
  - apply getRandomDelay_bounds; assumption.
  - apply reveal_before_miss; assumption.
  - vm_compute. reflexivity.
  - split; [vm_compute; reflexivity|]. split; vm_compute; reflexivity.
Qed.

Lemma stimulus_is_well_placed_and_timed_witness :
  isNumber 0.75 /\ (0 <= 0.75 < 1)%Q /\ (0 <= 0.25 < 1)%Q /\ (1 <= 2000 # 1)%Q
  /\ ((exists l t,
         randomDotPos 0.75 = Some (l, t)
         /\ In (l, t) positions
         /\ 0 <= l /\ l + dotSize <= areaWidth
         /\ 0 <= t /\ t + dotSize <= areaHeight
         /\ (l + dotSize <= fixationFrom \/ fixationTo <= l))
      /\ (1000 <= revealDelay 0.25 <= 2000)%Q
      /\ (revealDelay 0.25 < missDelay 0.25 (2000 # 1))%Q
      /\ (revealDelay 0 == 1000)%Q
      /\ (isNumber maxRandom /\ maxRandom < 1 /\ revealDelay maxRandom == 2000)%Q).
Proof.
  assert (H0 : isNumber 0.75) by (vm_compute; reflexivity).
  assert (H1 : (0 <= 0.75 < 1)%Q) by (split; [vm_compute; discriminate | reflexivity]).
  assert (H2 : (0 <= 0.25 < 1)%Q) by (split; [vm_compute; discriminate | reflexivity]).
  assert (H3 : (1 <= 2000 # 1)%Q) by (vm_compute; discriminate).
  split; [exact H0|]. split; [exact H1|]. split; [exact H2|]. split; [exact H3|].
  exact (stimulus_is_well_placed_and_timed 0.75 0.25 (2000 # 1) H0 H1 H2 H3).
Defined.

(** X4. Whatever is typed into the two configuration inputs, the trial
    count stays within 3..12 and the response window within 800..5000 (so
    it is positive); a value inside the range is kept as typed, and an
    input that is not a number, or is 0, gives the default 6 (2000), not the
    lower bound. *)
Theorem configuration_is_clamped (v : option Q) :
  (3 <= onChangeTrials v <= 12)%Q
  /\ (800 <= onChangeMaxReaction v <= 5000)%Q
  /\ (0 < onChangeMaxReaction v)%Q
  /\ (forall q, v = Some q -> (3 <= q <= 12)%Q -> (onChangeTrials v == q)%Q)
  /\ (forall q, v = Some q -> (800 <= q <= 5000)%Q -> (onChangeMaxReaction v == q)%Q)
  /\ (v = None \/ v = Some 0%Q ->
      (onChangeTrials v == 6)%Q /\ (onChangeMaxReaction v == 2000)%Q).
Proof.
  unfold onChangeTrials, onChangeMaxReaction.
  assert (B : forall lo hi x : Q, (lo <= hi)%Q ->
              (lo <= Qmax lo (Qmin hi x) <= hi)%Q).
  { intros lo hi x L. split; [apply Q.le_max_l|].
    apply Q.max_lub; [exact L | apply Q.le_min_l]. }
  assert (K : forall lo hi x : Q, (lo <= x <= hi)%Q ->
              (Qmax lo (Qmin hi x) == x)%Q).
  { intros lo hi x [L U]. rewrite (Q.min_r hi x U). apply Q.max_r, L. }
  split; [apply B; discriminate|].
  split; [apply B; discriminate|].
  split.
  { eapply Qlt_le_trans; [|apply (B 800 5000 _)%Q; discriminate]. reflexivity. }
  split; [|split].
  - intros q -> R. cbn [orDefault].
    destruct (Qeq_bool q 0) eqn:E; [|apply K, R].
    apply Qeq_bool_iff in E. exfalso. destruct R as [R _]. lra.
  - intros q -> R. cbn [orDefault].
    destruct (Qeq_bool q 0) eqn:E; [|apply K, R].
    apply Qeq_bool_iff in E. exfalso. destruct R as [R _]. lra.
  - intros [-> | ->]; cbn; split; reflexivity.
Qed.

Lemma timedStep_step (s : State) (e : Event) (x : State * list FieldResult) :
  timedStep s e = Some x -> step s e = Some x.
Proof.
  destruct e; cbn [timedStep]; auto.
  destruct (pendingReveals s =? 0)%nat; [auto | discriminate].
Qed.

Lemma timedRun_maxReaction (evs : list Event) :
  forall s s' outs, timedRun s evs = Some (s', outs) -> maxReaction s' = maxReaction s.
Proof.
  induction evs as [|e evs IH]; intros s s' outs H; cbn [timedRun] in H.
  - inversion H; reflexivity.
  - destruct (timedStep s e) as [[s1 o1]|] eqn:E; [|discriminate].
    destruct (timedRun s1 evs) as [[s2 o2]|] eqn:R; [|discriminate].
    inversion H; subst. rewrite (IH _ _ _ R).
    eapply step_maxReaction, timedStep_step, E.
Qed.

(** Once the session is finished, a step changes nothing but the flash:
    only a click, which finds no dot, and a feedback timer can occur. *)
Lemma finished_step (s s' : State) (e : Event) (out : list FieldResult) :
  stageOf s = Some Finished -> timedStep s e = Some (s', out) ->
  stageOf s' = Some Finished
  /\ out = []
  /\ match e with
     | FeedbackFires =>
         s' = endMissFeedback s /\ pendingFeedback s = S (pendingFeedback s')
     | _ => s' = s
     end.
Proof.
  intros I H.
  destruct s as [st dn tt mr rtr mi tr ttr mrr stt dv tm pr sf pf].
  unfold stageOf in *. cbn in I.
  destruct st, dn, tm as [[|]|], pr as [|[|pr]], dv; try discriminate;
    destruct e; cbn [timedStep Nat.eqb] in H; field_unfold;
    try discriminate;
    field_cases;
    try match goal with
      | B : _ || _ = false |- _ => cbn in B; discriminate B
      end;
    inversion H; subst; clear H; cbn; auto.
Qed.

Lemma finished_run (more : list Event) :
  forall s s' outs,
    stageOf s = Some Finished -> timedRun s more = Some (s', outs) ->
    outs = []
    /\ sessionCells s' = sessionCells s
    /\ pendingFeedback s = (pendingFeedback s' + feedbackEvents more)%nat
    /\ (feedbackEvents more = 0%nat -> s' = s)
    /\ (feedbackEvents more <> 0%nat -> showMissFeedback s' = false).
Proof.
  induction more as [|e more IH]; intros s s' outs I H.
  - cbn in H. inversion H; subst. cbn.
    repeat split; auto. intros N. contradiction N. reflexivity.
  - cbn [timedRun] in H.
    destruct (timedStep s e) as [[s1 o1]|] eqn:E; [|discriminate].
    destruct (timedRun s1 more) as [[s2 o2]|] eqn:R; [|discriminate].
    inversion H; subst; clear H.
    destruct (finished_step _ _ _ _ I E) as (I1 & -> & S1).
    destruct (IH _ _ _ I1 R) as (-> & C & P & Z0 & N0).
    split; [reflexivity|].
    destruct e; try (subst s1; repeat split; assumption).
    destruct S1 as [-> P1].
    unfold feedbackEvents in *. cbn [filter length].
    split; [exact C|]. split; [lia|]. split; [discriminate|].
    intros _.
    destruct (Nat.eq_dec (length (filter
                (fun e => match e with FeedbackFires => true | _ => false end) more)) 0)
      as [Z1|Z1].
    + rewrite (Z0 Z1). reflexivity.
    + exact (N0 Z1).
Qed.

(** X5. A finished session is inert as far as the test goes.  In timer
    order none of its reveal, miss and pause timers is pending, Start is
    gone and a click finds no dot; so whatever events follow, nothing more
    is handed to [onResult] and no cell of the test changes.  The one timer
    that can still be pending is the 700 ms timer that ends the miss flash
    (when the last trial was a miss): it comes due as often as it was armed,
    and all it does is end the flash. *)
Theorem finished_session_is_inert
  (trials maxMs : Q) (evs more : list Event)
  (s s' : State) (outs outs' : list FieldResult) :
  timedRun (mount trials maxMs) evs = Some (s, outs) ->
  done s = true ->
  timedRun s more = Some (s', outs') ->
  outs' = []
  /\ sessionCells s' = sessionCells s
  /\ pendingFeedback s = (pendingFeedback s' + feedbackEvents more)%nat
  /\ (feedbackEvents more = 0%nat -> s' = s)
  /\ (feedbackEvents more <> 0%nat -> showMissFeedback s' = false)
  /\ timedStep s MissFires = None
  /\ timedStep s PauseFires = None
  /\ (forall now, timedStep s (RevealFires now) = None)
  /\ timedStep s ClickStart = None
  /\ (forall now, timedStep s (Click now) = Some (s, [])).
Proof.
  intros H D H'.
  destruct (timedRun_stage _ _ _ _ _ (SessionInv_mount trials maxMs) H) as [[_ I] _].
  assert (F : stageOf s = Some Finished).
  { destruct s as [st dn tt mr rtr mi tr ttr mrr stt dv tm pr sf pf].
    cbn in D. subst dn. unfold stageOf in *. cbn in I |- *.
    destruct st, tm as [[|]|], pr as [|[|pr]], dv; try contradiction; reflexivity. }
  destruct (finished_run _ _ _ _ F H') as (O & C & P & Z0 & N0).
  do 5 (split; [assumption|]).
  destruct s as [st dn tt mr rtr mi tr ttr mrr stt dv tm pr sf pf].
  unfold stageOf in F. cbn in F.
  destruct st, dn, tm as [[|]|], pr as [|[|pr]], dv; try discriminate.
  repeat split.
Qed.

Lemma finished_session_is_inert_witness :
  timedRun (mount (7 # 2) (2000 # 1)) scenarioG_events
  = Some (scenarioG_final, [mkFieldResult 1 4 (2000 # 1) []])
  /\ done scenarioG_final = true
  /\ timedRun scenarioG_final [Click 17000; FeedbackFires; Click 18000]
     = Some (endMissFeedback scenarioG_final, [])
  /\ ([] = @nil FieldResult
      /\ sessionCells (endMissFeedback scenarioG_final) = sessionCells scenarioG_final
      /\ pendingFeedback scenarioG_final
         = (pendingFeedback (endMissFeedback scenarioG_final)
            + feedbackEvents [Click 17000; FeedbackFires; Click 18000])%nat
      /\ (feedbackEvents [Click 17000; FeedbackFires; Click 18000] = 0%nat ->
          endMissFeedback scenarioG_final = scenarioG_final)
      /\ (feedbackEvents [Click 17000; FeedbackFires; Click 18000] <> 0%nat ->
          showMissFeedback (endMissFeedback scenarioG_final) = false)
      /\ timedStep scenarioG_final MissFires = None
      /\ timedStep scenarioG_final PauseFires = None
      /\ (forall now, timedStep scenarioG_final (RevealFires now) = None)
      /\ timedStep scenarioG_final ClickStart = None
      /\ (forall now, timedStep scenarioG_final (Click now) = Some (scenarioG_final, []))).
Proof.
  assert (H1 : timedRun (mount (7 # 2) (2000 # 1)) scenarioG_events
               = Some (scenarioG_final, [mkFieldResult 1 4 (2000 # 1) []]))
    by (vm_compute; reflexivity).
  assert (H2 : done scenarioG_final = true) by reflexivity.
  assert (H3 : timedRun scenarioG_final [Click 17000; FeedbackFires; Click 18000]
               = Some (endMissFeedback scenarioG_final, []))
    by (vm_compute; reflexivity).
  split; [exact H1|]. split; [exact H2|]. split; [exact H3|].
  exact (finished_session_is_inert _ _ _ _ _ _ _ _ H1 H2 H3).
Defined.

(** X6. A session in which no response was recorded, with a configuration
    the inputs allow (a trial count of at least 3, a response window of at
    least 800 ms): every trial run is a miss, so there are at least 3
    misses; the score is at most 4, and it is 3 or less, which the page
    labels High, as soon as the trial count exceeds 3 or the window is at
    least 900 ms. *)
Theorem all_missed_session
  (trials maxMs : Q) (evs : list Event) (s : State)
  (outs : list FieldResult) (r : FieldResult) :
  (3 <= trials)%Q ->
  (800 # 1 <= maxMs)%Q ->
  timedRun (mount trials maxMs) evs = Some (s, outs) ->
  In r outs ->
  rts r = [] ->
  misses r = trialsRun trials
  /\ 3 <= misses r
  /\ score r <= 4
  /\ ((3 < trials)%Q \/ (900 # 1 <= maxMs)%Q ->
      Page.severity (Page.glaucomaScoreAfter r) = Page.High).
Proof.
  intros Ht Hm H Hin Hr.
  pose proof (timedRun_maxReaction _ _ _ _ H) as Hmax. cbn [mount maxReaction] in Hmax.
  destruct (timedRun_stage _ _ _ _ _ (SessionInv_mount trials maxMs) H) as [[_ I] S].
  cbn [mount done] in S.
  destruct (done s) eqn:D; [|rewrite S in Hin; destruct Hin].
  destruct S as (r' & -> & Hmi & Hrt & Hsc).
  destruct Hin as [<-|[]].
  rewrite Hmax, Hr in Hsc. cbn [average length Nat.ltb Nat.leb] in Hsc.
  assert (Hmisses : misses r' = trialsRun trials).
  { destruct s as [st dn tt mr rtr mi tr ttr mrr stt dv tm pr sf pf].
    cbn in D. subst dn. unfold stageOf in I. cbn in I, Hmi, Hrt.
    destruct st, tm as [[|]|], pr as [|[|pr]], dv; try contradiction.
    destruct I as (_ & _ & I2). rewrite Hr in Hrt. subst rtr. cbn in I2. lia. }
  assert (T3 : 3 <= trialsRun trials).
  { pose proof (trialsRun_mono _ _ Ht) as A. exact A. }
  split; [exact Hmisses|]. split; [lia|].
  assert (R3 : 3 <= Math_round ((maxMs - (200 # 1)) / (200 # 1))).
  { change 3 with (Math_round (((800 # 1) - (200 # 1)) / (200 # 1))).
    apply Math_round_mono. unfold Qdiv.
    apply Qmult_le_compat_r; [lra | discriminate]. }
  unfold computeScore in Hsc. cbv zeta in Hsc.
  split; [lia|].
  intros [H4|H9]; unfold Page.severity, Page.glaucomaScoreAfter.
  - assert (T4 : 4 <= trialsRun trials).
    { assert (A : 3 < Qceiling trials).
      { rewrite Zlt_Qlt. eapply Qlt_le_trans; [exact H4 | apply Qle_ceiling]. }
      unfold trialsRun. lia. }
    destruct (Z.leb_spec (score r') 3); [reflexivity | lia].
  - assert (R4 : 4 <= Math_round ((maxMs - (200 # 1)) / (200 # 1))).
    { change 4 with (Math_round (((900 # 1) - (200 # 1)) / (200 # 1))).
      apply Math_round_mono. unfold Qdiv.
      apply Qmult_le_compat_r; [lra | discriminate]. }
    destruct (Z.leb_spec (score r') 3); [reflexivity | lia].
Qed.

Lemma all_missed_session_witness :
  (3 <= 7 # 2)%Q
  /\ (800 # 1 <= 2000 # 1)%Q
  /\ timedRun (mount (7 # 2) (2000 # 1)) scenarioG_events
     = Some (scenarioG_final, [mkFieldResult 1 4 (2000 # 1) []])
  /\ In (mkFieldResult 1 4 (2000 # 1) []) [mkFieldResult 1 4 (2000 # 1) []]
  /\ rts (mkFieldResult 1 4 (2000 # 1) []) = []
  /\ (misses (mkFieldResult 1 4 (2000 # 1) []) = 4
      /\ 3 <= misses (mkFieldResult 1 4 (2000 # 1) [])
      /\ score (mkFieldResult 1 4 (2000 # 1) []) <= 4
      /\ ((3 < 7 # 2)%Q \/ (900 # 1 <= 2000 # 1)%Q ->
          Page.severity (Page.glaucomaScoreAfter (mkFieldResult 1 4 (2000 # 1) []))
          = Page.High)).
Proof.
  assert (H1 : (3 <= 7 # 2)%Q) by (vm_compute; discriminate).
  assert (H2 : (800 # 1 <= 2000 # 1)%Q) by (vm_compute; discriminate).
  assert (H3 : timedRun (mount (7 # 2) (2000 # 1)) scenarioG_events
               = Some (scenarioG_final, [mkFieldResult 1 4 (2000 # 1) []]))
    by (vm_compute; reflexivity).
  assert (H4 : In (mkFieldResult 1 4 (2000 # 1) []) [mkFieldResult 1 4 (2000 # 1) []])
    by (simpl; auto).
  assert (H5 : rts (mkFieldResult 1 4 (2000 # 1) []) = []) by reflexivity.
  split; [exact H1|]. split; [exact H2|]. split; [exact H3|].
  split; [exact H4|]. split; [exact H5|].
  exact (all_missed_session (7 # 2) (2000 # 1) _ _ _ _ H1 H2 H3 H4 H5).
Defined.

(** The mildest all-missed session: three trials and a window of exactly
    800 ms score 4, which the page labels Moderate. *)
Example all_missed_mildest :
  computeScore 3 (average [] (800 # 1)) = 4
  /\ Page.severity (Some 4) = Page.Moderate.
Proof. split; vm_compute; reflexivity. Qed.

End FieldTestSessionProofs.


(** * Further properties of the adaptive plate engine *)

Module ContrastViewProofs.

Import JS ContrastTest ContrastView ContrastTestProofs.

Local Open Scope Q_scope.

(** Linear arithmetic over [Q] once the divisions by 8 and by 1000 are
    written as multiplications. *)
Ltac qlra :=
  unfold Qdiv in *;
  change (/ 8) with (1 # 8) in *;
  change (/ 1000) with (1 # 1000) in *;
  lra.

Lemma clamp_bounds (lo hi x : Q) :
  lo <= hi -> lo <= Qmax lo (Qmin hi x) <= hi.
Proof.
  intros L. split; [apply Q.le_max_l|].
  apply Q.max_lub; [exact L | apply Q.le_min_l].
Qed.

Lemma clamp_mono (lo hi x y : Q) :
  x <= y -> Qmax lo (Qmin hi x) <= Qmax lo (Qmin hi y).
Proof.
  intros H. apply Q.max_le_compat_l, Q.min_le_compat_l, H.
Qed.

Lemma Math_round_between (q : Q) (lo hi : Z) :
  inject_Z lo - (1 # 2) <= q -> q < inject_Z hi + (1 # 2) ->
  (lo <= Math_round q <= hi)%Z.
Proof.
  intros L U. unfold Math_round. split.
  - rewrite <- (Qfloor_Z lo). apply Qfloor_resp_le. lra.
  - assert (H : (Qfloor (q + (1 # 2)) < hi + 1)%Z); [|lia].
    rewrite Zlt_Qlt. eapply Qle_lt_trans; [apply Qfloor_le|].
    rewrite inject_Z_plus. change (inject_Z 1) with 1. lra.
Qed.

Lemma factor_bounds (level : Z) :
  (0 <= level <= 8)%Z -> 0.2 <= 0.2 + (inject_Z level / 8) * 0.8 <= 1.
Proof.
  intros [L U]. rewrite Zle_Qle in L, U.
  change (inject_Z 0) with 0 in L. change (inject_Z 8) with 8 in U.
  split; qlra.
Qed.

Lemma factor_mono (l l' : Z) :
  (l <= l')%Z ->
  0.2 + (inject_Z l / 8) * 0.8 <= 0.2 + (inject_Z l' / 8) * 0.8.
Proof. intros H. rewrite Zle_Qle in H. qlra. Qed.

Lemma toFixed3_mono (c c' : Q) : c <= c' -> toFixed3 c <= toFixed3 c'.
Proof.
  intros H. unfold toFixed3.
  assert (F : (Qfloor (c * 1000 + (1 # 2)) <= Qfloor (c' * 1000 + (1 # 2)))%Z)
    by (apply Qfloor_resp_le; lra).
  rewrite Zle_Qle in F. qlra.
Qed.

Lemma toFixed3_bounds (c : Q) :
  MIN_CONTRAST <= c <= MAX_CONTRAST ->
  MIN_CONTRAST <= toFixed3 c <= MAX_CONTRAST.
Proof.
  unfold MIN_CONTRAST, MAX_CONTRAST. intros [L U]. split.
  - apply (Qle_trans _ (toFixed3 0.08)); [vm_compute; discriminate|].
    apply toFixed3_mono, L.
  - apply (Qle_trans _ (toFixed3 0.98)); [|vm_compute; discriminate].
    apply toFixed3_mono, U.
Qed.

(** X7. The effective contrast of a grating or number plate lies within
    0.08..0.98 at every level and for every base contrast, negative ones
    included; and with a base contrast that is not negative it does not
    decrease when the level rises: a higher staircase level draws the plate
    with more contrast. *)
Theorem levelToContrast_range_and_monotone (level level' : Z) (baseContrast : Q) :
  0.08 <= levelToContrast level baseContrast <= 0.98
  /\ ((level <= level')%Z -> 0 <= baseContrast ->
      levelToContrast level baseContrast <= levelToContrast level' baseContrast).
Proof.
  unfold levelToContrast. cbv zeta. split.
  - apply toFixed3_bounds, clamp_bounds. vm_compute; discriminate.
  - intros Hl Hb. apply toFixed3_mono, clamp_mono.
    rewrite !(Qmult_comm baseContrast).
    apply Qmult_le_compat_r; [apply factor_mono, Hl | exact Hb].
Qed.

Lemma levelToContrast_range_and_monotone_witness :
  (0.08 <= levelToContrast 20 (-3) <= 0.98)
  /\ (0.08 <= levelToContrast 0 0.85 <= 0.98)
  /\ levelToContrast 0 0.85 <= levelToContrast 8 0.85.
Proof.
  assert (H1 : (0 <= 8)%Z) by lia.
  assert (H2 : 0 <= 0.85) by (vm_compute; discriminate).
  split; [exact (proj1 (levelToContrast_range_and_monotone 20 20 (-3)))|].
  split; [exact (proj1 (levelToContrast_range_and_monotone 0 8 0.85))|].
  exact (proj2 (levelToContrast_range_and_monotone 0 8 0.85) H1 H2).
Defined.

(** The pool's hardest number plate at the two ends of the staircase. *)
Example levelToContrast_ends :
  levelToContrast 0 0.14 == 0.08 /\ levelToContrast 8 0.14 == 0.14
  /\ levelToContrast 0 0.85 == 0.17 /\ levelToContrast 8 0.85 == 0.85.
Proof. repeat split. Qed.

Lemma levelToDifficulty_bounds (level : Z) (baseDifficulty : Q) :
  (0 <= level <= 8)%Z ->
  0.05 <= levelToDifficulty level baseDifficulty <= 1.
Proof.
  intros L. unfold levelToDifficulty. cbv zeta.
  pose proof (factor_bounds level L) as [F0 F1].
  set (f := 0.2 + inject_Z level / 8 * 0.8) in *.
  split; [apply Q.le_max_l|].
  apply Q.max_lub; [vm_compute; discriminate|].
  apply (Qle_trans _ (1 * f)); [|lra].
  apply Qmult_le_compat_r; [apply Q.le_min_l | lra].
Qed.

(** X8. For a staircase level of 0..8 the difficulty factor of a noise
    plate lies within 0.05..1 whatever the base difficulty, and for a base
    difficulty of 1..3 it does not decrease when the level rises and does
    not increase when the base difficulty does. *)
Theorem levelToDifficulty_range_and_monotone
  (level level' : Z) (baseDifficulty baseDifficulty' : Q) :
  (0 <= level <= level')%Z -> (level' <= 8)%Z ->
  1 <= baseDifficulty <= baseDifficulty' -> baseDifficulty' <= 3 ->
  0.05 <= levelToDifficulty level baseDifficulty <= 1
  /\ levelToDifficulty level baseDifficulty <= levelToDifficulty level' baseDifficulty
  /\ levelToDifficulty level baseDifficulty' <= levelToDifficulty level baseDifficulty.
Proof.
  intros [L0 Ll] L8 [B1 Bb] B3. unfold levelToDifficulty. cbv zeta.
  pose proof (factor_bounds level ltac:(lia)) as [F0 F1].
  pose proof (factor_bounds level' ltac:(lia)) as [F0' F1'].
  pose proof (factor_mono _ _ Ll) as Fm.
  set (f := 0.2 + inject_Z level / 8 * 0.8) in *.
  set (f' := 0.2 + inject_Z level' / 8 * 0.8) in *.
  assert (M : forall b, 1 <= b -> b <= 3 ->
              Qmin 1 (1 - (b - 1) * 0.15) == 1 - (b - 1) * 0.15).
  { intros b H1 H3. apply Q.min_r. lra. }
  rewrite (M _ B1 ltac:(lra)), (M baseDifficulty' ltac:(lra) B3).
  set (m := 1 - (baseDifficulty - 1) * 0.15).
  set (m' := 1 - (baseDifficulty' - 1) * 0.15).
  assert (Hm : 0.7 <= m <= 1) by (unfold m; split; lra).
  assert (Hm' : 0.7 <= m' <= m) by (unfold m, m'; split; lra).
  split; [split|split].
  - apply Q.le_max_l.
  - apply Q.max_lub; [vm_compute; discriminate|].
    apply (Qle_trans _ (1 * f)); [|lra].
    apply Qmult_le_compat_r; lra.
  - apply Q.max_le_compat_l. rewrite !(Qmult_comm m).
    apply Qmult_le_compat_r; lra.
  - apply Q.max_le_compat_l. apply Qmult_le_compat_r; lra.
Qed.

Lemma levelToDifficulty_range_and_monotone_witness :
  (0 <= 2 <= 6)%Z /\ (6 <= 8)%Z /\ 1 <= 1 <= 3 /\ 3 <= 3
  /\ (0.05 <= levelToDifficulty 2 1 <= 1
      /\ levelToDifficulty 2 1 <= levelToDifficulty 6 1
      /\ levelToDifficulty 2 3 <= levelToDifficulty 2 1).
Proof.
  assert (H1 : (0 <= 2 <= 6)%Z) by lia.
  assert (H2 : (6 <= 8)%Z) by lia.
  assert (H3 : 1 <= 1 <= 3) by (split; vm_compute; discriminate).
  assert (H4 : 3 <= 3) by (vm_compute; discriminate).
  split; [exact H1|]. split; [exact H2|]. split; [exact H3|]. split; [exact H4|].
  exact (levelToDifficulty_range_and_monotone 2 6 1 3 H1 H2 H3 H4).
Defined.

Lemma currentPlate_plate (s : State) :
  option_map plate (currentPlate s) = choosePlateForLevel s (staircaseLevel s).
Proof.
  unfold currentPlate.
  destruct (choosePlateForLevel s (staircaseLevel s)) as [[o c f|a d|a c]|];
    reflexivity.
Qed.

Lemma choosePlateForLevel_index (s : State) (level : Z) :
  choosePlateForLevel s level
  = plateAt (Z.rem (trialIndex s + level + Z.abs (hash (rngSeed s))) 9).
Proof. reflexivity. Qed.

(** X9. In every reachable state a plate is on hand: the selection index
    falls inside the pool whatever the seed (so [handleSubmit] never meets a
    null plate), a grating or number plate carries an effective contrast
    within 0.08..0.98, and a noise plate a difficulty factor within
    0.05..1. *)
Theorem plate_always_on_hand
  (toLowerCase : jsstring -> jsstring)
  (seed : Z) (evs : list Event) (s : State) (outs : list Z) :
  run toLowerCase (mount seed) evs = Some (s, outs) ->
  exists cp,
    currentPlate s = Some cp
    /\ In (plate cp) basePlates
    /\ match plate cp with
       | noise _ _ =>
           contrast cp = None
           /\ exists d, difficultyFactor cp = Some d /\ 0.05 <= d <= 1
       | _ =>
           difficultyFactor cp = None
           /\ exists c, contrast cp = Some c /\ 0.08 <= c <= 0.98
       end.
Proof.
  intros Hrun.
  destruct (reachable_Inv _ _ _ _ _ Hrun) as (Ht & Hl & _).
  destruct (currentPlate_defined s) as (cp & Hcp & Hin); [lia|lia|].
  exists cp. split; [exact Hcp|]. split; [exact Hin|].
  unfold currentPlate in Hcp.
  destruct (choosePlateForLevel s (staircaseLevel s)) as [[o c f|a d|a c]|];
    inversion Hcp; subst; cbn [plate contrast difficultyFactor] in *.
  - split; [reflexivity|]. eexists. split; [reflexivity|].
    unfold levelToContrast. cbv zeta.
    apply toFixed3_bounds, clamp_bounds. vm_compute; discriminate.
  - split; [reflexivity|]. eexists. split; [reflexivity|].
    assert (D : 1 <= d <= 3).
    { cbn in Hin.
      repeat (destruct Hin as [Hin|Hin]; [inversion Hin; subst; split; vm_compute; discriminate|]).
      destruct Hin. }
    destruct (levelToDifficulty_bounds (staircaseLevel s) d Hl) as [L U]; auto.
  - split; [reflexivity|]. eexists. split; [reflexivity|].
    unfold levelToContrast. cbv zeta.
    apply toFixed3_bounds, clamp_bounds. vm_compute; discriminate.
Qed.

Lemma plate_always_on_hand_witness :
  run asciiLowerCase (mount 0)
      (session scenarioC_first8 ++ [ChangeAnswer (str "horizontal")])
  = Some (scenarioC_typed, [])
  /\ exists cp,
       currentPlate scenarioC_typed = Some cp
       /\ In (plate cp) basePlates
       /\ match plate cp with
          | noise _ _ =>
              contrast cp = None
              /\ exists d, difficultyFactor cp = Some d /\ 0.05 <= d <= 1
          | _ =>
              difficultyFactor cp = None
              /\ exists c, contrast cp = Some c /\ 0.08 <= c <= 0.98
          end.
Proof.
  assert (H : run asciiLowerCase (mount 0)
                (session scenarioC_first8 ++ [ChangeAnswer (str "horizontal")])
              = Some (scenarioC_typed, [])) by (vm_compute; reflexivity).
  split; [exact H|].
  exact (plate_always_on_hand asciiLowerCase 0 _ _ _ H).
Defined.

(** X10. What the plates look like at any effective contrast of 0.08..0.98
    and any difficulty factor of 0.05..1: every colour channel is a value of
    0..255; the two greys of a grating differ by at least 20; the digit of a
    number plate is darker than its background by at least 17 grey levels;
    the red channel of a noise plate's number never exceeds that of a
    background cell. *)
Theorem plates_are_drawn_visibly (c d u1 u2 u3 : Q) (i : Z) :
  0.08 <= c <= 0.98 -> 0.05 <= d <= 1 ->
  0 <= u1 < 1 -> 0 <= u2 < 1 -> 0 <= u3 < 1 ->
  (0 <= stripeGrey (gratingAmp c) i <= 255)%Z
  /\ (20 <= stripeGrey (gratingAmp c) 0 - stripeGrey (gratingAmp c) 1)%Z
  /\ (0 <= numberGrey c <= numberBackground - 17)%Z
  /\ (let '(r, g, b) := noiseCell u1 u2 u3 d in
      let '(nr, ng, nb) := noiseNumber d in
      (140 <= r <= 220 /\ 120 <= g <= 180 /\ 120 <= b <= 200
       /\ 83 <= nr <= 140 /\ 73 <= ng <= 130 /\ 73 <= nb <= 130
       /\ nr <= r)%Z).
Proof.
  intros [C0 C1] [D0 D1] [U10 U11] [U20 U21] [U30 U31].
  assert (A : (10 <= gratingAmp c <= 118)%Z).
  { unfold gratingAmp. apply Math_round_between.
    - change (inject_Z 10) with 10. lra.
    - change (inject_Z 118) with 118. lra. }
  assert (N : (4 <= numberGrey c <= 193)%Z).
  { unfold numberGrey, numberBackground. change (inject_Z 210) with 210.
    apply Math_round_between.
    - change (inject_Z 4) with 4. lra.
    - change (inject_Z 193) with 193. lra. }
  assert (P : forall u k, 0 <= u -> u < 1 -> 0 < k -> 0 <= u * (k * d) <= k).
  { intros u k H0 H1 Hk.
    assert (0 <= k * d) by (apply Qmult_le_0_compat; lra).
    assert (k * d <= k) by (rewrite <- (Qmult_1_r k) at 2; rewrite !(Qmult_comm k);
                            apply Qmult_le_compat_r; lra).
    split; [apply Qmult_le_0_compat; lra|].
    apply (Qle_trans _ (1 * (k * d))); [|lra].
    apply Qmult_le_compat_r; lra. }
  assert (R : (3 <= Math_round (60 * d) <= 60)%Z).
  { apply Math_round_between.
    - change (inject_Z 3) with 3. lra.
    - change (inject_Z 60) with 60. lra. }
  split; [|split; [|split]].
  - unfold stripeGrey. destruct (Z.rem i 2 =? 0)%Z; lia.
  - change (stripeGrey (gratingAmp c) 0) with (128 + gratingAmp c)%Z.
    change (stripeGrey (gratingAmp c) 1) with (128 + - gratingAmp c)%Z. lia.
  - unfold numberBackground. lia.
  - unfold noiseCell, noiseNumber.
    pose proof (P u1 80 U10 U11 ltac:(reflexivity)) as [P1 P1'].
    pose proof (P u2 60 U20 U21 ltac:(reflexivity)) as [P2 P2'].
    pose proof (P u3 80 U30 U31 ltac:(reflexivity)) as [P3 P3'].
    assert (R1 : (140 <= Math_round (140 + u1 * (80 * d)) <= 220)%Z).
    { apply Math_round_between.
      - change (inject_Z 140) with 140. lra.
      - change (inject_Z 220) with 220. lra. }
    assert (R2 : (120 <= Math_round (120 + u2 * (60 * d)) <= 180)%Z).
    { apply Math_round_between.
      - change (inject_Z 120) with 120. lra.
      - change (inject_Z 180) with 180. lra. }
    assert (R3 : (120 <= Math_round (120 + u3 * (80 * d)) <= 200)%Z).
    { apply Math_round_between.
      - change (inject_Z 120) with 120. lra.
      - change (inject_Z 200) with 200. lra. }
    lia.
Qed.

Lemma plates_are_drawn_visibly_witness :
  0.08 <= 0.14 <= 0.98 /\ 0.05 <= 0.7 <= 1
  /\ 0 <= 0.5 < 1 /\ 0 <= 0 < 1 /\ 0 <= 0.9 < 1
  /\ ((0 <= stripeGrey (gratingAmp 0.14) 3 <= 255)%Z
      /\ (20 <= stripeGrey (gratingAmp 0.14) 0 - stripeGrey (gratingAmp 0.14) 1)%Z
      /\ (0 <= numberGrey 0.14 <= numberBackground - 17)%Z
      /\ (let '(r, g, b) := noiseCell 0.5 0 0.9 0.7 in
          let '(nr, ng, nb) := noiseNumber 0.7 in
          (140 <= r <= 220 /\ 120 <= g <= 180 /\ 120 <= b <= 200
           /\ 83 <= nr <= 140 /\ 73 <= ng <= 130 /\ 73 <= nb <= 130
           /\ nr <= r)%Z)).
Proof.
  assert (H1 : 0.08 <= 0.14 <= 0.98) by (split; vm_compute; discriminate).
  assert (H2 : 0.05 <= 0.7 <= 1) by (split; vm_compute; discriminate).
  assert (H3 : 0 <= 0.5 < 1) by (split; [vm_compute; discriminate | reflexivity]).
  assert (H4 : 0 <= 0 < 1) by (split; [vm_compute; discriminate | reflexivity]).
  assert (H5 : 0 <= 0.9 < 1) by (split; [vm_compute; discriminate | reflexivity]).
  split; [exact H1|]. split; [exact H2|]. split; [exact H3|].
  split; [exact H4|]. split; [exact H5|].
  exact (plates_are_drawn_visibly 0.14 0.7 0.5 0 0.9 3 H1 H2 H3 H4 H5).
Defined.

Local Close Scope Q_scope.
Local Open Scope Z_scope.

(** *** Trimming *)

Lemma trimStart_head (s : jsstring) (c : N) (s' : jsstring) :
  trimStart s = c :: s' -> isWhiteSpace c = false.
Proof.
  induction s as [|a s IH]; cbn [trimStart]; [discriminate|].
  destruct (isWhiteSpace a) eqn:E; [exact IH|].
  intros H. inversion H; subst. exact E.
Qed.

Lemma trimStart_fixed (c : N) (s : jsstring) :
  isWhiteSpace c = false -> trimStart (c :: s) = c :: s.
Proof. intros H. cbn [trimStart]. rewrite H. reflexivity. Qed.

Lemma trimStart_idempotent (s : jsstring) : trimStart (trimStart s) = trimStart s.
Proof.
  destruct (trimStart s) as [|c s'] eqn:E; [reflexivity|].
  apply trimStart_fixed. eapply trimStart_head; eauto.
Qed.

Lemma trimStart_snoc (s : jsstring) (c : N) :
  isWhiteSpace c = false -> trimStart (s ++ [c]) = trimStart s ++ [c].
Proof.
  intros H. induction s as [|a s IH]; cbn [app trimStart].
  - rewrite H. reflexivity.
  - destruct (isWhiteSpace a); [exact IH | reflexivity].
Qed.

(** The shape of a trimmed string: empty, or from a first code unit that is
    not white space to a last one that is not. *)
Lemma trim_shape (s : jsstring) :
  trim s = []
  \/ exists c body,
       isWhiteSpace c = false
       /\ trimStart s = c :: body
       /\ trim s = c :: rev (trimStart (rev body)).
Proof.
  unfold trim, trimEnd.
  destruct (trimStart s) as [|c body] eqn:E; [left; reflexivity|].
  right. exists c, body.
  pose proof (trimStart_head _ _ _ E) as Hc.
  split; [exact Hc|]. split; [reflexivity|].
  cbn [rev]. rewrite (trimStart_snoc _ _ Hc), rev_app_distr. reflexivity.
Qed.

Lemma trim_idempotent (s : jsstring) : trim (trim s) = trim s.
Proof.
  destruct (trim_shape s) as [E|(c & body & Hc & _ & E)]; rewrite E.
  - reflexivity.
  - unfold trim, trimEnd. rewrite (trimStart_fixed _ _ Hc).
    cbn [rev]. rewrite rev_involutive.
    rewrite (trimStart_snoc _ _ Hc), trimStart_idempotent.
    rewrite rev_app_distr. reflexivity.
Qed.

Lemma trimEnd_last (s : jsstring) (c : N) (s' : jsstring) :
  trimEnd s = s' ++ [c] -> isWhiteSpace c = false.
Proof.
  unfold trimEnd. intros H.
  apply (f_equal (@rev N)) in H. rewrite rev_involutive, rev_app_distr in H.
  cbn in H. eapply trimStart_head; eauto.
Qed.

(** [trim] as the handler uses it: trimming twice is trimming once, a
    trimmed string neither starts nor ends with white space, and a string of
    white space only trims to the empty string. *)
Lemma trim_is_a_normal_form (s : jsstring) :
  trim (trim s) = trim s
  /\ (forall c rest, trim s = c :: rest -> isWhiteSpace c = false)
  /\ (forall c front, trim s = front ++ [c] -> isWhiteSpace c = false)
  /\ (forallb isWhiteSpace s = true -> trim s = []).
Proof.
  split; [apply trim_idempotent|]. split; [|split].
  - intros c rest H.
    destruct (trim_shape s) as [E|(c' & body & Hc & _ & E)];
      rewrite E in H; inversion H; subst; exact Hc.
  - intros c front H. unfold trim in H. eapply trimEnd_last; eauto.
  - intros H. assert (E : trimStart s = []).
    { induction s as [|a s IH]; [reflexivity|].
      cbn in H. apply andb_true_iff in H. destruct H as [Ha Hs].
      cbn [trimStart]. rewrite Ha. exact (IH Hs). }
    unfold trim. rewrite E. reflexivity.
Qed.

(** *** The history *)

Section WithCaseMapping.

Variable toLowerCase : jsstring -> jsstring.

Lemma currentPlate_in_pool (s : State) (cp : CurrentPlate) :
  currentPlate s = Some cp -> In (plate cp) basePlates.
Proof.
  unfold currentPlate, choosePlateForLevel, plateAt. intros H.
  destruct (_ <? 0); [discriminate|].
  destruct (nth_error basePlates _) as [p|] eqn:E; [|discriminate].
  apply nth_error_In in E.
  destruct p; inversion H; subst; exact E.
Qed.

Lemma HistoryInv_mount (seed : Z) : HistoryInv toLowerCase (mount seed).
Proof. split; [reflexivity | constructor]. Qed.

Lemma step_HistoryInv (s s' : State) (e : Event) (out : list Z) :
  HistoryInv toLowerCase s -> step toLowerCase s e = Some (s', out) ->
  HistoryInv toLowerCase s'.
Proof.
  intros [Ha Hf] H. destruct e; unfold step in H.
  - destruct (view s); inversion H; subst. split; assumption.
  - destruct (view s); inversion H; subst. split; [reflexivity | constructor].
  - destruct (view s); inversion H; subst. split; assumption.
  - destruct (view s); inversion H; subst. clear H.
    destruct (handleSubmit_cases toLowerCase s) as [[E _]|(cp & Hne & Hcp & E)].
    + rewrite E. split; assumption.
    + cbv zeta in E. rewrite E. clear E. unfold HistoryInv.
      cbn [history answers]. split.
      * rewrite map_app, Ha. reflexivity.
      * apply Forall_app. split; [exact Hf|].
        constructor; [|constructor]. cbn [user correct recPlate].
        split; [exact Hne|]. split; [apply trim_idempotent|].
        split; [reflexivity|]. eapply currentPlate_in_pool; eauto.
  - assert (E : match pendingFinish s with
                | [] => None
                | allRecords :: rest =>
                    Some (finishTest allRecords (set_pendingFinish rest s))
                end = Some (s', out))
      by (destruct (view s); exact H).
    destruct (pendingFinish s); [discriminate|].
    inversion E; subst. split; assumption.
  - destruct (view s); inversion H; subst. split; [reflexivity | constructor].
Qed.

Lemma run_HistoryInv (evs : list Event) :
  forall s s' outs,
    HistoryInv toLowerCase s -> run toLowerCase s evs = Some (s', outs) ->
    HistoryInv toLowerCase s'.
Proof.
  induction evs as [|e evs IH]; intros s s' outs I H; simpl in H.
  - inversion H; subst; exact I.
  - destruct (step toLowerCase s e) as [[s1 o1]|] eqn:E; [|discriminate].
    destruct (run toLowerCase s1 evs) as [[s2 o2]|] eqn:R; [|discriminate].
    inversion H; subst. eapply IH; [|exact R]. eapply step_HistoryInv; eauto.
Qed.

(** X11. In every reachable state [answers] and [history] hold the same
    answers in the same order; every recorded answer is not empty and is
    stored trimmed; every record's [correct] flag is the comparison of its
    answer with the plate recorded beside it, which is a plate of the pool;
    and the number of records is the trial index whenever a session is on
    screen with no finish callback pending. *)
Theorem history_is_consistent
  (seed : Z) (evs : list Event) (s : State) (outs : list Z) :
  run toLowerCase (mount seed) evs = Some (s, outs) ->
  map user (history s) = answers s
  /\ (forall r, In r (history s) ->
        user r <> [] /\ trim (user r) = user r
        /\ correct r = evaluate toLowerCase (recPlate r) (user r)
        /\ In (plate (recPlate r)) basePlates)
  /\ (pendingFinish s = [] -> view s = TestingView ->
      Z.of_nat (length (history s)) = trialIndex s
      /\ length (answers s) = length (history s)).
Proof.
  intros Hrun.
  destruct (run_HistoryInv _ _ _ _ (HistoryInv_mount seed) Hrun) as [Ha Hf].
  destruct (reachable_Inv _ _ _ _ _ Hrun) as (_ & _ & Hh).
  split; [exact Ha|]. split.
  - intros r Hin. rewrite Forall_forall in Hf. exact (Hf r Hin).
  - intros P V. destruct (Hh P V) as [L _]. split; [exact L|].
    rewrite <- Ha, length_map. reflexivity.
Qed.

(** X12. Which plate comes next.  After a submitted answer the pool index
    moves on by the trial step plus the level step: a wrong answer above
    level 0 shows the same plate again, a right answer below level 8 moves
    two entries on, and at the two ends of the staircase the index moves one
    entry on. *)
Theorem next_plate_index
  (seed : Z) (evs : list Event) (s : State) (outs : list Z) :
  run toLowerCase (mount seed) evs = Some (s, outs) ->
  trim (currentAnswer s) <> [] ->
  exists cp,
    currentPlate s = Some cp
    /\ let ok := evaluate toLowerCase cp (trim (currentAnswer s)) in
       let shift :=
         if ok then (if staircaseLevel s <? 8 then 2 else 1)
         else (if 0 <? staircaseLevel s then 0 else 1) in
       option_map plate (currentPlate (handleSubmit toLowerCase s))
       = plateAt (Z.rem (trialIndex s + staircaseLevel s
                         + Z.abs (hash (rngSeed s)) + shift) 9)
       /\ (ok = false -> 0 < staircaseLevel s ->
           option_map plate (currentPlate (handleSubmit toLowerCase s))
           = Some (plate cp)).
Proof.
  intros Hrun Hne.
  destruct (reachable_Inv _ _ _ _ _ Hrun) as (Ht & Hl & _).
  destruct (handleSubmit_cases toLowerCase s) as [[_ [E|E]]|(cp & _ & Hcp & E)].
  - contradiction.
  - destruct (currentPlate_defined s) as (cp & Hcp & _); [lia|lia|congruence].
  - exists cp. split; [exact Hcp|]. cbv zeta in E |- *.
    set (ok := evaluate toLowerCase cp (trim (currentAnswer s))) in *.
    assert (Hnext :
      option_map plate (currentPlate (handleSubmit toLowerCase s))
      = plateAt (Z.rem (trialIndex s + staircaseLevel s + Z.abs (hash (rngSeed s))
                        + (if ok then (if staircaseLevel s <? 8 then 2 else 1)
                           else (if 0 <? staircaseLevel s then 0 else 1))) 9)).
    { rewrite currentPlate_plate, choosePlateForLevel_index, E.
      cbn [trialIndex staircaseLevel rngSeed]. f_equal. f_equal.
      destruct ok.
      - destruct (Z.ltb_spec (staircaseLevel s) 8); lia.
      - destruct (Z.ltb_spec 0 (staircaseLevel s)); lia. }
    split; [exact Hnext|].
    intros Hok Hpos. rewrite Hnext, Hok.
    destruct (Z.ltb_spec 0 (staircaseLevel s)); [|lia].
    rewrite Z.add_0_r, <- choosePlateForLevel_index, <- currentPlate_plate, Hcp.
    reflexivity.
Qed.

(** X13. When the finish callback runs right after the submission that
    scheduled it, with no other callback pending, the results view comes on
    screen and shows the score handed to [onResult], computed from the same
    records. *)
Theorem shown_score_is_reported_score
  (s s1 s2 : State) (o1 out : list Z) :
  pendingFinish s = [] ->
  step toLowerCase s Submit = Some (s1, o1) ->
  step toLowerCase s1 FinishTimerFires = Some (s2, out) ->
  view s2 = ResultsView
  /\ out = [displayScore s2]
  /\ displayCorrect s2 = correctCount (history s1)
  /\ history s2 = history s1
  /\ pendingFinish s2 = [].
Proof.
  intros Hp H1 H2. unfold step in H1.
  destruct (view s); try discriminate. inversion H1; subst s1 o1; clear H1.
  assert (E2 : match pendingFinish (handleSubmit toLowerCase s) with
               | [] => None
               | allRecords :: rest =>
                   Some (finishTest allRecords
                           (set_pendingFinish rest (handleSubmit toLowerCase s)))
               end = Some (s2, out))
    by (unfold step in H2;
        first [exact H2 | destruct (view (handleSubmit toLowerCase s)); exact H2]).
  clear H2.
  destruct (handleSubmit_cases toLowerCase s) as [[E _]|(cp & _ & _ & E)].
  - rewrite E, Hp in E2. discriminate.
  - cbv zeta in E. rewrite E in E2 |- *. cbn [pendingFinish history] in E2 |- *.
    rewrite Hp in E2.
    destruct (trialIndex s + 1 >=? TOTAL_TRIALS); [|discriminate].
    cbn [app] in E2. inversion E2; subst. cbn. auto.
Qed.

End WithCaseMapping.

(** X14. Retry followed by Start Test, with no finish callback pending,
    begins a session in the state of a component just mounted with the same
    seed and started, only the calibration scale kept: trial index 0, level
    4, empty history, answers and input, and the same first plate. *)
Theorem retry_begins_a_fresh_session
  (toLowerCase : jsstring -> jsstring) (s : State) :
  view s = ResultsView ->
  pendingFinish s = [] ->
  run toLowerCase s [ClickRetry; ClickStartTest]
  = Some (set_scale (scale s) (startTest (mount (rngSeed s))), [])
  /\ option_map plate
       (currentPlate (set_scale (scale s) (startTest (mount (rngSeed s)))))
     = option_map plate (currentPlate (startTest (mount (rngSeed s)))).
Proof.
  intros V P. split; [|reflexivity].
  destruct s as [ph sc ti lv an ca hi sr sd pf]. cbn in V, P. subst pf.
  destruct ph; try discriminate. destruct sr; try discriminate.
  reflexivity.
Qed.

Lemma history_is_consistent_witness :
  run asciiLowerCase (mount 0)
      (session scenarioC_first8 ++ [ChangeAnswer (str "horizontal")])
  = Some (scenarioC_typed, [])
  /\ (map user (history scenarioC_typed) = answers scenarioC_typed
      /\ (forall r, In r (history scenarioC_typed) ->
            user r <> [] /\ trim (user r) = user r
            /\ correct r = evaluate asciiLowerCase (recPlate r) (user r)
            /\ In (plate (recPlate r)) basePlates)
      /\ (pendingFinish scenarioC_typed = [] -> view scenarioC_typed = TestingView ->
          Z.of_nat (length (history scenarioC_typed)) = trialIndex scenarioC_typed
          /\ length (answers scenarioC_typed) = length (history scenarioC_typed))).
Proof.
  assert (H : run asciiLowerCase (mount 0)
                (session scenarioC_first8 ++ [ChangeAnswer (str "horizontal")])
              = Some (scenarioC_typed, [])) by (vm_compute; reflexivity).
  split; [exact H|].
  exact (history_is_consistent asciiLowerCase 0 _ _ _ H).
Defined.

(** The sixth answer of scenario C was typed with spaces around it and is
    stored without them. *)
Example stored_answer_is_trimmed :
  nth_error (answers scenarioC_typed) 5 = Some (str "7").
Proof. reflexivity. Qed.

Lemma next_plate_index_witness :
  run asciiLowerCase (mount 0)
      (session scenarioC_first8 ++ [ChangeAnswer (str "horizontal")])
  = Some (scenarioC_typed, [])
  /\ trim (currentAnswer scenarioC_typed) <> []
  /\ exists cp,
       currentPlate scenarioC_typed = Some cp
       /\ let ok := evaluate asciiLowerCase cp (trim (currentAnswer scenarioC_typed)) in
          let shift :=
            if ok then (if staircaseLevel scenarioC_typed <? 8 then 2 else 1)
            else (if 0 <? staircaseLevel scenarioC_typed then 0 else 1) in
          option_map plate (currentPlate (handleSubmit asciiLowerCase scenarioC_typed))
          = plateAt (Z.rem (trialIndex scenarioC_typed + staircaseLevel scenarioC_typed
                            + Z.abs (hash (rngSeed scenarioC_typed)) + shift) 9)
          /\ (ok = false -> 0 < staircaseLevel scenarioC_typed ->
              option_map plate (currentPlate (handleSubmit asciiLowerCase scenarioC_typed))
              = Some (plate cp)).
Proof.
  assert (H1 : run asciiLowerCase (mount 0)
                 (session scenarioC_first8 ++ [ChangeAnswer (str "horizontal")])
               = Some (scenarioC_typed, [])) by (vm_compute; reflexivity).
  assert (H2 : trim (currentAnswer scenarioC_typed) <> [])
    by (vm_compute; discriminate).
  split; [exact H1|]. split; [exact H2|].
  exact (next_plate_index asciiLowerCase 0 _ _ _ H1 H2).
Defined.

(** The wrong answers of scenarios C and E: the vertical grating, then the
    number 7, shown again and again. *)
Example wrong_answers_repeat_the_plate :
  option_map plate (currentPlate scenarioC_typed) = Some (grating vertical 0.85 8)
  /\ option_map plate (currentPlate scenarioC_submitted)
     = Some (grating vertical 0.85 8).
Proof. split; vm_compute; reflexivity. Qed.

Lemma shown_score_is_reported_score_witness :
  pendingFinish scenarioC_typed = []
  /\ step asciiLowerCase scenarioC_typed Submit = Some (scenarioC_submitted, [])
  /\ step asciiLowerCase scenarioC_submitted FinishTimerFires = Some (scenarioC_done, [7])
  /\ (view scenarioC_done = ResultsView
      /\ [7] = [displayScore scenarioC_done]
      /\ displayCorrect scenarioC_done = correctCount (history scenarioC_submitted)
      /\ history scenarioC_done = history scenarioC_submitted
      /\ pendingFinish scenarioC_done = []).
Proof.
  assert (H1 : pendingFinish scenarioC_typed = []) by reflexivity.
  assert (H2 : step asciiLowerCase scenarioC_typed Submit
               = Some (scenarioC_submitted, [])) by (vm_compute; reflexivity).
  assert (H3 : step asciiLowerCase scenarioC_submitted FinishTimerFires
               = Some (scenarioC_done, [7])) by (vm_compute; reflexivity).
  split; [exact H1|]. split; [exact H2|]. split; [exact H3|].
  exact (shown_score_is_reported_score asciiLowerCase _ _ _ _ _ H1 H2 H3).
Defined.

(** A tenth answer submitted before the finish callback runs: the callback
    reports the nine-trial score, the results view shows the score of ten
    records. *)
Example late_submission_shows_another_score :
  option_map
    (fun p => (snd p, displayScore (fst p), length (history (fst p))))
    (run asciiLowerCase scenarioC_submitted
         [ChangeAnswer (str "vertical"); Submit; FinishTimerFires])
  = Some ([7], 8, 10%nat).
Proof. vm_compute. reflexivity. Qed.

Lemma retry_begins_a_fresh_session_witness :
  view scenarioC_done = ResultsView
  /\ pendingFinish scenarioC_done = []
  /\ (run asciiLowerCase scenarioC_done [ClickRetry; ClickStartTest]
      = Some (set_scale (scale scenarioC_done)
                (startTest (mount (rngSeed scenarioC_done))), [])
      /\ option_map plate
           (currentPlate (set_scale (scale scenarioC_done)
                            (startTest (mount (rngSeed scenarioC_done)))))
         = option_map plate (currentPlate (startTest (mount (rngSeed scenarioC_done))))).
Proof.
  assert (H1 : view scenarioC_done = ResultsView) by reflexivity.
  assert (H2 : pendingFinish scenarioC_done = []) by reflexivity.
  split; [exact H1|]. split; [exact H2|].
  exact (retry_begins_a_fresh_session asciiLowerCase scenarioC_done H1 H2).
Defined.

End ContrastViewProofs.


(** * Further properties of the gaze tracker *)

Module IrisTrackerFramesProofs.

Import IrisTracker IrisTrackerFrames IrisTrackerProofs Page.

(** *** Eye centroids *)

Lemma sumLandmarks_spec (lm : list Point) (indices : list nat) :
  forall sx sy,
    (Forall (fun i => (i < length lm)%nat) indices ->
     exists sx' sy', sumLandmarks lm indices sx sy = Some (sx', sy'))
    /\ (forall sx' sy', sumLandmarks lm indices sx sy = Some (sx', sy') ->
        Forall (fun i => (i < length lm)%nat) indices).
Proof.
  induction indices as [|i rest IH]; intros sx sy; cbn [sumLandmarks].
  - split; [eauto | constructor].
  - split.
    + intros H. inversion H as [|? ? Hi Hrest]; subst.
      destruct (nth_error lm i) as [p|] eqn:E.
      * apply (proj1 (IH _ _)), Hrest.
      * apply nth_error_None in E. lia.
    + intros sx' sy' H.
      destruct (nth_error lm i) as [p|] eqn:E; [|discriminate].
      constructor.
      * apply nth_error_Some. congruence.
      * eapply (proj2 (IH _ _)); eauto.
Qed.

(** [eyeCentroid] is defined exactly when every index of the group is
    inside the landmark array. *)
Lemma eyeCentroid_defined (lm : list Point) (indices : list nat) :
  (exists c, eyeCentroid lm indices = Some c)
  <-> Forall (fun i => (i < length lm)%nat) indices.
Proof.
  unfold eyeCentroid. split.
  - intros [c H].
    destruct (sumLandmarks lm indices 0 0) as [[sx sy]|] eqn:E; [|discriminate].
    eapply (proj2 (sumLandmarks_spec _ _ _ _)); eauto.
  - intros H.
    destruct (proj1 (sumLandmarks_spec lm indices 0 0) H) as (sx & sy & E).
    rewrite E. eauto.
Qed.

(** X15. [eyeCentroid] yields a value exactly when every index of the
    group is inside the landmark array (otherwise the read of a missing
    landmark throws), whatever the coordinates are.  For the two groups of
    the tracker: the left eye's centroid needs at least 247 landmarks, the
    right eye's at least 467, so both are there exactly from 467 landmarks
    on. *)
Theorem eyeCentroid_needs_its_landmarks (lm : list Point) (indices : list nat) :
  ((exists c, eyeCentroid lm indices = Some c)
   <-> Forall (fun i => (i < length lm)%nat) indices)
  /\ ((exists c, eyeCentroid lm leftEyeIdx = Some c) <-> (247 <= length lm)%nat)
  /\ ((exists c, eyeCentroid lm rightEyeIdx = Some c) <-> (467 <= length lm)%nat)
  /\ (forall lm' : list Point,
        length lm' = length lm ->
        (exists c, eyeCentroid lm indices = Some c)
        <-> (exists c, eyeCentroid lm' indices = Some c)).
Proof.
  split; [apply eyeCentroid_defined|].
  split; [|split].
  - rewrite eyeCentroid_defined. unfold leftEyeIdx. split.
    + intros F. repeat match goal with
        | H : Forall _ (_ :: _) |- _ => inversion H; subst; clear H
        end. lia.
    + intros L. repeat constructor; lia.
  - rewrite eyeCentroid_defined. unfold rightEyeIdx. split.
    + intros F. repeat match goal with
        | H : Forall _ (_ :: _) |- _ => inversion H; subst; clear H
        end. lia.
    + intros L. repeat constructor; lia.
  - intros lm' E. rewrite !eyeCentroid_defined, E. reflexivity.
Qed.

(** *** Frames and counters *)

Lemma thresholds_exclusive (v t : Q) :
  (0 < t)%Q -> Qle_bool v (- t) = true -> Qle_bool t v = true -> False.
Proof.
  intros Ht H1 H2. apply Qle_bool_iff in H1, H2. lra.
Qed.

Lemma no_move_no_detection (a b t : Q) :
  (0 < t)%Q ->
  Qle_bool ((a - a + (b - b)) / 2) (- t) = false
  /\ Qle_bool t ((a - a + (b - b)) / 2) = false.
Proof.
  intros Ht.
  assert (E : ((a - a + (b - b)) / 2 == 0)%Q) by field.
  split.
  - destruct (Qle_bool _ _) eqn:H; [|reflexivity].
    apply Qle_bool_iff in H. rewrite E in H. lra.
  - destruct (Qle_bool t _) eqn:H; [|reflexivity].
    apply Qle_bool_iff in H. rewrite E in H. lra.
Qed.

Lemma DX_positive : (0 < DX_THRESHOLD)%Q.
Proof. reflexivity. Qed.

Lemma DY_positive : (0 < DY_THRESHOLD)%Q.
Proof. reflexivity. Qed.

(** The counters after [track]: on each axis at most one of the two moves,
    by one. *)
Lemma track_counters (leftC rightC : Point) (s : State) :
  let d := detections s in
  let d' := detections (track leftC rightC s) in
  left d <= left d' /\ right d <= right d'
  /\ up d <= up d' /\ down d <= down d'
  /\ left d' + right d' <= left d + right d + 1
  /\ up d' + down d' <= up d + down d + 1
  /\ frameCount (track leftC rightC s) = frameCount s
  /\ (baseline s = None -> d' = d).
Proof.
  unfold track. cbv zeta.
  cbn [set_baseline set_detections detections frameCount baseline].
  destruct (baseline s) as [b|] eqn:Hb.
  - destruct (Qle_bool _ (- DX_THRESHOLD)) eqn:X1;
      destruct (Qle_bool DX_THRESHOLD _) eqn:X2;
      try (exfalso; exact (thresholds_exclusive _ _ DX_positive X1 X2));
      destruct (Qle_bool _ (- DY_THRESHOLD)) eqn:Y1;
      destruct (Qle_bool DY_THRESHOLD _) eqn:Y2;
      try (exfalso; exact (thresholds_exclusive _ _ DY_positive Y1 Y2));
      cbn [left right up down];
      repeat split; try lia; discriminate.
  - cbn [lx ly rx ry].
    destruct (no_move_no_detection (x leftC) (x rightC) _ DX_positive) as [-> ->].
    destruct (no_move_no_detection (y leftC) (y rightC) _ DY_positive) as [-> ->].
    repeat split; lia.
Qed.

(** X16. What one frame can do.  Whatever FaceMesh delivers, the handler
    counts at most one frame, never lowers a counter, and raises at most one
    of left/right and at most one of up/down, each by one; a frame without
    a face, or with a landmark of an eye group missing, leaves the counters,
    the baseline and the calibration counter as they were. *)
Theorem frame_moves_each_axis_once (results : Results) (s : State) :
  let d := detections s in
  let d' := detections (onResults results s) in
  (left d <= left d' /\ right d <= right d'
   /\ up d <= up d' /\ down d <= down d'
   /\ left d' + right d' <= left d + right d + 1
   /\ up d' + down d' <= up d + down d + 1
   /\ frameCount s <= frameCount (onResults results s) <= frameCount s + 1)
  /\ (match multiFaceLandmarks results with
      | Some (lm :: _) => (length lm <= 466)%nat
      | _ => True
      end ->
      d' = d
      /\ baseline (onResults results s) = baseline s
      /\ calibFrames (onResults results s) = calibFrames s).
Proof.
  cbv zeta. unfold onResults.
  destruct (isMounted s); cbn [negb];
    [|split; [repeat split; lia | auto]].
  destruct (multiFaceLandmarks results) as [[|lm faces]|];
    cbn [set_frameCount detections frameCount baseline calibFrames];
    try (split; [repeat split; lia | auto]).
  destruct (eyeCentroid lm leftEyeIdx) as [leftC|] eqn:EL;
    cbn [set_frameCount detections frameCount baseline calibFrames];
    [|split; [repeat split; lia | auto]].
  destruct (eyeCentroid lm rightEyeIdx) as [rightC|] eqn:ER;
    cbn [set_frameCount detections frameCount baseline calibFrames];
    [|split; [repeat split; lia | auto]].
  split.
  - match goal with |- context [if ?c then _ else _] => destruct c end.
    + unfold calibrate.
      cbn [set_frameCount set_baseline set_calibFrames detections frameCount].
      repeat split; lia.
    + pose proof (track_counters leftC rightC
                    (set_frameCount (frameCount s + 1) s)) as T.
      cbv zeta in T. cbn [set_frameCount detections frameCount] in T.
      destruct T as (T1 & T2 & T3 & T4 & T5 & T6 & T7 & _).
      rewrite T7. repeat split; lia.
  - intros Hshort. exfalso.
    assert (Hr : exists c, eyeCentroid lm rightEyeIdx = Some c) by eauto.
    apply eyeCentroid_defined in Hr.
    rewrite Forall_forall in Hr.
    assert (H466 : (466 < length lm)%nat).
    { apply Hr. unfold rightEyeIdx. cbn. auto 10. }
    lia.
Qed.

(** A face with too few landmarks, after a calibrated start. *)
Example short_landmark_array :
  let s := stateAfter mount [ClickStart Started; Frame (faceAt 0.5 0.5)] in
  let short := mkResults (Some [repeat (mkPoint 0.1 0.1) 300]) in
  detections (onResults short s) = detections s
  /\ frameCount (onResults short s) = 2.
Proof. split; vm_compute; reflexivity. Qed.

Lemma onResults_FrameInv (results : Results) (s : State) :
  FrameInv s -> FrameInv (onResults results s).
Proof.
  unfold FrameInv. cbv zeta. intros (L & R & U & D & H & V & Z0).
  unfold onResults.
  destruct (isMounted s); cbn [negb]; [|repeat split; assumption].
  destruct (multiFaceLandmarks results) as [[|lm faces]|];
    cbn [set_frameCount detections frameCount baseline calibFrames];
    try (repeat split; try lia; exact Z0).
  destruct (eyeCentroid lm leftEyeIdx) as [leftC|];
    cbn [set_frameCount detections frameCount baseline calibFrames];
    [|repeat split; try lia; exact Z0].
  destruct (eyeCentroid lm rightEyeIdx) as [rightC|];
    cbn [set_frameCount detections frameCount baseline calibFrames];
    [|repeat split; try lia; exact Z0].
  destruct (baseline s) as [b|] eqn:Hb.
  - cbn [andb].
    pose proof (track_counters leftC rightC
                  (set_frameCount (frameCount s + 1) s)) as T.
    cbv zeta in T. cbn [set_frameCount detections frameCount baseline] in T.
    destruct T as (T1 & T2 & T3 & T4 & T5 & T6 & T7 & _).
    rewrite T7.
    assert (B : baseline (track leftC rightC (set_frameCount (frameCount s + 1) s))
                = Some b).
    { unfold track. cbn [set_frameCount set_baseline set_detections baseline].
      rewrite Hb. reflexivity. }
    rewrite B. repeat split; try lia; try discriminate; intros X; discriminate X.
  - destruct (calibFrames s <? CALIB_DURATION_FRAMES); cbn [andb].
    + unfold calibrate.
      cbn [set_frameCount set_baseline set_calibFrames detections frameCount baseline].
      repeat split; try lia; try discriminate; intros X; discriminate X.
    + pose proof (track_counters leftC rightC
                    (set_frameCount (frameCount s + 1) s)) as T.
      cbv zeta in T. cbn [set_frameCount detections frameCount baseline] in T.
      destruct T as (_ & _ & _ & _ & _ & _ & T7 & T8).
      rewrite T7, (T8 Hb).
      assert (B : exists b, baseline (track leftC rightC
                                       (set_frameCount (frameCount s + 1) s))
                            = Some b).
      { unfold track. cbn [set_frameCount set_baseline set_detections baseline].
        eauto. }
      destruct B as [b ->]. repeat split; try lia; try discriminate; intros X; discriminate X.
Qed.

Lemma step_FrameInv (s s' : State) (e : Event) (out : list ResultSummary) :
  FrameInv s -> step s e = Some (s', out) -> FrameInv s'.
Proof.
  intros I H. destruct e as [o| | |results].
  - unfold step in H. destruct (running s); inversion H; subst; [exact I|].
    unfold FrameInv. destruct o; cbn; repeat split; lia.
  - unfold step in H. destruct (running s); inversion H; subst; exact I.
  - unfold step in H. destruct (stopTimer s); inversion H; subst; exact I.
  - unfold step in H. destruct (faceMesh s); inversion H; subst.
    apply onResults_FrameInv, I.
Qed.

Lemma run_FrameInv (evs : list Event) :
  forall s s' outs, FrameInv s -> run s evs = Some (s', outs) -> FrameInv s'.
Proof.
  induction evs as [|e evs IH]; intros s s' outs I H; simpl in H.
  - inversion H; subst; exact I.
  - destruct (step s e) as [[s1 o1]|] eqn:E; [|discriminate].
    destruct (run s1 evs) as [[s2 o2]|] eqn:R; [|discriminate].
    inversion H; subst. eapply IH; [|exact R]. eapply step_FrameInv; eauto.
Qed.

Lemma FrameInv_mount : FrameInv mount.
Proof. unfold FrameInv. cbn. repeat split; lia. Qed.

(** A result is built from the counters of the state it is emitted in. *)
Lemma emitted_result (s s' : State) (e : Event) (out : list ResultSummary)
      (r : ResultSummary) :
  step s e = Some (s', out) -> In r out ->
  let d := detections s in
  r = mkResult (left d >=? MIN_DETECTIONS) (right d >=? MIN_DETECTIONS)
               (up d >=? MIN_DETECTIONS) (down d >=? MIN_DETECTIONS)
               (if (left d >=? MIN_DETECTIONS) && (right d >=? MIN_DETECTIONS)
                   && (up d >=? MIN_DETECTIONS) && (down d >=? MIN_DETECTIONS)
                then normal else abnormal).
Proof.
  intros H Hin. destruct e as [o| | |results]; unfold step in H.
  - destruct (running s); inversion H; subst; destruct Hin.
  - destruct (running s); inversion H; subst; [|destruct Hin].
    destruct Hin as [<-|[]]. reflexivity.
  - destruct (stopTimer s); inversion H; subst.
    destruct Hin as [<-|[]]. reflexivity.
  - destruct (faceMesh s); inversion H; subst; destruct Hin.
Qed.

(** X17. A verdict needs frames.  Along every run, when a session ends the
    frames it has counted bound what it can report: a direction is seen only
    after at least 9 frames (one for the baseline and 8 detections), left
    and right are both seen only after at least 17, so a normal verdict
    needs at least 17 frames, and a session ended before its 9th frame
    reports no direction seen and abnormal. *)
Theorem verdict_needs_frames
  (evs : list Event) (s s' : State) (outs out : list ResultSummary)
  (e : Event) (r : ResultSummary) :
  run mount evs = Some (s, outs) ->
  step s e = Some (s', out) ->
  In r out ->
  (leftSeen r = true \/ rightSeen r = true \/ upSeen r = true \/ downSeen r = true ->
   9 <= frameCount s)
  /\ (leftSeen r = true /\ rightSeen r = true -> 17 <= frameCount s)
  /\ (verdict r = normal -> 17 <= frameCount s)
  /\ (frameCount s < 9 -> r = mkResult false false false false abnormal).
Proof.
  intros Hrun Hstep Hin.
  pose proof (run_FrameInv _ _ _ _ FrameInv_mount Hrun) as I.
  pose proof (emitted_result _ _ _ _ _ Hstep Hin) as E. cbv zeta in E.
  unfold FrameInv in I. cbv zeta in I.
  destruct I as (L & R & U & D & H & V & Z0).
  unfold MIN_DETECTIONS in E.
  set (d := detections s) in *.
  assert (K : (left d = 0 /\ right d = 0 /\ up d = 0 /\ down d = 0)
              \/ (left d + right d + 1 <= frameCount s
                  /\ up d + down d + 1 <= frameCount s)).
  { destruct (baseline s) as [b|].
    - right. split; lia.
    - left. rewrite (Z0 eq_refl). cbn. auto. }
  assert (G : forall n, (n >=? 8) = true <-> 8 <= n).
  { intros n. destruct (Z.geb_spec n 8); split; intros; try reflexivity;
      try discriminate; lia. }
  subst r. cbn [leftSeen rightSeen upSeen downSeen verdict].
  split; [|split; [|split]].
  - rewrite !G. lia.
  - rewrite !G. lia.
  - destruct (left d >=? 8) eqn:GL; [|discriminate].
    destruct (right d >=? 8) eqn:GR; [|discriminate].
    intros _. apply G in GL, GR. lia.
  - intros Hfew.
    assert (GL : (left d >=? 8) = false) by (destruct (Z.geb_spec (left d) 8); [lia | reflexivity]).
    assert (GR : (right d >=? 8) = false) by (destruct (Z.geb_spec (right d) 8); [lia | reflexivity]).
    assert (GU : (up d >=? 8) = false) by (destruct (Z.geb_spec (up d) 8); [lia | reflexivity]).
    assert (GD : (down d >=? 8) = false) by (destruct (Z.geb_spec (down d) 8); [lia | reflexivity]).
    rewrite GL, GR, GU, GD. reflexivity.
Qed.

(** X18. The page and the tracker agree: for every result the tracker
    hands over, the page's message is the normal one exactly when the
    result's verdict is normal. *)
Theorem page_message_follows_verdict
  (s s' : State) (e : Event) (out : list ResultSummary) (r : ResultSummary) :
  step s e = Some (s', out) ->
  In r out ->
  (onComplete r = AppearsNormal <-> verdict r = normal)
  /\ (onComplete r = AbnormalDetected <-> verdict r = abnormal).
Proof.
  intros Hstep Hin.
  pose proof (emitted_result _ _ _ _ _ Hstep Hin) as E. cbv zeta in E.
  subst r. unfold onComplete, isNormal.
  cbn [leftSeen rightSeen upSeen downSeen verdict].
  destruct (_ >=? _), (_ >=? _), (_ >=? _), (_ >=? _); cbn;
    split; split; intros; try reflexivity; discriminate.
Qed.

(** X19. A new session does not depend on the sessions before it: Start
    pressed on two idle trackers, whatever earlier sessions left in their
    counters, baseline and frame counts, leads to the same state, so the
    same frames and clicks give the same results. *)
Theorem sessions_are_independent (s1 s2 : State) (evs : list Event) :
  running s1 = false ->
  running s2 = false ->
  run s1 (ClickStart Started :: evs) = run s2 (ClickStart Started :: evs).
Proof.
  intros R1 R2. cbn [run step]. rewrite R1, R2. reflexivity.
Qed.

Lemma verdict_needs_frames_witness :
  run mount scenarioD_events = Some (scenarioD_state, [])
  /\ step scenarioD_state ClickStop = Some (scenarioD_stopped, [scenarioD_result])
  /\ In scenarioD_result [scenarioD_result]
  /\ ((leftSeen scenarioD_result = true \/ rightSeen scenarioD_result = true
       \/ upSeen scenarioD_result = true \/ downSeen scenarioD_result = true ->
       9 <= frameCount scenarioD_state)
      /\ (leftSeen scenarioD_result = true /\ rightSeen scenarioD_result = true ->
          17 <= frameCount scenarioD_state)
      /\ (verdict scenarioD_result = normal -> 17 <= frameCount scenarioD_state)
      /\ (frameCount scenarioD_state < 9 ->
          scenarioD_result = mkResult false false false false abnormal)).
Proof.
  assert (H1 : run mount scenarioD_events = Some (scenarioD_state, []))
    by (vm_compute; reflexivity).
  assert (H2 : step scenarioD_state ClickStop
               = Some (scenarioD_stopped, [scenarioD_result]))
    by (vm_compute; reflexivity).
  assert (H3 : In scenarioD_result [scenarioD_result]) by (simpl; auto).
  split; [exact H1|]. split; [exact H2|]. split; [exact H3|].
  exact (verdict_needs_frames _ _ _ _ _ _ _ H1 H2 H3).
Defined.

Lemma page_message_follows_verdict_witness :
  step scenarioD_state ClickStop = Some (scenarioD_stopped, [scenarioD_result])
  /\ In scenarioD_result [scenarioD_result]
  /\ ((onComplete scenarioD_result = AppearsNormal <-> verdict scenarioD_result = normal)
      /\ (onComplete scenarioD_result = AbnormalDetected
          <-> verdict scenarioD_result = abnormal)).
Proof.
  assert (H2 : step scenarioD_state ClickStop
               = Some (scenarioD_stopped, [scenarioD_result]))
    by (vm_compute; reflexivity).
  assert (H3 : In scenarioD_result [scenarioD_result]) by (simpl; auto).
  split; [exact H2|]. split; [exact H3|].
  exact (page_message_follows_verdict _ _ _ _ _ H2 H3).
Defined.

(** A result the tracker never builds: the page and the verdict differ. *)
Example page_ignores_the_verdict_field :
  onComplete (mkResult true true true true abnormal) = AppearsNormal.
Proof. reflexivity. Qed.

Lemma sessions_are_independent_witness :
  running mount = false
  /\ running scenarioD_stopped = false
  /\ run mount (ClickStart Started :: centreThenLeft)
     = run scenarioD_stopped (ClickStart Started :: centreThenLeft).
Proof.
  assert (H1 : running mount = false) by reflexivity.
  assert (H2 : running scenarioD_stopped = false) by reflexivity.
  split; [exact H1|]. split; [exact H2|].
  exact (sessions_are_independent mount scenarioD_stopped
           centreThenLeft H1 H2).
Defined.

(** When the FaceMesh library is missing, Start leaves the calibration
    counter of the session before it. *)
Example failed_start_keeps_calibFrames :
  calibFrames (clickStart NoFaceMeshLib scenarioD_stopped) = 1
  /\ calibFrames (clickStart NoFaceMeshLib mount) = 0.
Proof. split; reflexivity. Qed.

End IrisTrackerFramesProofs.
